(** * Outline extraction from PDF layout: a shallow embedding of
      [extract_outline.py] and the properties of its heuristic engine.

    Conventions of the embedding.
    - A Python [str] is a [string]; its characters are read as the
      code points U+0000..U+00FF and classified as CPython classifies
      them ([str.isspace], [str.isdigit], [str.isupper], ...).
    - A Python [float] (font sizes, coordinates, scores) is a rational
      [Q] carrying the exact value; [round] is round-half-to-even.
      Equality of floats is [Qeq].  The one irrational library call,
      [statistics.stdev], is kept symbolic (see [spread]).  Arithmetic
      on these values is exact: where Python rounds a mean, a median or
      a sum to the nearest double the embedding does not, so a statement
      below that depends on such a value at a threshold is a statement
      about exact sizes.
    - [doc.metadata] is a dict; the title is one of its keys or is
      missing.  A document whose [metadata] is [None] is not a value of
      [Document], so nothing below says that [extract_outline] returns
      on every document.
    - A Python [int] that can be negative (page numbers, TOC levels,
      span flags, the raw score) is a [Z]; a length or a count is a [nat].
    - An exception is a value of [PyExn]; code that may raise lives in
      the error monad [exc]. *)

From Stdlib Require Import List String Ascii Bool Arith ZArith NArith QArith.
From Stdlib Require Import Qround Lia Lqa Permutation Sorted DecimalString.
Import ListNotations.

Local Open Scope string_scope.
Local Open Scope list_scope.

(* ================================================================= *)
(** ** Exceptions *)

Inductive PyExn : Type :=
| IndexError
| ZeroDivisionError
| StatisticsError.

Inductive exc (A : Type) : Type :=
| Ok (a : A)
| Raise (e : PyExn).
Arguments Ok {A} a.
Arguments Raise {A} e.

Definition bind {A B : Type} (m : exc A) (k : A -> exc B) : exc B :=
  match m with
  | Ok a => k a
  | Raise e => Raise e
  end.

Notation "x <- m ;; k" := (bind m (fun x => k))
  (at level 61, m at next level, right associativity).

(** [for x in l: acc = body(acc, x)] where the body may raise. *)
Fixpoint for_each {A S : Type} (body : S -> A -> exc S) (l : list A) (acc : S)
  : exc S :=
  match l with
  | [] => Ok acc
  | x :: l' => acc' <- body acc x ;; for_each body l' acc'
  end.

(* ================================================================= *)
(** ** Python string methods *)

Module PyStr.

Definition code (c : ascii) : N := N_of_ascii c.

Definition between (lo hi n : N) : bool := ((lo <=? n) && (n <=? hi))%N.

(** [c.isspace()] *)
Definition isspace (c : ascii) : bool :=
  let n := code c in
  between 9 13 n || between 28 32 n || (n =? 133)%N || (n =? 160)%N.

(** [c.isdigit()]: the ASCII digits and the superscripts 1, 2, 3. *)
Definition isdigit (c : ascii) : bool :=
  let n := code c in
  between 48 57 n || (n =? 178)%N || (n =? 179)%N || (n =? 185)%N.

(** [c.isupper()] *)
Definition isupper (c : ascii) : bool :=
  let n := code c in
  between 65 90 n || between 192 214 n || between 216 222 n.

(** [c.islower()] *)
Definition islower (c : ascii) : bool :=
  let n := code c in
  between 97 122 n || (n =? 170)%N || (n =? 181)%N || (n =? 186)%N
  || between 223 246 n || between 248 255 n.

(** [c.lower()] *)
Definition lower_char (c : ascii) : ascii :=
  if isupper c then ascii_of_N (code c + 32) else c.

(** Regular-expression classes [\d], [\s], [\w] and [[A-Z]]. *)
Definition re_digit (c : ascii) : bool := between 48 57 (code c).
Definition re_space (c : ascii) : bool := isspace c.
Definition re_AZ (c : ascii) : bool := between 65 90 (code c).
Definition re_word (c : ascii) : bool :=
  let n := code c in
  isupper c || islower c || isdigit c || between 188 190 n || (n =? 95)%N.

Definition chars (s : string) : list ascii := list_ascii_of_string s.
Definition str (l : list ascii) : string := string_of_list_ascii l.

(** [len(s)] *)
Definition len (s : string) : nat := List.length (chars s).

(** [not s] *)
Definition is_empty (s : string) : bool :=
  match s with
  | EmptyString => true
  | String _ _ => false
  end.

(** [s.split()]: the maximal runs of non-whitespace characters.
    [cur] is the current run, reversed. *)
Fixpoint split_from (cur : list ascii) (l : list ascii) : list (list ascii) :=
  match l with
  | [] => match cur with [] => [] | _ :: _ => [rev cur] end
  | c :: l' =>
      if isspace c
      then match cur with
           | [] => split_from [] l'
           | _ :: _ => rev cur :: split_from [] l'
           end
      else split_from (c :: cur) l'
  end.

Definition split (s : string) : list string :=
  map str (split_from [] (chars s)).

Fixpoint lstrip_chars (l : list ascii) : list ascii :=
  match l with
  | [] => []
  | c :: l' => if isspace c then lstrip_chars l' else l
  end.

Definition rstrip_chars (l : list ascii) : list ascii :=
  rev (lstrip_chars (rev l)).

(** [s.rstrip()] and [s.strip()] *)
Definition rstrip (s : string) : string := str (rstrip_chars (chars s)).
Definition strip (s : string) : string :=
  str (rstrip_chars (lstrip_chars (chars s))).

(** [s.endswith('.')] *)
Definition endswith_period (s : string) : bool :=
  match rev (chars s) with
  | [] => false
  | c :: _ => (code c =? 46)%N
  end.

(** [s.isdigit()]: non-empty and made of digits only. *)
Definition isdigit_str (s : string) : bool :=
  negb (is_empty s) && forallb isdigit (chars s).

(** [s.isupper()]: no lowercase character and at least one uppercase. *)
Definition isupper_str (s : string) : bool :=
  negb (existsb islower (chars s)) && existsb isupper (chars s).

(** [s.istitle()]: uppercase characters only after uncased ones,
    lowercase only after cased ones, and at least one cased character. *)
Fixpoint istitle_from (previous_is_cased cased : bool) (l : list ascii) : bool :=
  match l with
  | [] => cased
  | c :: l' =>
      if isupper c
      then if previous_is_cased then false else istitle_from true true l'
      else if islower c
           then if previous_is_cased then istitle_from true true l' else false
           else istitle_from false cased l'
  end.

Definition istitle (s : string) : bool := istitle_from false false (chars s).

(** [s.lower()] *)
Definition lower (s : string) : string := str (map lower_char (chars s)).

Fixpoint prefixb (p l : list ascii) : bool :=
  match p, l with
  | [], _ => true
  | _ :: _, [] => false
  | a :: p', b :: l' => Ascii.eqb a b && prefixb p' l'
  end.

Fixpoint contains_chars (needle hay : list ascii) : bool :=
  prefixb needle hay ||
  match hay with
  | [] => false
  | _ :: hay' => contains_chars needle hay'
  end.

(** [needle in hay] *)
Definition contains (needle hay : string) : bool :=
  contains_chars (chars needle) (chars hay).

(** [" ".join(parts)] *)
Fixpoint join_space (parts : list string) : string :=
  match parts with
  | [] => EmptyString
  | [p] => p
  | p :: rest => (p ++ " " ++ join_space rest)%string
  end.

(** [os.path.basename(path)]: what follows the last slash. *)
Fixpoint basename_from (cur : list ascii) (l : list ascii) : list ascii :=
  match l with
  | [] => rev cur
  | c :: l' => if (code c =? 47)%N then basename_from [] l'
               else basename_from (c :: cur) l'
  end.

Definition basename (path : string) : string :=
  str (basename_from [] (chars path)).

End PyStr.

(* ================================================================= *)
(** ** A regular-expression matcher for [re.match]

    [re.match(p, s)] succeeds when some prefix of [s] belongs to the
    language of [p]; the pattern of the classifier has no
    back-references, so a derivative matcher decides it. *)

Module Regex.

Inductive re : Type :=
| Void
| Eps
| Cls (p : ascii -> bool)
| Cat (r1 r2 : re)
| Alt (r1 r2 : re)
| Star (r : re).

Fixpoint nullable (r : re) : bool :=
  match r with
  | Void => false
  | Eps => true
  | Cls _ => false
  | Cat r1 r2 => nullable r1 && nullable r2
  | Alt r1 r2 => nullable r1 || nullable r2
  | Star _ => true
  end.

Fixpoint deriv (c : ascii) (r : re) : re :=
  match r with
  | Void => Void
  | Eps => Void
  | Cls p => if p c then Eps else Void
  | Cat r1 r2 =>
      if nullable r1
      then Alt (Cat (deriv c r1) r2) (deriv c r2)
      else Cat (deriv c r1) r2
  | Alt r1 r2 => Alt (deriv c r1) (deriv c r2)
  | Star r1 => Cat (deriv c r1) (Star r1)
  end.

Fixpoint match_prefix (r : re) (l : list ascii) : bool :=
  nullable r ||
  match l with
  | [] => false
  | c :: l' => match_prefix (deriv c r) l'
  end.

Definition Opt (r : re) : re := Alt r Eps.
Definition Plus (r : re) : re := Cat r (Star r).
Definition Chr (c : ascii) : re := Cls (Ascii.eqb c).
Fixpoint Lit (l : list ascii) : re :=
  match l with
  | [] => Eps
  | c :: l' => Cat (Chr c) (Lit l')
  end.
Definition Word (s : string) : re := Lit (list_ascii_of_string s).

(** [re.match(r, s) is not None] *)
Definition re_match (r : re) (s : string) : bool :=
  match_prefix r (list_ascii_of_string s).

End Regex.

(* ================================================================= *)
(** ** Numbers: [round], [sorted], [statistics.mean], [statistics.median] *)

Local Open Scope Q_scope.

Module PyNum.

(** [round(x)]: the nearest integer, ties going to the even one. *)
Definition round_half_even (x : Q) : Z :=
  let f := Qfloor x in
  match ((x - inject_Z f) ?= (1 # 2))%Q with
  | Lt => f
  | Gt => (f + 1)%Z
  | Eq => if Z.even f then f else (f + 1)%Z
  end.

(** [round(x, 1)] *)
Definition round1 (x : Q) : Q := inject_Z (round_half_even (x * 10)) / 10.

Section Sorting.
Context {A : Type} (leb : A -> A -> bool).

Fixpoint insert (x : A) (l : list A) : list A :=
  match l with
  | [] => [x]
  | y :: l' => if leb x y then x :: l else y :: insert x l'
  end.

(** [sorted(l, key=...)], a stable sort: [leb] compares the keys. *)
Fixpoint sorted (l : list A) : list A :=
  match l with
  | [] => []
  | x :: l' => insert x (sorted l')
  end.
End Sorting.

Section Dedupe.
Context {A : Type} (eqb : A -> A -> bool).

(** [list(set(l))]: one representative of every class of equal
    elements.  Python leaves the order of a set unspecified; every
    use below sorts the result by a key that separates its elements. *)
Fixpoint set_of (l : list A) : list A :=
  match l with
  | [] => []
  | x :: l' => if existsb (eqb x) l' then set_of l' else x :: set_of l'
  end.
End Dedupe.

Definition sum (l : list Q) : Q := fold_left Qplus l 0.

(** [statistics.mean(l)] *)
Definition mean (l : list Q) : exc Q :=
  match l with
  | [] => Raise StatisticsError
  | _ :: _ => Ok (sum l / inject_Z (Z.of_nat (List.length l)))
  end.

(** [statistics.median(l)] *)
Definition median (l : list Q) : exc Q :=
  let data := sorted Qle_bool l in
  let n := List.length data in
  match n with
  | O => Raise StatisticsError
  | _ =>
      if Nat.odd n
      then Ok (nth (n / 2) data 0)
      else let i := (n / 2)%nat in
           Ok ((nth (i - 1) data 0 + nth i data 0) / 2)
  end.

(** [l[0]] *)
Definition index0 {A : Type} (l : list A) : exc A :=
  match l with
  | [] => Raise IndexError
  | x :: _ => Ok x
  end.

(** [a / b] on a count and a List.length *)
Definition true_div (a b : nat) : exc Q :=
  match b with
  | O => Raise ZeroDivisionError
  | _ => Ok (inject_Z (Z.of_nat a) / inject_Z (Z.of_nat b))
  end.

End PyNum.

(* ================================================================= *)
(** ** What the PDF library hands over (PyMuPDF's [dict] text layout) *)

Record Rect : Type := mkRect { x0 : Q; y0 : Q; x1 : Q; y1 : Q }.

Definition rect_width (r : Rect) : Q := x1 r - x0 r.
Definition rect_height (r : Rect) : Q := y1 r - y0 r.

Record Span : Type := mkSpan {
  span_text : string;
  span_size : Q;
  span_flags : Z
}.

Record Line : Type := mkLine {
  line_spans : list Span;
  line_bbox : Rect
}.

Record Block : Type := mkBlock {
  block_type : Z;
  block_bbox : Rect;
  block_lines : list Line
}.

(** A page: its rectangle, [page.get_text("dict", clip=r)["blocks"]] as a
    function of the clip rectangle, and
    [page.get_text("dict", sort=True)["blocks"]]. *)
Record Page : Type := mkPage {
  page_rect : Rect;
  get_text_clip : Rect -> list Block;
  get_text_sorted : list Block
}.

(** [doc.metadata.get('title', '')], [doc.get_toc()] and the pages;
    [doc.page_count] is the number of pages. *)
Record Document : Type := mkDocument {
  metadata_title : option string;
  get_toc : list (Z * string * Z);
  pages : list Page
}.

(** What [fitz.open] does: it raises (with a message) or yields a document. *)
Inductive OpenResult : Type :=
| OpenFails (message : string)
| Opened (doc : Document).

(** [span['flags'] & 2**4] as a truth value *)
Definition flag_bold (s : Span) : bool := negb (Z.land (span_flags s) (2 ^ 4) =? 0)%Z.

(* ================================================================= *)
(** ** The produced artifact *)

Record OutlineEntry : Type := mkEntry {
  level : string;
  text : string;
  page : Z
}.

Inductive ExtractionResult : Type :=
| Outline (title : string) (outline : list OutlineEntry)
| Error (error : string).

(* ================================================================= *)
(** ** Text-Characteristic Analyzer: [get_text_characteristics] *)

Record TextChars : Type := mkTextChars {
  is_all_caps : bool;
  is_title_case : bool;
  ends_with_period : bool;
  word_count : nat;
  char_count : nat
}.

Definition get_text_characteristics (text : string) : TextChars :=
  if PyStr.is_empty text
  then mkTextChars false false false 0 0
  else
    let is_title_case := PyStr.istitle text && negb (PyStr.isupper_str text) in
    let is_all_caps := PyStr.isupper_str text && (0 <? List.length (PyStr.split text))%nat in
    let ends_with_period := PyStr.endswith_period (PyStr.rstrip text) in
    let word_count := List.length (PyStr.split text) in
    let char_count := PyStr.len text in
    mkTextChars is_all_caps is_title_case ends_with_period word_count char_count.

(* ================================================================= *)
(** ** Body-Style Estimator: [analyze_document_style] *)

(** The value of [std_dev]: a literal, or [statistics.stdev] of the
    samples (a square root, left unevaluated). *)
Inductive spread : Type :=
| Literal (q : Q)
| Stdev (samples : list Q).

Record BodyStats : Type := mkBodyStats {
  median_size : Q;
  std_dev : spread
}.

(** [fitz.Rect(w * 0.1, h * 0.1, w * 0.9, h * 0.9)] *)
Definition content_rect (p : Page) : Rect :=
  let w := rect_width (page_rect p) in
  let h := rect_height (page_rect p) in
  mkRect (w * (1 # 10)) (h * (1 # 10)) (w * (9 # 10)) (h * (9 # 10)).

(** [len(block['lines']) > 2 and
     len(block['lines'][0]['spans'][0]['text'].split()) > 3] *)
Definition looks_like_paragraph (b : Block) : exc bool :=
  if (2 <? List.length (block_lines b))%nat
  then
    line0 <- PyNum.index0 (block_lines b) ;;
    span0 <- PyNum.index0 (line_spans line0) ;;
    Ok (3 <? List.length (PyStr.split (span_text span0)))%nat
  else Ok false.

Definition span_font_size (font_sizes : list Q) (s : Span) : list Q :=
  let size := PyNum.round1 (span_size s) in
  if Qle_bool 7 size && Qle_bool size 24
  then font_sizes ++ [size]
  else font_sizes.

Definition line_font_sizes (font_sizes : list Q) (l : Line) : list Q :=
  fold_left span_font_size (line_spans l) font_sizes.

Definition block_font_sizes (font_sizes : list Q) (b : Block) : exc (list Q) :=
  if (block_type b =? 0)%Z
  then
    paragraph <- looks_like_paragraph b ;;
    if paragraph
    then Ok (fold_left line_font_sizes (block_lines b) font_sizes)
    else Ok font_sizes
  else Ok font_sizes.

Definition page_font_sizes (font_sizes : list Q) (p : Page) : exc (list Q) :=
  for_each block_font_sizes (get_text_clip p (content_rect p)) font_sizes.

(** The list [font_sizes] when the loops are over; the pages visited are
    [range(min(5, doc.page_count))]. *)
Definition collect_font_sizes (doc : Document) : exc (list Q) :=
  for_each page_font_sizes (firstn 5 (pages doc)) [].

Definition analyze_document_style (doc : Document) : exc BodyStats :=
  font_sizes <- collect_font_sizes doc ;;
  match font_sizes with
  | [] => Ok (mkBodyStats 11 (Literal (3 # 2)))
  | _ :: _ =>
      median_size <- PyNum.median font_sizes ;;
      let std_dev :=
        if (1 <? List.length (PyNum.set_of Qeq_bool font_sizes))%nat
        then Stdev font_sizes
        else Literal 1 in
      Ok (mkBodyStats median_size std_dev)
  end.

(* ================================================================= *)
(** ** Heading Classifier: [is_line_a_heading] *)

Module HeadingPattern.
Import Regex.

Definition digits12 : re := Cat (Cls PyStr.re_digit) (Opt (Cls PyStr.re_digit)).

(** [\d{1,2}(\.\d{1,2})*\.?] *)
Definition numbered : re :=
  Cat (Cat digits12 (Star (Cat (Chr ".") digits12))) (Opt (Chr ".")).

(** [[A-Z]\.] *)
Definition lettered : re := Cat (Cls PyStr.re_AZ) (Chr ".").

(** [(Appendix|Chapter|Section)\s+[\w\d]] *)
Definition labelled : re :=
  Cat (Cat (Alt (Alt (Word "Appendix") (Word "Chapter")) (Word "Section"))
           (Plus (Cls PyStr.re_space)))
      (Cls (fun c => PyStr.re_word c || PyStr.re_digit c)).

(** [^(numbered|lettered|labelled)\s+] *)
Definition pattern : re :=
  Cat (Alt (Alt numbered lettered) labelled) (Plus (Cls PyStr.re_space)).
End HeadingPattern.

Definition is_large (line_size : Q) (body_stats : BodyStats) : bool :=
  negb (Qle_bool line_size (median_size body_stats + (1 # 2))).

(** The local variable [score] when the penalties have been applied. *)
Definition heading_score (line_text : string) (line_size : Q)
    (is_bold is_standalone : bool) (body_stats : BodyStats) : Q :=
  let text_chars := get_text_characteristics line_text in
  let large := is_large line_size body_stats in
  let score := 0 in
  let score := if is_bold then score + 6 else score in
  let score := if large then score + 4 else score in
  let score := if negb (Qle_bool line_size (median_size body_stats + (5 # 2)))
               then score + 2 else score in
  let score := if is_all_caps text_chars && (word_count text_chars <? 10)%nat
               then score + 3 else score in
  let score := if is_title_case text_chars then score + 2 else score in
  let score := if is_standalone then score + 2 else score in
  let score := if Regex.re_match HeadingPattern.pattern line_text
               then score + 5 else score in
  let score := if ends_with_period text_chars then score - 3 else score in
  let score := if (word_count text_chars =? 1)%nat && negb large
                  && negb (is_all_caps text_chars)
               then score - 2 else score in
  let score := if (15 <? word_count text_chars)%nat then score - 2 else score in
  score.

Definition max_score : Q := 20.

(** [max(0.0, score / max_score)] *)
Definition normalize (score : Q) : Q :=
  let q := score / max_score in
  if Qle_bool 0 q then q else 0.

Definition is_line_a_heading (line_text : string) (line_size : Q)
    (is_bold is_standalone : bool) (body_stats : BodyStats) : bool * Q :=
  if PyStr.is_empty line_text || PyStr.isdigit_str line_text
  then (false, 0)
  else
    let text_chars := get_text_characteristics line_text in
    if (25 <? word_count text_chars)%nat then (false, 0)
    else if ends_with_period text_chars && (5 <? word_count text_chars)%nat
    then (false, 0)
    else
      if negb is_bold && negb (is_large line_size body_stats)
         && negb (is_all_caps text_chars)
      then (false, 0)
      else
        let normalized_score :=
          normalize (heading_score line_text line_size is_bold is_standalone
                                   body_stats) in
        (Qle_bool (35 # 100) normalized_score, normalized_score).


(* ================================================================= *)
(** ** Helpers shared by the steps of [extract_outline] *)

(** [str(n)] inside an f-string *)
Definition string_of_Z (n : Z) : string := NilEmpty.string_of_int (Z.to_int n).

(** [f"H{n}"] *)
Definition heading_level (n : Z) : string := ("H" ++ string_of_Z n)%string.

(** [enumerate(l)], counting from [start] *)
Fixpoint enumerate_from {A : Type} (start : Z) (l : list A) : list (Z * A) :=
  match l with
  | [] => []
  | x :: l' => (start, x) :: enumerate_from (start + 1)%Z l'
  end.

Definition enumerate {A : Type} (l : list A) : list (Z * A) := enumerate_from 0%Z l.

(** [a < b] on floats *)
Definition Qlt_bool (a b : Q) : bool := negb (Qle_bool b a).

(* ================================================================= *)
(** ** Title Resolver (step 1 of [extract_outline]) *)

Definition title_line_candidate (candidates : list (Q * string)) (line : Line)
  : list (Q * string) :=
  match line_spans line with
  | [] => candidates
  | span :: _ =>
      let text := PyStr.strip (span_text span) in
      if (3 <? PyStr.len text)%nat && (List.length (PyStr.split text) <? 15)%nat
      then
        let score := span_size span + (if flag_bold span then 2 else 0) in
        candidates ++ [(score, text)]
      else candidates
  end.

Definition title_block_candidates (page : Page) (candidates : list (Q * string))
    (block : Block) : list (Q * string) :=
  if (block_type block =? 0)%Z
     && Qlt_bool (y0 (block_bbox block)) (rect_height (page_rect page) / 2)
  then fold_left title_line_candidate (block_lines block) candidates
  else candidates.

Definition title_candidates (page : Page) : list (Q * string) :=
  fold_left (title_block_candidates page) (get_text_sorted page) [].

(** [max(candidates, key=lambda item: item[0])]: the first item among
    those of greatest key; [best] is the greatest so far. *)
Fixpoint max_by_score (best : Q * string) (l : list (Q * string)) : Q * string :=
  match l with
  | [] => best
  | c :: l' => if Qlt_bool (fst best) (fst c) then max_by_score c l'
               else max_by_score best l'
  end.

Definition resolve_title (pdf_path : string) (doc : Document) (page0 : Page)
  : string :=
  let title :=
    PyStr.strip (match metadata_title doc with Some t => t | None => EmptyString end) in
  if PyStr.is_empty title || (PyStr.len title <? 5)%nat
  then
    match title_candidates page0 with
    | c :: rest => snd (max_by_score c rest)
    | [] => PyStr.basename pdf_path
    end
  else title.

(* ================================================================= *)
(** ** TOC Extractor (step 2, the golden path) *)

Definition toc_entry (outline : list OutlineEntry) (item : Z * string * Z)
  : list OutlineEntry :=
  let '(lvl, txt, pg) := item in
  if ((1 <=? lvl) && (lvl <=? 3))%Z
  then outline ++ [mkEntry (heading_level lvl) (PyStr.strip txt) pg]
  else outline.

Definition toc_outline (toc : list (Z * string * Z)) : list OutlineEntry :=
  match toc with
  | [] => []
  | _ :: _ => fold_left toc_entry toc []
  end.

(* ================================================================= *)
(** ** Heading Candidate Scanner (step 3) *)

Record HeadingCandidate : Type := mkCandidate {
  h_text : string;
  h_size : Q;
  h_page : Z;
  h_y_pos : Q;
  h_is_bold : bool
}.

(** [sum(len(s['text']) for s in spans if s['flags'] & 2**4)] *)
Definition bold_char_count (spans : list Span) : nat :=
  fold_left (fun n s => if flag_bold s then (n + PyStr.len (span_text s))%nat else n)
            spans 0%nat.

Definition scan_line (is_standalone : bool) (body_stats : BodyStats) (page_num : Z)
    (potential_headings : list HeadingCandidate) (line : Line)
  : exc (list HeadingCandidate) :=
  let line_text :=
    PyStr.strip (PyStr.join_space (map span_text (line_spans line))) in
  match line_spans line with
  | [] => Ok potential_headings
  | _ :: _ =>
      m <- PyNum.mean (map span_size (line_spans line)) ;;
      let avg_size := PyNum.round1 m in
      is_line_bold <-
        (if PyStr.is_empty line_text then Ok false
         else ratio <- PyNum.true_div (bold_char_count (line_spans line))
                                      (PyStr.len line_text) ;;
              Ok (Qlt_bool (1 # 2) ratio)) ;;
      let '(is_heading, confidence) :=
        is_line_a_heading line_text avg_size is_line_bold is_standalone body_stats in
      if is_heading
      then Ok (potential_headings ++
               [mkCandidate line_text avg_size (page_num + 1)%Z
                            (y0 (line_bbox line)) is_line_bold])
      else Ok potential_headings
  end.

Definition scan_block (body_stats : BodyStats) (page_num : Z)
    (potential_headings : list HeadingCandidate) (block : Block)
  : exc (list HeadingCandidate) :=
  if (block_type block =? 0)%Z
  then
    let is_standalone := (List.length (block_lines block) <=? 2)%nat in
    for_each (scan_line is_standalone body_stats page_num)
             (block_lines block) potential_headings
  else Ok potential_headings.

Definition scan_page (body_stats : BodyStats)
    (potential_headings : list HeadingCandidate) (numbered_page : Z * Page)
  : exc (list HeadingCandidate) :=
  let '(page_num, page) := numbered_page in
  for_each (scan_block body_stats page_num) (get_text_sorted page)
           potential_headings.

Definition scan_document (doc : Document) (body_stats : BodyStats)
  : exc (list HeadingCandidate) :=
  for_each (scan_page body_stats) (enumerate (pages doc)) [].

(* ================================================================= *)
(** ** Visual-Signature Leveler *)

Definition Signature : Type := (bool * Q)%type.

Definition get_visual_signature (h : HeadingCandidate) : Signature :=
  let size_bucket := inject_Z (PyNum.round_half_even (h_size h * 2)) / 2 in
  (h_is_bold h, size_bucket).

(** [==] on two signatures *)
Definition sig_eqb (s t : Signature) : bool :=
  Bool.eqb (fst s) (fst t) && Qeq_bool (snd s) (snd t).

(** The sort key [(-s[0], -s[1])]; [-True] is [-1] and [-False] is [0]. *)
Definition sig_key (s : Signature) : Z * Q :=
  ((if fst s then -1 else 0)%Z, - snd s).

(** [<=] on two pairs of an integer and a float, as Python compares tuples *)
Definition pair_leb (a b : Z * Q) : bool :=
  (fst a <? fst b)%Z || ((fst a =? fst b)%Z && Qle_bool (snd a) (snd b)).

Definition sig_leb (s t : Signature) : bool := pair_leb (sig_key s) (sig_key t).

Definition unique_signatures (potential_headings : list HeadingCandidate)
  : list Signature :=
  let signatures := map get_visual_signature potential_headings in
  PyNum.sorted sig_leb (PyNum.set_of sig_eqb signatures).

(** A dict keyed by signatures *)
Definition LevelMap : Type := list (Signature * string).

Fixpoint dict_set (d : LevelMap) (k : Signature) (v : string) : LevelMap :=
  match d with
  | [] => [(k, v)]
  | (k', v') :: d' => if sig_eqb k' k then (k', v) :: d'
                      else (k', v') :: dict_set d' k v
  end.

Fixpoint dict_get (d : LevelMap) (k : Signature) : option string :=
  match d with
  | [] => None
  | (k', v') :: d' => if sig_eqb k' k then Some v' else dict_get d' k
  end.

(** [{sig: f"H{i+1}" for i, sig in enumerate(unique_signatures[:3])}] *)
Definition level_map (unique : list Signature) : LevelMap :=
  fold_left (fun d '(i, sig) => dict_set d sig (heading_level (i + 1)%Z))
            (enumerate (firstn 3 unique)) [].

(** An outline entry before the clean-up: it still has its [y_pos]. *)
Record LeveledEntry : Type := mkLeveled {
  l_level : string;
  l_text : string;
  l_page : Z;
  l_y_pos : Q
}.

Definition assign_level (levels : LevelMap) (outline : list LeveledEntry)
    (heading : HeadingCandidate) : list LeveledEntry :=
  match dict_get levels (get_visual_signature heading) with
  | Some lvl =>
      if PyStr.is_empty lvl then outline
      else outline ++ [mkLeveled lvl (h_text heading) (h_page heading)
                                 (h_y_pos heading)]
  | None => outline
  end.

Definition assign_levels (potential_headings : list HeadingCandidate)
  : list LeveledEntry :=
  let levels := level_map (unique_signatures potential_headings) in
  fold_left (assign_level levels) potential_headings [].

(* ================================================================= *)
(** ** Outline Assembler *)

(** The sort key [(x['page'], x['y_pos'])] *)
Definition reading_key (e : LeveledEntry) : Z * Q := (l_page e, l_y_pos e).

Definition reading_leb (a b : LeveledEntry) : bool :=
  pair_leb (reading_key a) (reading_key b).

(** [outline.sort(key=lambda x: (x['page'], x['y_pos']))] *)
Definition sort_outline (outline : list LeveledEntry) : list LeveledEntry :=
  PyNum.sorted reading_leb outline.

(** The body of the duplicate-removal loop; the state is
    [(cleaned_outline, last_text, last_page)]. *)
Definition clean_step (st : list OutlineEntry * string * Z) (item : LeveledEntry)
  : list OutlineEntry * string * Z :=
  let '(cleaned_outline, last_text, last_page) := st in
  let cleaned_outline :=
    if negb (String.eqb (l_text item) last_text && (l_page item =? last_page)%Z)
    then cleaned_outline ++ [mkEntry (l_level item) (l_text item) (l_page item)]
    else cleaned_outline in
  (cleaned_outline, l_text item, l_page item).

Definition clean_outline (outline : list LeveledEntry) : list OutlineEntry :=
  match outline with
  | [] => []
  | _ :: _ => fst (fst (fold_left clean_step outline ([], EmptyString, (-1)%Z)))
  end.

(** Dropping a first heading that repeats the title. *)
Definition suppress_title (title : string) (cleaned_outline : list OutlineEntry)
  : list OutlineEntry :=
  match cleaned_outline with
  | [] => []
  | first :: rest =>
      if PyStr.contains (PyStr.lower (text first)) (PyStr.lower title)
      then rest
      else cleaned_outline
  end.

Definition assemble (title : string) (outline : list LeveledEntry)
  : list OutlineEntry :=
  suppress_title title (clean_outline (sort_outline outline)).

(* ================================================================= *)
(** ** [extract_outline] *)

(** Step 3 and what follows it: the heuristic analysis. *)
Definition heuristic_outline (doc : Document) (title : string)
  : exc ExtractionResult :=
  body_stats <- analyze_document_style doc ;;
  potential_headings <- scan_document doc body_stats ;;
  match potential_headings with
  | [] => Ok (Outline title [])
  | _ :: _ => Ok (Outline title (assemble title (assign_levels potential_headings)))
  end.

(** [extract_outline] with the heuristic analysis as a parameter
    [fallback], so that a statement can say that it is not run. *)
Definition extract_outline_with
    (fallback : Document -> string -> exc ExtractionResult)
    (pdf_path : string) (opened : OpenResult) : exc ExtractionResult :=
  match opened with
  | OpenFails e => Ok (Error ("Failed to open PDF: " ++ e)%string)
  | Opened doc =>
      match pages doc with
      | [] => Ok (Outline "Untitled" [])
      | page0 :: _ =>
          let title := resolve_title pdf_path doc page0 in
          match toc_outline (get_toc doc) with
          | (_ :: _) as outline => Ok (Outline title outline)
          | [] => fallback doc title
          end
      end
  end.

Definition extract_outline (pdf_path : string) (opened : OpenResult)
  : exc ExtractionResult :=
  extract_outline_with heuristic_outline pdf_path opened.

(* ================================================================= *)
(** * The batch loop of [extract_outline.py] ([__main__]) *)

Module PyPath.

(** [s.endswith(suffix)] *)
Definition endswith (suffix s : string) : bool :=
  PyStr.prefixb (rev (PyStr.chars suffix)) (rev (PyStr.chars s)).

(** [os.path.join(a, b)] on POSIX paths *)
Definition join (a b : string) : string :=
  match b with
  | String c _ =>
      if (PyStr.code c =? 47)%N then b
      else if PyStr.is_empty a || endswith "/" a then (a ++ b)%string
           else (a ++ "/" ++ b)%string
  | EmptyString =>
      if PyStr.is_empty a || endswith "/" a then a
      else (a ++ "/")%string
  end.

(** The index of the last character of [l] that satisfies [p], counting
    from [i] for the head of [l]; [None] when there is none ([rfind]
    returning -1). *)
Fixpoint rfind_from (p : ascii -> bool) (i : nat) (l : list ascii) : option nat :=
  match l with
  | [] => None
  | c :: l' =>
      match rfind_from p (S i) l' with
      | Some j => Some j
      | None => if p c then Some i else None
      end
  end.

Definition is_dot (c : ascii) : bool := (PyStr.code c =? 46)%N.
Definition is_slash (c : ascii) : bool := (PyStr.code c =? 47)%N.

(** [os.path.splitext(p)]: the split is at the last dot, when that dot
    comes after the last slash and after a character of the file name
    that is not a dot. *)
Definition splitext (p : string) : string * string :=
  let l := PyStr.chars p in
  let filename_index :=
    match rfind_from is_slash 0 l with
    | Some sep_index => S sep_index
    | None => 0%nat
    end in
  match rfind_from is_dot 0 l with
  | Some dot_index =>
      if (filename_index <=? dot_index)%nat
         && existsb (fun c => negb (is_dot c))
                    (firstn (dot_index - filename_index) (skipn filename_index l))
      then (PyStr.str (firstn dot_index l), PyStr.str (skipn dot_index l))
      else (p, EmptyString)
  | None => (p, EmptyString)
  end.

End PyPath.

Definition INPUT_DIR : string := "input".
Definition OUTPUT_DIR : string := "output".

(** [filename.lower().endswith(".pdf")] *)
Definition is_pdf_name (filename : string) : bool :=
  PyPath.endswith ".pdf" (PyStr.lower filename).

(** [os.path.splitext(filename)[0] + ".json"] under [OUTPUT_DIR] *)
Definition output_path (filename : string) : string :=
  PyPath.join OUTPUT_DIR (fst (PyPath.splitext filename) ++ ".json")%string.

Section Batch.

(** The environment of the loop: what [fitz.open] does on a path, and
    whether writing the JSON file succeeds (an exception raised while
    writing is caught like any other). *)
Variable open_pdf : string -> OpenResult.
Variable write_ok : string -> ExtractionResult -> bool.

(** The state of the loop: the files written so far, in order, and
    [processed_count]. *)
Definition BatchState : Type := (list (string * ExtractionResult) * nat)%type.

(** The body of the loop for one directory entry; the [try] catches
    what [extract_outline] raises and what the writing raises. *)
Definition process_file (st : BatchState) (filename : string) : BatchState :=
  if is_pdf_name filename
  then
    let pdf_path := PyPath.join INPUT_DIR filename in
    match extract_outline pdf_path (open_pdf pdf_path) with
    | Ok output_data =>
        if write_ok (output_path filename) output_data
        then (fst st ++ [(output_path filename, output_data)], S (snd st))
        else st
    | Raise _ => st
    end
  else st.

(** [for filename in sorted(os.listdir(INPUT_DIR)): ...] *)
Definition run_batch (listdir : list string) : BatchState :=
  fold_left process_file (PyNum.sorted String.leb listdir) ([], 0%nat).

End Batch.

(* ================================================================= *)
(** * The simpler extractor of [src/main.py] *)

Module Simple.

(** [fonts_summary], a dict from rounded sizes to character counts; the
    order of the keys is the order of their insertion, which [max]
    follows. *)
Definition FontsSummary : Type := list (Z * nat).

(** [if size not in d: d[size] = 0] then [d[size] += n] *)
Fixpoint add_chars (d : FontsSummary) (size : Z) (n : nat) : FontsSummary :=
  match d with
  | [] => [(size, (0 + n)%nat)]
  | (k, v) :: d' =>
      if (k =? size)%Z then (k, (v + n)%nat) :: d'
      else (k, v) :: add_chars d' size n
  end.

(** [max(d, key=d.get)]: the first key of greatest count. *)
Fixpoint max_key (best : Z * nat) (d : FontsSummary) : Z :=
  match d with
  | [] => fst best
  | (k, v) :: d' => if (snd best <? v)%nat then max_key (k, v) d'
                    else max_key best d'
  end.

(** A dict from sizes to levels. *)
Definition SizeLevels : Type := list (Z * string).

Fixpoint level_set (d : SizeLevels) (k : Z) (v : string) : SizeLevels :=
  match d with
  | [] => [(k, v)]
  | (k', v') :: d' => if (k' =? k)%Z then (k', v) :: d'
                      else (k', v') :: level_set d' k v
  end.

Fixpoint level_get (d : SizeLevels) (k : Z) : option string :=
  match d with
  | [] => None
  | (k', v') :: d' => if (k' =? k)%Z then Some v' else level_get d' k
  end.

(** Step 1: the title from the metadata. *)
Definition metadata_or_untitled (doc : Document) : string :=
  let title := match metadata_title doc with
               | Some t => t
               | None => "Untitled"
               end in
  if PyStr.is_empty (PyStr.strip title) then "Untitled" else title.

(** Step 2: the TOC entries of level at most 3, as they are. *)
Definition toc_entry (outline : list OutlineEntry) (item : Z * string * Z)
  : list OutlineEntry :=
  let '(lvl, txt, pg) := item in
  if (lvl <=? 3)%Z
  then outline ++ [mkEntry (heading_level lvl) txt pg]
  else outline.

Definition toc_outline (toc : list (Z * string * Z)) : list OutlineEntry :=
  match toc with
  | [] => []
  | _ :: _ => fold_left toc_entry toc []
  end.

Section Heuristic.

(** [page.get_text("dict")["blocks"]], the blocks in the order of the
    file (the other extractor asks for them sorted). *)
Variable get_text : Page -> list Block.

Definition count_span (d : FontsSummary) (s : Span) : FontsSummary :=
  add_chars d (PyNum.round_half_even (span_size s))
            (PyStr.len (PyStr.strip (span_text s))).

Definition count_line (d : FontsSummary) (l : Line) : FontsSummary :=
  fold_left count_span (line_spans l) d.

Definition count_block (d : FontsSummary) (b : Block) : FontsSummary :=
  if (block_type b =? 0)%Z then fold_left count_line (block_lines b) d else d.

Definition count_page (d : FontsSummary) (p : Page) : FontsSummary :=
  fold_left count_block (get_text p) d.

(** [fonts_summary] after the first pass over the document *)
Definition fonts_summary (doc : Document) : FontsSummary :=
  fold_left count_page (pages doc) [].

(** [sorted([size for size in fonts_summary if size > body_size],
            reverse=True)] *)
Definition heading_sizes (d : FontsSummary) (body_size : Z) : list Z :=
  PyNum.sorted (fun a b => (b <=? a)%Z)
               (filter (fun size => (body_size <? size)%Z) (map fst d)).

(** The three conditional assignments to [level_map]. *)
Definition level_map (sizes : list Z) : SizeLevels :=
  let m := [] in
  let m := match nth_error sizes 0 with
           | Some s => level_set m s "H1"
           | None => m
           end in
  let m := match nth_error sizes 1 with
           | Some s => level_set m s "H2"
           | None => m
           end in
  let m := match nth_error sizes 2 with
           | Some s => level_set m s "H3"
           | None => m
           end in
  m.

(** [any(o['text'] == text and o['level'] == lvl for o in outline)] *)
Definition already_listed (outline : list OutlineEntry) (txt lvl : string) : bool :=
  existsb (fun o => String.eqb (text o) txt && String.eqb (level o) lvl) outline.

Definition heading_line (levels : SizeLevels) (page_num : Z)
    (outline : list OutlineEntry) (l : Line) : list OutlineEntry :=
  match line_spans l with
  | [span] =>
      let size := PyNum.round_half_even (span_size span) in
      let txt := PyStr.strip (span_text span) in
      match level_get levels size with
      | Some lvl =>
          if negb (PyStr.is_empty txt) && negb (already_listed outline txt lvl)
          then outline ++ [mkEntry lvl txt (page_num + 1)%Z]
          else outline
      | None => outline
      end
  | _ => outline
  end.

Definition heading_block (levels : SizeLevels) (page_num : Z)
    (outline : list OutlineEntry) (b : Block) : list OutlineEntry :=
  if (block_type b =? 0)%Z
  then fold_left (heading_line levels page_num) (block_lines b) outline
  else outline.

Definition heading_page (levels : SizeLevels) (outline : list OutlineEntry)
    (numbered_page : Z * Page) : list OutlineEntry :=
  let '(page_num, p) := numbered_page in
  fold_left (heading_block levels page_num) (get_text p) outline.

(** Step 3, second pass: the headings of the document. *)
Definition headings (doc : Document) (levels : SizeLevels) : list OutlineEntry :=
  fold_left (heading_page levels) (enumerate (pages doc)) [].

(** The last step: an untitled document takes its first H1 as title. *)
Definition title_from_outline (title : string) (outline : list OutlineEntry)
  : string :=
  match outline with
  | first :: _ =>
      if String.eqb title "Untitled" && String.eqb (level first) "H1"
      then text first
      else title
  | [] => title
  end.

Definition heuristic_outline (doc : Document) (title : string)
  : ExtractionResult :=
  match fonts_summary doc with
  | [] => Outline title []
  | first :: rest =>
      let body_size := max_key first rest in
      let levels := level_map (heading_sizes (first :: rest) body_size) in
      let outline := headings doc levels in
      Outline (title_from_outline title outline) outline
  end.

Definition extract_outline (pdf_path : string) (opened : OpenResult)
  : ExtractionResult :=
  match opened with
  | OpenFails e => Error ("Failed to open PDF: " ++ e)%string
  | Opened doc =>
      let title := metadata_or_untitled doc in
      match toc_outline (get_toc doc) with
      | (_ :: _) as outline => Outline title outline
      | [] => heuristic_outline doc title
      end
  end.

End Heuristic.

End Simple.

(* ================================================================= *)
(** * Vocabulary of the properties, and sample inputs *)

(** ** A tactic for divisions by a constant *)

(** Division by a constant is multiplication by its inverse, which [lra]
    understands. *)
Ltac const_div :=
  unfold Qdiv in *;
  repeat match goal with
    | |- context [/ ?c] =>
        let v := eval vm_compute in (/ c) in change (/ c) with v
    | H : context [/ ?c] |- _ =>
        let v := eval vm_compute in (/ c) in change (/ c) with v in H
    end.

(** ** The golden path *)

Definition toc_level (item : Z * string * Z) : Z := fst (fst item).
Definition toc_text (item : Z * string * Z) : string := snd (fst item).
Definition toc_page (item : Z * string * Z) : Z := snd item.

Definition level_1_to_3 (item : Z * string * Z) : bool :=
  ((1 <=? toc_level item) && (toc_level item <=? 3))%Z.

(** The outline the specification describes for a TOC: its entries of
    level 1 to 3, in order, each as level "H<level>", trimmed text and
    unchanged page. *)
Definition toc_mirror (toc : list (Z * string * Z)) : list OutlineEntry :=
  map (fun item => mkEntry (heading_level (toc_level item))
                           (PyStr.strip (toc_text item)) (toc_page item))
      (filter level_1_to_3 toc).

(** ** Title resolution *)

(** What one line contributes: the trimmed text of its first span, when
    that text has more than 3 characters and fewer than 15 words, with the
    span's size plus 2 if the span is bold. *)
Definition line_candidate (line : Line) : list (Q * string) :=
  title_line_candidate [] line.

(** A block counts when it is a text block whose top edge is in the upper
    half of the page. *)
Definition in_upper_half (page : Page) (block : Block) : bool :=
  (block_type block =? 0)%Z
  && Qlt_bool (y0 (block_bbox block)) (rect_height (page_rect page) / 2).

(** [txt] with [score] is a candidate of the page: the trimmed text of
    the first span of some line of a text block whose top edge is in the
    upper half, of more than 3 characters and fewer than 15 words, scored
    with the span's size plus 2 if the span is bold. *)
Definition is_title_candidate (page : Page) (score : Q) (txt : string) : Prop :=
  exists block line span spans,
    In block (get_text_sorted page)
    /\ block_type block = 0%Z
    /\ y0 (block_bbox block) < rect_height (page_rect page) / 2
    /\ In line (block_lines block)
    /\ line_spans line = span :: spans
    /\ txt = PyStr.strip (span_text span)
    /\ (3 < PyStr.len txt)%nat
    /\ (List.length (PyStr.split txt) < 15)%nat
    /\ score = span_size span + (if flag_bold span then 2 else 0).

(** The candidates as the specification words them: for each text block
    in the upper half, its first line only, and only a text of 4 to 14
    words. *)
Definition claimed_line_candidate (line : Line) : list (Q * string) :=
  match line_spans line with
  | [] => []
  | span :: _ =>
      let txt := PyStr.strip (span_text span) in
      if (4 <=? List.length (PyStr.split txt))%nat
         && (List.length (PyStr.split txt) <=? 14)%nat
      then [(span_size span + (if flag_bold span then 2 else 0), txt)]
      else []
  end.

Definition claimed_title_candidates (page : Page) : list (Q * string) :=
  flat_map (fun block => if in_upper_half page block
                         then match block_lines block with
                              | [] => []
                              | line :: _ => claimed_line_candidate line
                              end
                         else [])
           (get_text_sorted page).

Definition claimed_title (pdf_path : string) (page0 : Page) : string :=
  match claimed_title_candidates page0 with
  | c :: rest => snd (max_by_score c rest)
  | [] => PyStr.basename pdf_path
  end.

(** ** Signatures and their ranking *)

(** A signature whose size is a bucket: an integer number of half points. *)
Definition bucketed (s : Signature) : Prop := exists n : Z, snd s = inject_Z n / 2.

(** [s] is more prominent than [t]: bold before non-bold, then the larger
    bucket first. *)
Definition more_prominent (s t : Signature) : Prop :=
  (fst s = true /\ fst t = false) \/ (fst s = fst t /\ snd t < snd s).

Definition more_prominentb (s t : Signature) : bool :=
  (fst s && negb (fst t)) || (Bool.eqb (fst s) (fst t) && Qlt_bool (snd t) (snd s)).

Definition distinct_signatures (hs : list HeadingCandidate) : list Signature :=
  PyNum.set_of sig_eqb (map get_visual_signature hs).

(** The rank of a signature among the candidates [hs]: how many distinct
    signatures of [hs] are more prominent. *)
Definition rank (hs : list HeadingCandidate) (s : Signature) : nat :=
  List.length (filter (fun t => more_prominentb t s) (distinct_signatures hs)).

Definition level_of_rank (r : nat) : option string :=
  match r with
  | 0%nat => Some "H1"
  | 1%nat => Some "H2"
  | 2%nat => Some "H3"
  | _ => None
  end.

(** What one candidate contributes to the leveled outline. *)
Definition leveled (hs : list HeadingCandidate) (h : HeadingCandidate)
  : list LeveledEntry :=
  match level_of_rank (rank hs (get_visual_signature h)) with
  | Some lvl => [mkLeveled lvl (h_text h) (h_page h) (h_y_pos h)]
  | None => []
  end.

(** ** Ordering, duplicate removal and title suppression *)

(** Reading order: by page, then by vertical position. *)
Definition reading_order (a b : LeveledEntry) : Prop :=
  (l_page a < l_page b)%Z \/ (l_page a = l_page b /\ l_y_pos a <= l_y_pos b).

(** [cur] has the text and the page of [prev]. *)
Definition repeats (prev cur : LeveledEntry) : bool :=
  String.eqb (l_text cur) (l_text prev) && (l_page cur =? l_page prev)%Z.

(** Every entry with the entry just before it, if there is one. *)
Definition with_previous (l : list LeveledEntry)
  : list (option LeveledEntry * LeveledEntry) :=
  combine (None :: map Some l) l.

Definition kept (p : option LeveledEntry * LeveledEntry) : bool :=
  match fst p with
  | None => true
  | Some prev => negb (repeats prev (snd p))
  end.

Definition strip_y_pos (e : LeveledEntry) : OutlineEntry :=
  mkEntry (l_level e) (l_text e) (l_page e).

(** The entries that do not repeat their predecessor, in order. *)
Definition without_repeats (l : list LeveledEntry) : list OutlineEntry :=
  map (fun p => strip_y_pos (snd p)) (filter kept (with_previous l)).

(** [a] is a substring of [b] once both are in lower case. *)
Definition case_insensitive_substring (a b : string) : Prop :=
  exists pre post,
    PyStr.chars (PyStr.lower b) = pre ++ PyStr.chars (PyStr.lower a) ++ post.

(** ** Lines without spans *)

Definition first_line_has_span (b : Block) : Prop :=
  match block_lines b with
  | line :: _ => line_spans line <> []
  | [] => True
  end.

(** The blocks the body-style estimate looks at. *)
Definition sampled_blocks (doc : Document) : list Block :=
  flat_map (fun p => get_text_clip p (content_rect p)) (firstn 5 (pages doc)).

(** No sampled block starts with a line that has no span. *)
Definition spans_present (doc : Document) : Prop :=
  Forall first_line_has_span (sampled_blocks doc).

(** ** Levels and page numbers *)

Definition one_based (hs : list HeadingCandidate) : Prop :=
  Forall (fun h => (1 <= h_page h)%Z) hs.

Definition level_ok (lvl : string) : Prop := In lvl ["H1"; "H2"; "H3"].

(** ** Sample inputs *)

(** A sentence of 26 words that ends with a period. *)
Definition sentence_of_26_words : string :=
  "one two three four five six seven eight nine ten eleven twelve thirteen fourteen fifteen sixteen seventeen eighteen nineteen twenty and one and two and three.".

(** Spans, lines, blocks and the page rectangle of the sample documents. *)
Definition plain (t : string) (size : Q) : Span := mkSpan t size 0.
Definition bold (t : string) (size : Q) : Span := mkSpan t size 16.
Definition line_at (y : Q) (spans : list Span) : Line :=
  mkLine spans (mkRect 72 y 540 (y + 12)).
Definition text_block (y : Q) (lines : list Line) : Block :=
  mkBlock 0 (mkRect 72 y 540 (y + 60)) lines.
Definition a4 : Rect := mkRect 0 0 595 842.

Definition prose : Block :=
  text_block 300
    [line_at 300 [plain "The first quarter closed above the forecast." 11];
     line_at 312 [plain "Costs stayed level over the same period." 11];
     line_at 324 [plain "Margins therefore improved across all regions." 11];
     line_at 336 [plain "The outlook for the year is unchanged." 11]].

(** One page: a bold line "Results" above a paragraph of body text. *)
Definition results_page : Page :=
  mkPage a4 (fun _ => [prose])
         [text_block 100 [line_at 100 [bold "Results" 15]]; prose].

Definition results_doc : Document :=
  mkDocument (Some "Quarterly Figures") [] [results_page].

(** A paragraph-sized block whose first line has no span.  The title
    resolver ([if line['spans']]) and the scanner
    ([if not line['spans']: continue]) both step over such a line. *)
Definition ragged : Block :=
  text_block 300
    [line_at 300 [];
     line_at 312 [plain "Costs stayed level over the same period." 11];
     line_at 324 [plain "Margins therefore improved across all regions." 11]].

Definition ragged_doc : Document :=
  mkDocument (Some "Quarterly Figures") [] [mkPage a4 (fun _ => [ragged]) [ragged]].

(** A paragraph of four lines in one size, then the block above. *)
Definition prose_then_ragged_doc : Document :=
  mkDocument (Some "Quarterly Figures") []
             [mkPage a4 (fun _ => [prose; ragged]) [prose; ragged]].

(** A document with bookmarks, one of them deeper than level 3, laid out
    so that the heuristic analysis would find the heading "Results". *)
Definition bookmarked_doc : Document :=
  mkDocument (Some "Quarterly Figures")
             [(1, "  Summary ", 1); (4, "Footnotes", 1); (2, "Outlook", 2)]%Z
             [results_page].

(** A TOC whose only entry is deeper than level 3, and a TOC on a
    document without pages. *)
Definition deep_toc_doc : Document :=
  mkDocument (Some "Quarterly Figures") [(4, "Footnotes", 1)]%Z [results_page].

Definition pageless_doc : Document :=
  mkDocument (Some "Quarterly Figures") [(1, "Summary", 1)]%Z [].

(** A bookmark whose destination is not a page of the document: PyMuPDF
    reports it with page -1. *)
Definition dangling_doc : Document :=
  mkDocument (Some "Quarterly Figures")
             [(1, "Summary", 1); (2, "Annex", -1)]%Z [results_page].

(** A first page headed by a block of two lines, and one headed by a
    single word. *)
Definition cover_page : Page :=
  mkPage a4 (fun _ => [])
         [text_block 90 [line_at 90 [plain "Prepared for the board" 10];
                         line_at 110 [bold "Annual report of the group" 20]]].

Definition cover_doc : Document := mkDocument None [] [cover_page].

Definition one_word_page : Page :=
  mkPage a4 (fun _ => []) [text_block 90 [line_at 90 [bold "Introduction" 20]]].

Definition one_word_doc : Document := mkDocument (Some "  ") [] [one_word_page].

Definition blank_page : Page := mkPage a4 (fun _ => []) [].

(** Five candidates in four styles, and three candidates in two styles. *)
Definition four_styles : list HeadingCandidate :=
  [mkCandidate "Scope" (141 # 10) 1 120 false;
   mkCandidate "Methods" 12 2 80 true;
   mkCandidate "Quarterly Figures" 18 1 60 true;
   mkCandidate "Note" 12 2 400 false;
   mkCandidate "Results" (119 # 10) 3 80 true].

Definition two_styles : list HeadingCandidate :=
  [mkCandidate "Scope" 14 1 120 false;
   mkCandidate "Methods" 12 2 80 true;
   mkCandidate "Results" (119 # 10) 3 80 true].

(** The same text twice on page 2 and once on page 3, given out of order. *)
Definition repeated_outline : list LeveledEntry :=
  [mkLeveled "H1" "Methods" 3 80;
   mkLeveled "H1" "Methods" 2 (901 # 10);
   mkLeveled "H2" "Scope" 1 300;
   mkLeveled "H1" "Methods" 2 90].

(** A leveled outline that starts, in reading order, with the words of
    the title "Acme Corp Annual Report". *)
Definition annual_report_outline : list LeveledEntry :=
  [mkLeveled "H2" "Overview" 2 40; mkLeveled "H1" "annual report" 1 120].

(** ** Further vocabulary *)

(** The line passes the four filters of the classifier. *)
Definition passes_filters (line_text : string) (line_size : Q) (is_bold : bool)
    (body_stats : BodyStats) : Prop :=
  let tc := get_text_characteristics line_text in
  line_text <> EmptyString
  /\ PyStr.isdigit_str line_text = false
  /\ (word_count tc <= 25)%nat
  /\ ~ (ends_with_period tc = true /\ (5 < word_count tc)%nat)
  /\ (is_bold = true \/ is_large line_size body_stats = true
      \/ is_all_caps tc = true).

(** [doc.page_count] *)
Definition page_count (doc : Document) : Z := Z.of_nat (List.length (pages doc)).

(** A size in the range the body-style estimate samples. *)
Definition plausible_body_size (size : Q) : Prop := 7 <= size <= 24.

(** What the scanner guarantees of a candidate in a document of [n]
    pages. *)
Definition candidate_ok (n : Z) (h : HeadingCandidate) : Prop :=
  (1 <= h_page h <= n)%Z
  /\ h_text h <> EmptyString
  /\ PyStr.isdigit_str (h_text h) = false
  /\ (List.length (PyStr.split (h_text h)) <= 25)%nat.

(** [level_map.get(sig)] for a candidate [h] among the candidates [hs] *)
Definition assigned_level (hs : list HeadingCandidate) (h : HeadingCandidate)
  : option string :=
  dict_get (level_map (unique_signatures hs)) (get_visual_signature h).

(** What the leveler keeps of a candidate, and what an entry shows of it. *)
Definition candidate_place (h : HeadingCandidate) : string * Z * Q :=
  (h_text h, h_page h, h_y_pos h).
Definition entry_place (e : LeveledEntry) : string * Z * Q :=
  (l_text e, l_page e, l_y_pos e).

(** Two candidates in one style, one in another, and a list of their
    signatures in another order than the code's. *)
Definition shuffled_signatures : list Signature :=
  [(true, inject_Z 24 / 2); (false, inject_Z 28 / 2)].

(** Two entries of the final outline with the same text on the same page. *)
Definition same_text_and_page (a b : OutlineEntry) : Prop :=
  text a = text b /\ page a = page b.

(** No entry has the text and the page of the entry just before it. *)
Fixpoint no_adjacent_repeats (l : list OutlineEntry) : Prop :=
  match l with
  | a :: l' =>
      match l' with
      | b :: _ => ~ same_text_and_page a b
      | [] => True
      end /\ no_adjacent_repeats l'
  | [] => True
  end.

(** The entries the duplicate-removal loop appends from [l] on, when the
    last entry seen had text [last_text] and page [last_page]. *)
Fixpoint cleaned_from (last_text : string) (last_page : Z) (l : list LeveledEntry)
  : list OutlineEntry :=
  match l with
  | [] => []
  | e :: l' =>
      (if String.eqb (l_text e) last_text && (l_page e =? last_page)%Z
       then [] else [strip_y_pos e])
      ++ cleaned_from (l_text e) (l_page e) l'
  end.

(** A text without leading or trailing whitespace. *)
Definition trimmed (s : string) : Prop := PyStr.strip s = s.

(** The list is empty or starts with a character that is not whitespace. *)
Definition starts_clean (l : list ascii) : Prop :=
  match l with
  | c :: _ => PyStr.isspace c = false
  | [] => True
  end.

(** What the batch loop writes for one directory entry. *)
Definition file_output (open_pdf : string -> OpenResult)
    (write_ok : string -> ExtractionResult -> bool) (filename : string)
  : list (string * ExtractionResult) :=
  if is_pdf_name filename
  then match extract_outline (PyPath.join INPUT_DIR filename)
                             (open_pdf (PyPath.join INPUT_DIR filename)) with
       | Ok output_data =>
           if write_ok (output_path filename) output_data
           then [(output_path filename, output_data)]
           else []
       | Raise _ => []
       end
  else [].

(** A directory in which one PDF makes [extract_outline] raise. *)
Definition sample_open (pdf_path : string) : OpenResult :=
  if String.eqb pdf_path "input/b.pdf" then Opened ragged_doc
  else if String.eqb pdf_path "input/d.pdf" then OpenFails "no such file"
  else Opened results_doc.

Definition sample_listing : list string :=
  ["c.PDF"; "notes.txt"; "b.pdf"; "a.pdf"].

(** What [src/main.py] guarantees of a heading found on a document of
    [n] pages. *)
Definition simple_entry_ok (n : Z) (o : OutlineEntry) : Prop :=
  level_ok (level o)
  /\ (1 <= page o <= n)%Z
  /\ text o <> EmptyString
  /\ trimmed (text o).

(** [base] is the metadata title when that has a character other than
    whitespace, and "Untitled" when the title is missing or blank. *)
Definition base_title (doc : Document) (base : string) : Prop :=
  (exists t, metadata_title doc = Some t /\ PyStr.strip t <> EmptyString
             /\ base = t)
  \/ ((metadata_title doc = None
       \/ exists t, metadata_title doc = Some t /\ PyStr.strip t = EmptyString)
      /\ base = "Untitled").

(** The pair on which [src/main.py] compares a heading with the ones
    already listed. *)
Definition text_and_level (o : OutlineEntry) : string * string :=
  (text o, level o).

(** The TOC entries of level at most 3, unchanged. *)
Definition toc_verbatim (toc : list (Z * string * Z)) : list OutlineEntry :=
  map (fun item => mkEntry (heading_level (toc_level item)) (toc_text item)
                           (toc_page item))
      (filter (fun item => (toc_level item <=? 3)%Z) toc).

(** Every span of every text block of the document has the rounded size
    [s]. *)
Definition one_size (get_text : Page -> list Block) (doc : Document) (s : Z)
  : Prop :=
  forall p b l span,
    In p (pages doc) -> In b (get_text p) -> block_type b = 0%Z ->
    In l (block_lines b) -> In span (line_spans l) ->
    PyNum.round_half_even (span_size span) = s.

(** A page with the same lines as [results_page], all in 11 points. *)
Definition flat_page : Page :=
  mkPage a4 (fun _ => [prose])
         [text_block 100 [line_at 100 [bold "Results" 11]]; prose].

(** The invariant of the second pass of [src/main.py]. *)
Definition simple_outline_ok (n : Z) (outline : list OutlineEntry) : Prop :=
  Forall (simple_entry_ok n) outline /\ NoDup (map text_and_level outline).

(** The words of a regular expression. *)
Inductive lang : Regex.re -> list ascii -> Prop :=
| lang_eps : lang Regex.Eps []
| lang_cls (p : ascii -> bool) (c : ascii) : p c = true -> lang (Regex.Cls p) [c]
| lang_cat (r1 r2 : Regex.re) (u v : list ascii) :
    lang r1 u -> lang r2 v -> lang (Regex.Cat r1 r2) (u ++ v)
| lang_alt_l (r1 r2 : Regex.re) (u : list ascii) :
    lang r1 u -> lang (Regex.Alt r1 r2) u
| lang_alt_r (r1 r2 : Regex.re) (u : list ascii) :
    lang r2 u -> lang (Regex.Alt r1 r2) u
| lang_star_nil (r : Regex.re) : lang (Regex.Star r) []
| lang_star_app (r : Regex.re) (u v : list ascii) :
    lang r u -> lang (Regex.Star r) v -> lang (Regex.Star r) (u ++ v).

(* ================================================================= *)
(** * Properties *)

(** ** Comparisons on floats *)

Lemma Qlt_bool_iff (a b : Q) : Qlt_bool a b = true <-> a < b.
Proof.
  unfold Qlt_bool. rewrite negb_true_iff. split.
  - intros H. apply Qnot_le_lt. intros Hle.
    apply Qle_bool_iff in Hle. congruence.
  - intros H. destruct (Qle_bool b a) eqn:E; [|reflexivity].
    apply Qle_bool_iff in E. exfalso. exact (Qlt_not_le _ _ H E).
Qed.

Lemma Qlt_bool_false_iff (a b : Q) : Qlt_bool a b = false <-> b <= a.
Proof.
  unfold Qlt_bool. rewrite negb_false_iff. apply Qle_bool_iff.
Qed.

Lemma is_large_iff (line_size : Q) (body_stats : BodyStats) :
  is_large line_size body_stats = true
  <-> median_size body_stats + (1 # 2) < line_size.
Proof. exact (Qlt_bool_iff _ _). Qed.

(** ** The classifier's rejection filters *)

(** The numbered, bold, large line of the specification: title case adds
    2 to the 17 points of boldness, size and numbering. *)
Example classifier_numbered_bold_large :
  is_line_a_heading "1. Introduction" 14 true false (mkBodyStats 11 (Literal 1))
  = (true, 19 # 20).
Proof. vm_compute. reflexivity. Qed.

(** C2.  Whatever the size, the boldness and the standalone flag, the
    classifier answers [(False, 0.0)] for an empty text, for a text made
    of digits only, for a text of more than 25 words, for a text that
    ends with a period and has more than 5 words, and for a line that is
    neither bold, nor larger than the body median plus 0.5, nor in
    capitals.  A sentence of 26 words is thus always rejected. *)
Theorem classifier_rejects
    (line_text : string) (line_size : Q) (is_bold is_standalone : bool)
    (body_stats : BodyStats) :
  let tc := get_text_characteristics line_text in
  line_text = EmptyString
  \/ PyStr.isdigit_str line_text = true
  \/ (25 < word_count tc)%nat
  \/ (ends_with_period tc = true /\ (5 < word_count tc)%nat)
  \/ (is_bold = false
      /\ ~ median_size body_stats + (1 # 2) < line_size
      /\ is_all_caps tc = false)
  \/ List.length (PyStr.split line_text) = 26%nat ->
  is_line_a_heading line_text line_size is_bold is_standalone body_stats
  = (false, 0).
Proof.
  intros tc H. unfold is_line_a_heading. fold tc.
  destruct (PyStr.is_empty line_text) eqn:Hempty; [reflexivity|].
  destruct (PyStr.isdigit_str line_text) eqn:Hdigit; [reflexivity|]. simpl.
  assert (Hwc : word_count tc = List.length (PyStr.split line_text)).
  { unfold tc, get_text_characteristics. rewrite Hempty. reflexivity. }
  destruct (25 <? word_count tc)%nat eqn:Hlong; [reflexivity|].
  apply Nat.ltb_ge in Hlong.
  destruct (ends_with_period tc && (5 <? word_count tc)%nat) eqn:Hprose;
    [reflexivity|].
  destruct (negb is_bold && negb (is_large line_size body_stats)
            && negb (is_all_caps tc)) eqn:Hplain; [reflexivity|].
  exfalso.
  destruct H as [H | [H | [H | [[Hp Hw] | [[Hb [Hs Hc]] | H]]]]].
  - subst line_text. discriminate Hempty.
  - discriminate H.
  - lia.
  - rewrite Hp in Hprose. apply Nat.ltb_lt in Hw. rewrite Hw in Hprose.
    discriminate Hprose.
  - rewrite Hb, Hc in Hplain.
    destruct (is_large line_size body_stats) eqn:Hl; [|discriminate Hplain].
    apply is_large_iff in Hl. contradiction.
  - lia.
Qed.

Lemma classifier_rejects_witness :
  is_line_a_heading sentence_of_26_words 30 true true (mkBodyStats 11 (Literal 1))
  = (false, 0).
Proof.
  apply classifier_rejects.
  right. right. right. right. right. vm_compute. reflexivity.
Defined.

(** ** Confidence and the acceptance threshold *)

Lemma normalize_nonneg (score : Q) : 0 <= normalize score.
Proof.
  unfold normalize. destruct (Qle_bool 0 (score / max_score)) eqn:E.
  - apply Qle_bool_iff in E. exact E.
  - apply Qle_refl.
Qed.

Lemma normalize_threshold (score : Q) :
  Qle_bool (35 # 100) (normalize score) = true <-> 7 <= score.
Proof.
  rewrite Qle_bool_iff. unfold normalize, max_score.
  destruct (Qle_bool 0 (score / 20)) eqn:E.
  - split; intros H; const_div; lra.
  - split; intros H; [lra|].
    assert (Hpos : 0 <= score / 20) by (const_div; lra).
    apply Qle_bool_iff in Hpos. congruence.
Qed.

Lemma caps_and_title_exclusive (line_text : string) :
  let tc := get_text_characteristics line_text in
  is_all_caps tc && is_title_case tc = false.
Proof.
  unfold get_text_characteristics.
  destruct (PyStr.is_empty line_text); [reflexivity|]. simpl.
  destruct (PyStr.isupper_str line_text); simpl.
  - rewrite andb_false_r. apply andb_false_r.
  - reflexivity.
Qed.

Lemma heading_score_range (line_text : string) (line_size : Q)
    (is_bold is_standalone : bool) (body_stats : BodyStats) :
  -7 <= heading_score line_text line_size is_bold is_standalone body_stats <= 22.
Proof.
  pose proof (caps_and_title_exclusive line_text) as Hx. simpl in Hx.
  unfold heading_score.
  destruct (is_all_caps (get_text_characteristics line_text));
    destruct (is_title_case (get_text_characteristics line_text));
    try discriminate Hx;
    destruct is_bold; destruct is_standalone;
    destruct (is_large line_size body_stats);
    destruct (Qle_bool line_size (median_size body_stats + (5 # 2)));
    destruct (word_count (get_text_characteristics line_text) <? 10)%nat;
    destruct (Regex.re_match HeadingPattern.pattern line_text);
    destruct (ends_with_period (get_text_characteristics line_text));
    destruct (word_count (get_text_characteristics line_text) =? 1)%nat;
    destruct (15 <? word_count (get_text_characteristics line_text))%nat;
    cbn -[Qplus Qminus Qle]; split; lra.
Qed.

(** What does hold of the confidence: it is the raw score over 20 clamped
    at zero, it lies between 0 and 1.1, and a line that passes the filters
    is accepted exactly when its raw score is at least 7. *)
Lemma confidence_range (line_text : string) (line_size : Q)
    (is_bold is_standalone : bool) (body_stats : BodyStats) :
  let confidence :=
    snd (is_line_a_heading line_text line_size is_bold is_standalone body_stats) in
  0 <= confidence <= 11 # 10.
Proof.
  unfold is_line_a_heading.
  repeat match goal with
         | |- context [if ?b then (false, 0) else _] =>
             destruct b; [cbn; split; lra|]
         end.
  cbn [snd]. split; [apply normalize_nonneg|].
  pose proof (heading_score_range line_text line_size is_bold is_standalone
                                  body_stats) as [_ Hs].
  unfold normalize, max_score.
  destruct (Qle_bool 0 _); [|discriminate].
  const_div. lra.
Qed.

Lemma accept_iff_confidence (line_text : string) (line_size : Q)
    (is_bold is_standalone : bool) (body_stats : BodyStats) :
  let r := is_line_a_heading line_text line_size is_bold is_standalone body_stats in
  fst r = true <-> 35 # 100 <= snd r.
Proof.
  unfold is_line_a_heading.
  repeat match goal with
         | |- context [if ?b then (false, 0) else _] =>
             destruct b; [cbn; split; [discriminate | intros H; lra]|]
         end.
  cbn [fst snd]. apply Qle_bool_iff.
Qed.

Lemma classifier_cases (line_text : string) (line_size : Q)
    (is_bold is_standalone : bool) (body_stats : BodyStats) :
  let score :=
    heading_score line_text line_size is_bold is_standalone body_stats in
  let r := is_line_a_heading line_text line_size is_bold is_standalone body_stats in
  r = (false, 0)
  \/ r = (Qle_bool (35 # 100) (normalize score), normalize score).
Proof.
  unfold is_line_a_heading.
  repeat match goal with
         | |- context [if ?b then (false, 0) else _] =>
             destruct b; [left; reflexivity|]
         end.
  right. reflexivity.
Qed.

Lemma accept_implies_score (line_text : string) (line_size : Q)
    (is_bold is_standalone : bool) (body_stats : BodyStats) :
  fst (is_line_a_heading line_text line_size is_bold is_standalone body_stats)
  = true ->
  7 <= heading_score line_text line_size is_bold is_standalone body_stats.
Proof.
  destruct (classifier_cases line_text line_size is_bold is_standalone body_stats)
    as [-> | ->]; simpl; [discriminate|].
  apply normalize_threshold.
Qed.

(** C3.  The confidence is not confined to [0,1]: the weights of a bold,
    very large, standalone, all-capitals numbered heading add up to 22,
    above the divisor [max_score = 20], and nothing clamps the quotient
    from above. *)
Theorem confidence_exceeds_one :
  is_line_a_heading "1. INTRODUCTION" 20 true true (mkBodyStats 11 (Literal (3 # 2)))
  = (true, 22 # 20)
  /\ ~ 22 # 20 <= 1.
Proof.
  split.
  - vm_compute. reflexivity.
  - intros H. lra.
Qed.

(* ================================================================= *)
(** ** Title suppression *)

Lemma prefixb_spec (p l : list ascii) :
  PyStr.prefixb p l = true <-> exists post, l = p ++ post.
Proof.
  revert l. induction p as [|a p IH]; intros l; simpl.
  - split; [intros _; exists l; reflexivity | reflexivity].
  - destruct l as [|b l].
    + split; [discriminate | intros [post H]; discriminate H].
    + rewrite andb_true_iff, Ascii.eqb_eq, IH. split.
      * intros [-> [post ->]]. exists post. reflexivity.
      * intros [post H]. injection H as -> ->. split; [reflexivity|].
        exists post. reflexivity.
Qed.

Lemma contains_chars_spec (needle hay : list ascii) :
  PyStr.contains_chars needle hay = true
  <-> exists pre post, hay = pre ++ needle ++ post.
Proof.
  induction hay as [|c hay IH]; simpl.
  - rewrite orb_false_r, prefixb_spec. split.
    + intros [post H]. exists [], post. exact H.
    + intros [pre [post H]]. destruct pre; [|discriminate H].
      exists post. exact H.
  - rewrite orb_true_iff, prefixb_spec, IH. split.
    + intros [[post H] | [pre [post H]]].
      * exists [], post. exact H.
      * exists (c :: pre), post. simpl. rewrite H. reflexivity.
    + intros [pre [post H]]. destruct pre as [|c' pre].
      * left. exists post. exact H.
      * right. injection H as _ H. exists pre, post. exact H.
Qed.

Lemma contains_lower_iff (a b : string) :
  PyStr.contains (PyStr.lower a) (PyStr.lower b) = true
  <-> case_insensitive_substring a b.
Proof. apply contains_chars_spec. Qed.

(** C6.  When the first entry of the cleaned outline has a text that is,
    case-insensitively, a substring of the title, the assembler removes
    that entry and keeps all the others; when it is not, the cleaned
    outline is the final outline. *)
Theorem title_suppression
    (title : string) (outline : list LeveledEntry)
    (first : OutlineEntry) (rest : list OutlineEntry) :
  clean_outline (sort_outline outline) = first :: rest ->
  (case_insensitive_substring (text first) title ->
   assemble title outline = rest)
  /\ (~ case_insensitive_substring (text first) title ->
      assemble title outline = first :: rest).
Proof.
  intros Hclean. unfold assemble. rewrite Hclean. simpl.
  destruct (PyStr.contains (PyStr.lower (text first)) (PyStr.lower title)) eqn:E.
  - split; [reflexivity|]. intros Hn. exfalso. apply Hn.
    apply contains_lower_iff. exact E.
  - split; [|reflexivity]. intros Hs. apply contains_lower_iff in Hs. congruence.
Qed.

Lemma title_suppression_witness :
  assemble "Acme Corp Annual Report" annual_report_outline
  = [mkEntry "H2" "Overview" 2]
  /\ assemble "Quarterly Figures" annual_report_outline
     = [mkEntry "H1" "annual report" 1; mkEntry "H2" "Overview" 2].
Proof.
  split.
  - apply (proj1 (title_suppression "Acme Corp Annual Report"
                    annual_report_outline (mkEntry "H1" "annual report" 1)
                    [mkEntry "H2" "Overview" 2] eq_refl)).
    apply contains_lower_iff. vm_compute. reflexivity.
  - apply (proj2 (title_suppression "Quarterly Figures"
                    annual_report_outline (mkEntry "H1" "annual report" 1)
                    [mkEntry "H2" "Overview" 2] eq_refl)).
    intros H. apply contains_lower_iff in H. vm_compute in H. discriminate H.
Defined.

(* ================================================================= *)
(** ** The body-style estimate on degenerate samples *)

Section SortedAllEqual.
Variable x : Q.

Lemma insert_all_eq (a : Q) (l : list Q) :
  a == x -> Forall (fun y => y == x) l ->
  Forall (fun y => y == x) (PyNum.insert Qle_bool a l).
Proof.
  intros Ha Hl. induction Hl as [|b l Hb Hl IH]; simpl.
  - constructor; [exact Ha | constructor].
  - destruct (Qle_bool a b).
    + constructor; [exact Ha|]. constructor; assumption.
    + constructor; assumption.
Qed.

Lemma sorted_all_eq (l : list Q) :
  Forall (fun y => y == x) l ->
  Forall (fun y => y == x) (PyNum.sorted Qle_bool l).
Proof.
  induction 1 as [|a l Ha Hl IH]; simpl.
  - constructor.
  - apply insert_all_eq; assumption.
Qed.

Lemma nth_all_eq (l : list Q) (i : nat) :
  Forall (fun y => y == x) l -> (i < List.length l)%nat -> nth i l 0 == x.
Proof.
  intros Hl. revert i. induction Hl as [|a l Ha Hl IH]; intros i Hi; simpl in *.
  - lia.
  - destruct i; [exact Ha|]. apply IH. lia.
Qed.

Lemma set_of_all_eq (l : list Q) :
  l <> [] -> Forall (fun y => y == x) l ->
  List.length (PyNum.set_of Qeq_bool l) = 1%nat.
Proof.
  intros Hne Hl. induction Hl as [|a l Ha Hl IH]; [congruence|].
  simpl. destruct l as [|b l].
  - reflexivity.
  - assert (Hex : existsb (Qeq_bool a) (b :: l) = true).
    { simpl. apply orb_true_iff. left. apply Qeq_bool_iff.
      rewrite Ha. symmetry. exact (Forall_inv Hl). }
    rewrite Hex. apply IH. discriminate.
Qed.
End SortedAllEqual.

Lemma insert_length {A : Type} (leb : A -> A -> bool) (a : A) (l : list A) :
  List.length (PyNum.insert leb a l) = S (List.length l).
Proof.
  induction l as [|b l IH]; simpl; [reflexivity|].
  destruct (leb a b); simpl; [reflexivity | rewrite IH; reflexivity].
Qed.

Lemma sorted_length {A : Type} (leb : A -> A -> bool) (l : list A) :
  List.length (PyNum.sorted leb l) = List.length l.
Proof.
  induction l as [|a l IH]; simpl; [reflexivity|].
  rewrite insert_length, IH. reflexivity.
Qed.

Lemma median_all_eq (x : Q) (l : list Q) :
  l <> [] -> Forall (fun y => y == x) l ->
  exists m, PyNum.median l = Ok m /\ m == x.
Proof.
  intros Hne Hl. unfold PyNum.median.
  pose proof (sorted_all_eq x l Hl) as Hs.
  pose proof (sorted_length Qle_bool l) as Hlen.
  set (data := PyNum.sorted Qle_bool l) in *.
  destruct (List.length data) as [|n] eqn:En.
  - destruct l; [congruence | simpl in Hlen; lia].
  - assert (Hhalf : (S n / 2 < S n)%nat) by (apply Nat.div_lt; lia).
    destruct (Nat.odd (S n)).
    + eexists. split; [reflexivity|]. apply nth_all_eq; [exact Hs | lia].
    + eexists. split; [reflexivity|].
      rewrite (nth_all_eq x data (S n / 2 - 1)) by (try exact Hs; lia).
      rewrite (nth_all_eq x data (S n / 2)) by (try exact Hs; lia).
      const_div. ring.
Qed.

(** The end-to-end example: one bold heading above a paragraph. *)
Example results_doc_outline :
  extract_outline "input/figures.pdf" (Opened results_doc)
  = Ok (Outline "Quarterly Figures" [mkEntry "H1" "Results" 1]).
Proof. vm_compute. reflexivity. Qed.


(* ================================================================= *)
(** ** Which steps can raise *)

Lemma for_each_total_in {A S : Type} (body : S -> A -> exc S) (l : list A) :
  (forall acc x, In x l -> exists acc', body acc x = Ok acc') ->
  forall acc, exists r, for_each body l acc = Ok r.
Proof.
  induction l as [|x l IH]; intros Hbody acc; simpl.
  - exists acc. reflexivity.
  - destruct (Hbody acc x (or_introl eq_refl)) as [acc' ->]. simpl.
    apply IH. intros a y Hy. apply Hbody. right. exact Hy.
Qed.

Lemma for_each_total {A S : Type} (body : S -> A -> exc S) :
  (forall acc x, exists acc', body acc x = Ok acc') ->
  forall l acc, exists r, for_each body l acc = Ok r.
Proof.
  intros Hbody l. apply for_each_total_in. intros acc x _. apply Hbody.
Qed.

Lemma is_empty_false_len (s : string) :
  PyStr.is_empty s = false -> PyStr.len s <> 0%nat.
Proof. destruct s; [discriminate | intros _; discriminate]. Qed.

(** The scanner guards its mean and its division: it never raises. *)
Lemma scan_line_total (is_standalone : bool) (body_stats : BodyStats)
    (page_num : Z) (acc : list HeadingCandidate) (line : Line) :
  exists acc', scan_line is_standalone body_stats page_num acc line = Ok acc'.
Proof.
  unfold scan_line. destruct (line_spans line) as [|s spans].
  - exists acc. reflexivity.
  - cbn [map PyNum.mean bind].
    set (line_text := PyStr.strip _).
    destruct (PyStr.is_empty line_text) eqn:E; cbn [bind].
    + destruct (is_line_a_heading _ _ _ _ _) as [[|] c]; eexists; reflexivity.
    + unfold PyNum.true_div.
      destruct (PyStr.len line_text) eqn:El;
        [apply is_empty_false_len in E; congruence|].
      cbn [bind].
      destruct (is_line_a_heading _ _ _ _ _) as [[|] c]; eexists; reflexivity.
Qed.

Lemma scan_document_total (doc : Document) (body_stats : BodyStats) :
  exists potential_headings,
    scan_document doc body_stats = Ok potential_headings.
Proof.
  unfold scan_document. apply for_each_total. intros acc [page_num page].
  unfold scan_page. apply for_each_total. intros acc' block.
  unfold scan_block. destruct (block_type block =? 0)%Z.
  - apply for_each_total. intros acc'' line. apply scan_line_total.
  - exists acc'. reflexivity.
Qed.

(** The body-style estimate completes when no sampled block starts with
    a line without span. *)
Lemma block_font_sizes_total (acc : list Q) (b : Block) :
  first_line_has_span b -> exists acc', block_font_sizes acc b = Ok acc'.
Proof.
  intros Hb. unfold block_font_sizes, looks_like_paragraph.
  destruct (block_type b =? 0)%Z; [|eexists; reflexivity].
  destruct (2 <? List.length (block_lines b))%nat eqn:E;
    [|eexists; reflexivity].
  unfold first_line_has_span in Hb.
  destruct (block_lines b) as [|line0 lines]; [discriminate E|].
  cbn [PyNum.index0 bind].
  destruct (line_spans line0) as [|span0 spans]; [congruence|].
  cbn [PyNum.index0 bind].
  destruct (3 <? _)%nat; eexists; reflexivity.
Qed.

Lemma collect_font_sizes_total (doc : Document) :
  spans_present doc -> exists font_sizes, collect_font_sizes doc = Ok font_sizes.
Proof.
  unfold spans_present, sampled_blocks, collect_font_sizes. intros Hp.
  rewrite Forall_forall in Hp.
  apply for_each_total_in. intros acc page Hpage. unfold page_font_sizes.
  apply for_each_total_in. intros acc' b Hb. apply block_font_sizes_total.
  apply Hp. apply in_flat_map. exists page. split; assumption.
Qed.

Lemma median_total (l : list Q) : l <> [] -> exists m, PyNum.median l = Ok m.
Proof.
  intros Hne. unfold PyNum.median.
  pose proof (sorted_length Qle_bool l) as Hlen.
  destruct (List.length (PyNum.sorted Qle_bool l)) as [|n] eqn:E.
  - destruct l; [congruence | discriminate Hlen].
  - destruct (Nat.odd (S n)); eexists; reflexivity.
Qed.

Lemma analyze_document_style_total (doc : Document) :
  spans_present doc ->
  exists body_stats, analyze_document_style doc = Ok body_stats.
Proof.
  intros Hp. destruct (collect_font_sizes_total doc Hp) as [fs Hfs].
  unfold analyze_document_style. rewrite Hfs. cbn [bind].
  destruct fs as [|a fs]; [eexists; reflexivity|].
  destruct (median_total (a :: fs)) as [m ->]; [discriminate|].
  eexists. reflexivity.
Qed.

(** Given a body-style estimate, scanning, leveling and assembly return
    an outline. *)
Lemma heuristic_outline_total (doc : Document) (title : string) :
  (exists body_stats, analyze_document_style doc = Ok body_stats) ->
  exists outline, heuristic_outline doc title = Ok (Outline title outline).
Proof.
  intros [body_stats Hs]. unfold heuristic_outline. rewrite Hs. cbn [bind].
  destruct (scan_document_total doc body_stats) as [hs ->]. cbn [bind].
  destruct hs; eexists; reflexivity.
Qed.

(* ================================================================= *)
(** ** The body-style estimate: what it returns *)

(** What holds when the sampling loops run to their end: if the sizes
    collected are all the same (one sample or more), [std_dev] is the
    literal 1.0 and [median_size] is the median of the samples, which is
    that common size; if nothing was collected, the result is the fixed
    baseline 11.0 and 1.5.  The loops run to their end on every document
    in which no sampled block starts with a line without span. *)
Lemma body_style_degenerate (doc : Document) :
  (spans_present doc ->
   exists font_sizes, collect_font_sizes doc = Ok font_sizes)
  /\ forall font_sizes,
      collect_font_sizes doc = Ok font_sizes ->
      (font_sizes = [] ->
       analyze_document_style doc = Ok (mkBodyStats 11 (Literal (3 # 2))))
      /\ (forall x, font_sizes <> [] -> Forall (fun y => y == x) font_sizes ->
          exists m, PyNum.median font_sizes = Ok m /\ m == x
                    /\ analyze_document_style doc
                       = Ok (mkBodyStats m (Literal 1))).
Proof.
  split; [apply collect_font_sizes_total|].
  intros font_sizes Hc. unfold analyze_document_style. rewrite Hc. simpl. split.
  - intros ->. reflexivity.
  - intros x Hne Hall.
    destruct (median_all_eq x font_sizes Hne Hall) as [m [Hm Hx]].
    exists m. split; [exact Hm|]. split; [exact Hx|].
    pose proof (set_of_all_eq x font_sizes Hne Hall) as Hset.
    destruct font_sizes as [|a l]; [congruence|].
    rewrite Hm. cbv beta iota delta [bind].
    rewrite Hset. reflexivity.
Qed.

Lemma body_style_degenerate_witness :
  (exists font_sizes, collect_font_sizes results_doc = Ok font_sizes)
  /\ (exists m, PyNum.median [110 # 10; 110 # 10; 110 # 10; 110 # 10] = Ok m
                /\ m == 11
                /\ analyze_document_style results_doc
                   = Ok (mkBodyStats m (Literal 1)))
  /\ analyze_document_style (mkDocument None [] [blank_page])
     = Ok (mkBodyStats 11 (Literal (3 # 2))).
Proof.
  split; [|split].
  - apply (proj1 (body_style_degenerate results_doc)).
    repeat constructor; discriminate.
  - apply (proj2 (proj2 (body_style_degenerate results_doc)
                    [110 # 10; 110 # 10; 110 # 10; 110 # 10] eq_refl) 11).
    + discriminate.
    + repeat constructor.
  - apply (proj1 (proj2 (body_style_degenerate (mkDocument None [] [blank_page]))
                    [] eq_refl)).
    reflexivity.
Defined.

(** C8.  The estimate is not returned on every document: with no
    qualifying sample at all ([ragged_doc]), and with four samples of one
    size followed by a block whose first line has no span
    ([prose_then_ragged_doc]), [analyze_document_style] raises
    [IndexError] where the fallback 11.0 and 1.5, and the median 11.0
    with [std_dev] 1.0, were due.  The samples of the second document
    are the four equal sizes of its first block. *)
Theorem body_style_estimate_raises :
  analyze_document_style ragged_doc = Raise IndexError
  /\ analyze_document_style prose_then_ragged_doc = Raise IndexError
  /\ for_each block_font_sizes [prose] []
     = Ok [110 # 10; 110 # 10; 110 # 10; 110 # 10]
  /\ block_font_sizes [110 # 10; 110 # 10; 110 # 10; 110 # 10] ragged
     = Raise IndexError
  /\ analyze_document_style results_doc = Ok (mkBodyStats (2200 # 200) (Literal 1)).
Proof. repeat split; vm_compute; reflexivity. Qed.

(* ================================================================= *)
(** ** The open failure and the exception that escapes *)

(** A failure of [fitz.open] is returned as an error record. *)
Lemma open_failure_is_returned (pdf_path message : string) :
  extract_outline pdf_path (OpenFails message)
  = Ok (Error ("Failed to open PDF: " ++ message)%string).
Proof. reflexivity. Qed.

(** C9.  [extract_outline] is not total: the body-style estimate indexes
    the first span of the first line of every block of three lines or
    more without checking that the line has one, and the [IndexError]
    leaves [extract_outline]; the scanner, given the same document, does
    not raise. *)
Theorem extract_outline_raises :
  extract_outline "input/ragged.pdf" (Opened ragged_doc) = Raise IndexError
  /\ analyze_document_style ragged_doc = Raise IndexError
  /\ scan_document ragged_doc (mkBodyStats 11 (Literal (3 # 2))) = Ok [].
Proof. repeat split; vm_compute; reflexivity. Qed.

(* ================================================================= *)
(** ** Loops that only append *)

Lemma fold_left_appending {A B : Type} (step : list B -> A -> list B) :
  (forall acc x, step acc x = acc ++ step [] x) ->
  forall l acc, fold_left step l acc = acc ++ flat_map (step []) l.
Proof.
  intros Hstep l. induction l as [|x l IH]; intros acc; simpl.
  - rewrite app_nil_r. reflexivity.
  - rewrite IH, Hstep, app_assoc. reflexivity.
Qed.

(* ================================================================= *)
(** ** The golden path *)

Lemma toc_entry_appends (acc : list OutlineEntry) (item : Z * string * Z) :
  toc_entry acc item = acc ++ toc_entry [] item.
Proof.
  destruct item as [[lvl txt] pg]. unfold toc_entry.
  destruct ((1 <=? lvl) && (lvl <=? 3))%Z; [reflexivity|].
  rewrite app_nil_r. reflexivity.
Qed.

Lemma toc_entries_mirror (toc : list (Z * string * Z)) :
  flat_map (toc_entry []) toc = toc_mirror toc.
Proof.
  unfold toc_mirror. induction toc as [|[[lvl txt] pg] toc IH]; [reflexivity|].
  simpl flat_map. rewrite IH. simpl filter.
  change (level_1_to_3 (lvl, txt, pg)) with ((1 <=? lvl) && (lvl <=? 3))%Z.
  unfold toc_entry.
  destruct ((1 <=? lvl) && (lvl <=? 3))%Z; reflexivity.
Qed.

Lemma toc_outline_mirror (toc : list (Z * string * Z)) :
  toc_outline toc = toc_mirror toc.
Proof.
  unfold toc_outline. destruct toc as [|item0 toc0]; [reflexivity|].
  rewrite (fold_left_appending toc_entry toc_entry_appends).
  apply toc_entries_mirror.
Qed.

Lemma toc_mirror_nonempty (toc : list (Z * string * Z)) :
  (exists item, In item toc /\ (1 <= toc_level item <= 3)%Z) ->
  toc_mirror toc <> [].
Proof.
  intros [item [Hin Hlvl]] Hnil. unfold toc_mirror in Hnil.
  apply map_eq_nil in Hnil.
  assert (Hf : In item (filter level_1_to_3 toc)).
  { apply filter_In. split; [exact Hin|]. unfold level_1_to_3.
    apply andb_true_iff. split; apply Z.leb_le; lia. }
  rewrite Hnil in Hf. exact Hf.
Qed.

(** C1 (amended).  For a document with at least one page whose TOC has an
    entry of level 1 to 3, the result is the resolved title with the
    mirror of the TOC, whatever the heuristic analysis would do: it is
    not run. *)
Theorem golden_path
    (fallback : Document -> string -> exc ExtractionResult)
    (pdf_path : string) (doc : Document) (page0 : Page) (rest : list Page) :
  pages doc = page0 :: rest ->
  (exists item, In item (get_toc doc) /\ (1 <= toc_level item <= 3)%Z) ->
  extract_outline_with fallback pdf_path (Opened doc)
  = Ok (Outline (resolve_title pdf_path doc page0) (toc_mirror (get_toc doc)))
  /\ extract_outline pdf_path (Opened doc)
     = Ok (Outline (resolve_title pdf_path doc page0) (toc_mirror (get_toc doc))).
Proof.
  intros Hpages Hlevel.
  assert (H : forall fb, extract_outline_with fb pdf_path (Opened doc)
              = Ok (Outline (resolve_title pdf_path doc page0)
                            (toc_mirror (get_toc doc)))).
  { intros fb. unfold extract_outline_with. rewrite Hpages.
    rewrite toc_outline_mirror.
    pose proof (toc_mirror_nonempty _ Hlevel) as Hne.
    destruct (toc_mirror (get_toc doc)); [congruence | reflexivity]. }
  split; [apply H | apply (H heuristic_outline)].
Qed.

Lemma golden_path_witness :
  extract_outline_with (fun _ _ => Raise IndexError) "input/figures.pdf"
                       (Opened bookmarked_doc)
  = Ok (Outline "Quarterly Figures"
                [mkEntry "H1" "Summary" 1; mkEntry "H2" "Outlook" 2])
  /\ extract_outline "input/figures.pdf" (Opened bookmarked_doc)
     = Ok (Outline "Quarterly Figures"
                   [mkEntry "H1" "Summary" 1; mkEntry "H2" "Outlook" 2]).
Proof.
  apply (golden_path (fun _ _ => Raise IndexError) "input/figures.pdf"
                     bookmarked_doc results_page [] eq_refl).
  exists (1, "  Summary ", 1)%Z. split; [left; reflexivity | unfold toc_level; simpl; lia].
Defined.

(** C1 as stated fails: with a TOC that has no entry of level 1 to 3 the
    heuristic analysis runs and its outline is returned; without pages the
    TOC is not read. *)
Lemma golden_path_counterexample :
  get_toc deep_toc_doc <> []
  /\ toc_mirror (get_toc deep_toc_doc) = []
  /\ extract_outline "input/figures.pdf" (Opened deep_toc_doc)
     = Ok (Outline "Quarterly Figures" [mkEntry "H1" "Results" 1])
  /\ extract_outline_with (fun _ _ => Raise IndexError) "input/figures.pdf"
                          (Opened deep_toc_doc)
     = Raise IndexError
  /\ get_toc pageless_doc <> []
  /\ toc_mirror (get_toc pageless_doc) = [mkEntry "H1" "Summary" 1]
  /\ extract_outline "input/figures.pdf" (Opened pageless_doc)
     = Ok (Outline "Untitled" []).
Proof.
  repeat split; try discriminate; vm_compute; reflexivity.
Qed.

(* ================================================================= *)
(** ** Title resolution *)

Lemma title_line_candidate_appends (acc : list (Q * string)) (line : Line) :
  title_line_candidate acc line = acc ++ title_line_candidate [] line.
Proof.
  unfold title_line_candidate. destruct (line_spans line) as [|span spans].
  - rewrite app_nil_r. reflexivity.
  - destruct (_ && _); [reflexivity | rewrite app_nil_r; reflexivity].
Qed.

Lemma title_block_candidates_appends (page : Page) (acc : list (Q * string))
    (block : Block) :
  title_block_candidates page acc block
  = acc ++ title_block_candidates page [] block.
Proof.
  unfold title_block_candidates. destruct (_ && _).
  - rewrite !(fold_left_appending _ title_line_candidate_appends). reflexivity.
  - rewrite app_nil_r. reflexivity.
Qed.

Lemma title_candidates_flat (page : Page) :
  title_candidates page
  = flat_map (fun block => if in_upper_half page block
                           then flat_map line_candidate (block_lines block)
                           else [])
             (get_text_sorted page).
Proof.
  unfold title_candidates.
  rewrite (fold_left_appending _ (title_block_candidates_appends page)).
  simpl app. apply flat_map_ext. intros block.
  unfold title_block_candidates, in_upper_half. destruct (_ && _); [|reflexivity].
  rewrite (fold_left_appending _ title_line_candidate_appends). reflexivity.
Qed.

Lemma title_candidate_iff (page : Page) (score : Q) (txt : string) :
  In (score, txt) (title_candidates page) <-> is_title_candidate page score txt.
Proof.
  unfold is_title_candidate.
  rewrite title_candidates_flat, in_flat_map. split.
  - intros [block [Hb Hin]]. unfold in_upper_half in Hin.
    destruct (block_type block =? 0)%Z eqn:Ht; [|contradiction]. simpl in Hin.
    destruct (Qlt_bool _ _) eqn:Hy; [|contradiction].
    apply in_flat_map in Hin. destruct Hin as [line [Hl Hin]].
    unfold line_candidate, title_line_candidate in Hin.
    destruct (line_spans line) as [|span spans] eqn:Hs; [contradiction|].
    destruct (3 <? _)%nat eqn:Hc; [|contradiction]. simpl in Hin.
    destruct (_ <? 15)%nat eqn:Hw; [|contradiction].
    destruct Hin as [Hin | []]. injection Hin as <- <-.
    exists block, line, span, spans.
    repeat split; try assumption; try reflexivity.
    + apply Z.eqb_eq. exact Ht.
    + apply Qlt_bool_iff. exact Hy.
    + apply Nat.ltb_lt. exact Hc.
    + apply Nat.ltb_lt. exact Hw.
  - intros [block [line [span [spans [Hb [Ht [Hy [Hl [Hs [-> [Hc [Hw ->]]]]]]]]]]]].
    exists block. split; [exact Hb|]. unfold in_upper_half.
    apply Z.eqb_eq in Ht. apply Qlt_bool_iff in Hy. rewrite Ht, Hy. simpl.
    apply in_flat_map. exists line. split; [exact Hl|].
    unfold line_candidate, title_line_candidate. rewrite Hs.
    apply Nat.ltb_lt in Hc. apply Nat.ltb_lt in Hw. rewrite Hc, Hw. simpl.
    left. reflexivity.
Qed.

Lemma max_by_score_spec (best : Q * string) (l : list (Q * string)) :
  let m := max_by_score best l in
  In m (best :: l) /\ forall c, In c (best :: l) -> fst c <= fst m.
Proof.
  revert best. induction l as [|c l IH]; intros best; simpl.
  - split; [left; reflexivity|]. intros c [<- | []]. apply Qle_refl.
  - destruct (Qlt_bool (fst best) (fst c)) eqn:E.
    + destruct (IH c) as [Hin Hmax]. split.
      * right. exact Hin.
      * intros c' [<- | Hc'].
        -- apply Qlt_bool_iff in E. apply Qlt_le_weak.
           eapply Qlt_le_trans; [exact E|]. apply Hmax. left. reflexivity.
        -- apply Hmax. exact Hc'.
    + destruct (IH best) as [Hin Hmax]. split.
      * destruct Hin as [<- | Hin]; [left; reflexivity | right; right; exact Hin].
      * intros c' [<- | [<- | Hc']].
        -- apply Hmax. left. reflexivity.
        -- apply Qlt_bool_false_iff in E.
           eapply Qle_trans; [exact E|]. apply Hmax. left. reflexivity.
        -- apply Hmax. right. exact Hc'.
Qed.

(** C7 (amended).  When the trimmed metadata title has fewer than 5
    characters (none, if it is absent), the candidates are the trimmed
    first-span texts of all the lines of the first page's text blocks
    whose top edge is in the upper half, kept when they have more than 3
    characters and fewer than 15 words, scored with the span's size plus 2
    if bold; the title is a candidate text of greatest score, and the base
    name of the file when there is no candidate. *)
Theorem title_resolution (pdf_path : string) (doc : Document) (page0 : Page) :
  (PyStr.len (PyStr.strip (match metadata_title doc with
                           | Some t => t
                           | None => EmptyString
                           end)) < 5)%nat ->
  ((forall score txt, ~ is_title_candidate page0 score txt) ->
   resolve_title pdf_path doc page0 = PyStr.basename pdf_path)
  /\ ((exists score txt, is_title_candidate page0 score txt) ->
      exists score,
        is_title_candidate page0 score (resolve_title pdf_path doc page0)
        /\ forall score' txt',
             is_title_candidate page0 score' txt' -> score' <= score).
Proof.
  intros Hshort. unfold resolve_title.
  apply Nat.ltb_lt in Hshort. rewrite Hshort, orb_true_r. split.
  - intros Hnone. destruct (title_candidates page0) as [|[score txt] rest] eqn:E;
      [reflexivity|].
    exfalso. apply (Hnone score txt). apply title_candidate_iff.
    rewrite E. left. reflexivity.
  - intros [score [txt Hc]]. apply title_candidate_iff in Hc.
    destruct (title_candidates page0) as [|c rest] eqn:E; [contradiction|].
    destruct (max_by_score_spec c rest) as [Hin Hmax].
    exists (fst (max_by_score c rest)). split.
    + apply title_candidate_iff. rewrite E, <- surjective_pairing. exact Hin.
    + intros score' txt' Hc'. apply title_candidate_iff in Hc'.
      rewrite E in Hc'. exact (Hmax (score', txt') Hc').
Qed.

Lemma title_resolution_witness :
  (exists score,
      is_title_candidate cover_page score
        (resolve_title "input/cover.pdf" cover_doc cover_page)
      /\ forall score' txt',
           is_title_candidate cover_page score' txt' -> score' <= score)
  /\ resolve_title "input/blank.pdf" (mkDocument None [] [blank_page]) blank_page
     = "blank.pdf".
Proof.
  split.
  - apply (proj2 (title_resolution "input/cover.pdf" cover_doc cover_page
                    ltac:(vm_compute; lia))).
    exists 10, "Prepared for the board". apply title_candidate_iff.
    vm_compute. left. reflexivity.
  - apply (proj1 (title_resolution "input/blank.pdf"
                    (mkDocument None [] [blank_page]) blank_page
                    ltac:(vm_compute; lia))).
    intros score txt Hc. apply title_candidate_iff in Hc. exact Hc.
Defined.

(** C7 as stated fails: a single word of more than 3 characters is taken
    as the title although it has fewer than 4 words, and a second line of a
    block wins over the block's first line. *)
Lemma title_resolution_counterexample :
  claimed_title "input/intro.pdf" one_word_page = "intro.pdf"
  /\ resolve_title "input/intro.pdf" one_word_doc one_word_page = "Introduction"
  /\ extract_outline "input/intro.pdf" (Opened one_word_doc)
     = Ok (Outline "Introduction" [])
  /\ claimed_title "input/cover.pdf" cover_page = "Prepared for the board"
  /\ resolve_title "input/cover.pdf" cover_doc cover_page
     = "Annual report of the group".
Proof. repeat split; vm_compute; reflexivity. Qed.

(* ================================================================= *)
(** ** The stable insertion sort *)

Section SortFacts.
Context {A : Type} (leb : A -> A -> bool).

Lemma insert_perm (a : A) (l : list A) :
  Permutation (PyNum.insert leb a l) (a :: l).
Proof.
  induction l as [|b l IH]; simpl.
  - apply Permutation_refl.
  - destruct (leb a b).
    + apply Permutation_refl.
    + eapply perm_trans; [apply perm_skip; exact IH | apply perm_swap].
Qed.

Lemma sorted_perm (l : list A) : Permutation (PyNum.sorted leb l) l.
Proof.
  induction l as [|a l IH]; simpl.
  - apply perm_nil.
  - eapply perm_trans; [apply insert_perm | apply perm_skip; exact IH].
Qed.

Hypothesis leb_total : forall a b, leb a b = false -> leb b a = true.
Hypothesis leb_trans :
  forall a b c, leb a b = true -> leb b c = true -> leb a c = true.

Let R (a b : A) : Prop := leb a b = true.

Lemma insert_sorted (a : A) (l : list A) :
  StronglySorted (fun x y => leb x y = true) l ->
  StronglySorted (fun x y => leb x y = true) (PyNum.insert leb a l).
Proof.
  induction 1 as [|b l Hs IH Hb]; simpl.
  - constructor; constructor.
  - destruct (leb a b) eqn:E.
    + constructor; [constructor; assumption|].
      constructor; [exact E|].
      eapply Forall_impl; [|exact Hb].
      intros c Hc. exact (leb_trans a b c E Hc).
    + constructor; [exact IH|].
      eapply Permutation_Forall;
        [apply Permutation_sym; apply insert_perm|].
      constructor; [exact (leb_total a b E) | exact Hb].
Qed.

Lemma sorted_sorted (l : list A) :
  StronglySorted (fun x y => leb x y = true) (PyNum.sorted leb l).
Proof.
  induction l as [|a l IH]; simpl.
  - constructor.
  - apply insert_sorted. exact IH.
Qed.
End SortFacts.

Lemma pair_leb_iff (a b : Z * Q) :
  pair_leb a b = true
  <-> (fst a < fst b)%Z \/ (fst a = fst b /\ snd a <= snd b).
Proof.
  unfold pair_leb.
  rewrite orb_true_iff, andb_true_iff, Z.ltb_lt, Z.eqb_eq, Qle_bool_iff.
  reflexivity.
Qed.

Lemma pair_leb_total (a b : Z * Q) : pair_leb a b = false -> pair_leb b a = true.
Proof.
  intros H. apply pair_leb_iff.
  destruct (Z.lt_trichotomy (fst a) (fst b)) as [Hlt | [Heq | Hgt]].
  - assert (Ht : pair_leb a b = true) by (apply pair_leb_iff; left; exact Hlt).
    congruence.
  - right. split; [symmetry; exact Heq|].
    destruct (Qlt_le_dec (snd b) (snd a)) as [Hq | Hq].
    + apply Qlt_le_weak. exact Hq.
    + assert (Ht : pair_leb a b = true)
        by (apply pair_leb_iff; right; split; assumption).
      congruence.
  - left. lia.
Qed.

Lemma pair_leb_trans (a b c : Z * Q) :
  pair_leb a b = true -> pair_leb b c = true -> pair_leb a c = true.
Proof.
  rewrite !pair_leb_iff.
  intros [H1 | [H1 Q1]] [H2 | [H2 Q2]].
  - left. lia.
  - left. lia.
  - left. lia.
  - right. split; [congruence|]. eapply Qle_trans; eassumption.
Qed.

(* ================================================================= *)
(** ** Ordering and duplicate removal *)

Lemma kept_false_iff (prev e : LeveledEntry) :
  kept (Some prev, e) = false
  <-> l_text e = l_text prev /\ l_page e = l_page prev.
Proof.
  unfold kept, repeats. simpl.
  rewrite negb_false_iff, andb_true_iff, String.eqb_eq, Z.eqb_eq. reflexivity.
Qed.

Lemma clean_fold (l : list LeveledEntry) :
  forall (acc : list OutlineEntry) (last_text : string) (last_page : Z)
         (prev : option LeveledEntry),
    match prev with
    | Some e => last_text = l_text e /\ last_page = l_page e
    | None => last_page = (-1)%Z /\ Forall (fun e => (1 <= l_page e)%Z) l
    end ->
    fst (fst (fold_left clean_step l (acc, last_text, last_page)))
    = acc ++ map (fun p => strip_y_pos (snd p))
                 (filter kept (combine (prev :: map Some l) l)).
Proof.
  induction l as [|e l IH]; intros acc last_text last_page prev Hprev.
  - simpl. rewrite app_nil_r. reflexivity.
  - simpl fold_left. unfold clean_step at 1.
    assert (Hk : negb (String.eqb (l_text e) last_text
                       && (l_page e =? last_page)%Z) = kept (prev, e)).
    { unfold kept, repeats. simpl fst. simpl snd.
      destruct prev as [p|].
      - destruct Hprev as [-> ->]. reflexivity.
      - destruct Hprev as [-> Hall].
        assert (Hp : (1 <= l_page e)%Z) by exact (Forall_inv Hall).
        assert (Hn : (l_page e =? -1)%Z = false) by (apply Z.eqb_neq; lia).
        rewrite Hn, andb_false_r. reflexivity. }
    rewrite Hk. simpl map. simpl combine. simpl filter.
    rewrite (IH _ _ _ (Some e)) by (split; reflexivity).
    destruct (kept (prev, e)); simpl.
    + rewrite <- app_assoc. reflexivity.
    + reflexivity.
Qed.

Lemma clean_outline_without_repeats (l : list LeveledEntry) :
  Forall (fun e => (1 <= l_page e)%Z) l ->
  clean_outline l = without_repeats l.
Proof.
  intros Hall. unfold clean_outline, without_repeats, with_previous.
  destruct l as [|e l]; [reflexivity|].
  rewrite (clean_fold (e :: l) [] EmptyString (-1)%Z None); [reflexivity|].
  split; [reflexivity | exact Hall].
Qed.

Lemma reading_leb_total (a b : LeveledEntry) :
  reading_leb a b = false -> reading_leb b a = true.
Proof. apply pair_leb_total. Qed.

Lemma reading_leb_trans (a b c : LeveledEntry) :
  reading_leb a b = true -> reading_leb b c = true -> reading_leb a c = true.
Proof. apply pair_leb_trans. Qed.

Lemma outline_assembly_parts (outline : list LeveledEntry) :
  Forall (fun e => (1 <= l_page e)%Z) outline ->
  Permutation (sort_outline outline) outline
  /\ clean_outline (sort_outline outline) = without_repeats (sort_outline outline).
Proof.
  intros Hpages. split; [apply sorted_perm|].
  apply clean_outline_without_repeats.
  eapply Permutation_Forall; [|exact Hpages].
  apply Permutation_sym. apply sorted_perm.
Qed.

(** C5.  The assembler puts the leveled candidates (whose pages are
    1-based) in reading order, page first and vertical position second,
    and then removes an entry exactly when it has the text and the page of
    the entry just before it in that order. *)
Theorem outline_assembly (outline : list LeveledEntry) :
  Forall (fun e => (1 <= l_page e)%Z) outline ->
  let ordered := sort_outline outline in
  Permutation ordered outline
  /\ StronglySorted reading_order ordered
  /\ clean_outline ordered = without_repeats ordered
  /\ (forall prev e, kept (Some prev, e) = false
                     <-> l_text e = l_text prev /\ l_page e = l_page prev).
Proof.
  intros Hpages ordered. split; [apply sorted_perm|].
  split; [|split; [|intros prev e; apply kept_false_iff]].
  - pose proof (sorted_sorted reading_leb reading_leb_total reading_leb_trans
                              outline) as Hs.
    fold (sort_outline outline) in Hs. fold ordered in Hs.
    induction Hs as [|a l Hl IH Ha]; constructor.
    + exact IH.
    + eapply Forall_impl; [|exact Ha]. intros b Hb.
      apply pair_leb_iff in Hb. exact Hb.
  - apply clean_outline_without_repeats.
    eapply Permutation_Forall; [|exact Hpages].
    apply Permutation_sym. apply sorted_perm.
Qed.

Lemma outline_assembly_witness :
  let ordered := sort_outline repeated_outline in
  Permutation ordered repeated_outline
  /\ StronglySorted reading_order ordered
  /\ clean_outline ordered = without_repeats ordered
  /\ (forall prev e, kept (Some prev, e) = false
                     <-> l_text e = l_text prev /\ l_page e = l_page prev).
Proof.
  apply outline_assembly.
  repeat constructor; simpl; lia.
Defined.

Example repeated_outline_cleaned :
  clean_outline (sort_outline repeated_outline)
  = [mkEntry "H2" "Scope" 1; mkEntry "H1" "Methods" 2; mkEntry "H1" "Methods" 3].
Proof. vm_compute. reflexivity. Qed.

(* ================================================================= *)
(** ** Signatures and their ranking *)

Lemma get_visual_signature_bucketed (h : HeadingCandidate) :
  bucketed (get_visual_signature h).
Proof. eexists. reflexivity. Qed.

Lemma sig_eqb_refl (s : Signature) : sig_eqb s s = true.
Proof.
  unfold sig_eqb. rewrite eqb_reflx. apply Qeq_bool_iff. reflexivity.
Qed.

Lemma sig_eqb_eq (s t : Signature) :
  bucketed s -> bucketed t -> (sig_eqb s t = true <-> s = t).
Proof.
  intros [n Hn] [m Hm]. split.
  - destruct s as [b q], t as [c r]. simpl in Hn, Hm. subst q r.
    unfold sig_eqb. simpl. rewrite andb_true_iff, eqb_true_iff, Qeq_bool_iff.
    intros [-> H]. unfold Qeq in H. simpl in H.
    assert (n = m) by lia. subst m. reflexivity.
  - intros ->. apply sig_eqb_refl.
Qed.

Section SetFacts.
Context {A : Type} (eqb : A -> A -> bool) (P : A -> Prop).
Hypothesis eqb_eq : forall x y, P x -> P y -> (eqb x y = true <-> x = y).

Lemma existsb_eqb_In (x : A) (l : list A) :
  P x -> Forall P l -> (existsb (eqb x) l = true <-> In x l).
Proof.
  intros Hx Hl. rewrite existsb_exists. split.
  - intros [y [Hin Hy]]. rewrite Forall_forall in Hl.
    apply eqb_eq in Hy; [subst y; exact Hin | exact Hx | apply Hl; exact Hin].
  - intros Hin. exists x. split; [exact Hin|].
    apply eqb_eq; [exact Hx | exact Hx | reflexivity].
Qed.

Lemma set_of_In (x : A) (l : list A) :
  Forall P l -> (In x (PyNum.set_of eqb l) <-> In x l).
Proof.
  induction 1 as [|a l Ha Hl IH]; simpl; [reflexivity|].
  destruct (existsb (eqb a) l) eqn:E.
  - rewrite IH. split; [right; assumption|].
    intros [<- | Hin]; [|exact Hin].
    apply existsb_eqb_In; assumption.
  - simpl. rewrite IH. reflexivity.
Qed.

Lemma set_of_NoDup (l : list A) : Forall P l -> NoDup (PyNum.set_of eqb l).
Proof.
  induction 1 as [|a l Ha Hl IH]; simpl; [constructor|].
  destruct (existsb (eqb a) l) eqn:E; [exact IH|].
  constructor; [|exact IH].
  rewrite set_of_In by exact Hl. intros Hin.
  apply existsb_eqb_In in Hin; [congruence | exact Ha | exact Hl].
Qed.
End SetFacts.

Lemma more_prominentb_iff (s t : Signature) :
  more_prominentb s t = true <-> more_prominent s t.
Proof.
  unfold more_prominentb, more_prominent.
  rewrite orb_true_iff, !andb_true_iff, negb_true_iff, eqb_true_iff, Qlt_bool_iff.
  reflexivity.
Qed.

Lemma more_prominent_asym (s t : Signature) :
  more_prominent s t -> ~ more_prominent t s.
Proof.
  intros [[H1 H2] | [H1 H2]] [[H3 H4] | [H3 H4]]; try congruence.
  exact (Qlt_irrefl _ (Qlt_trans _ _ _ H2 H4)).
Qed.

Lemma more_prominent_irrefl (s : Signature) : ~ more_prominent s s.
Proof. intros H. exact (more_prominent_asym s s H H). Qed.

Lemma sig_leb_total (s t : Signature) : sig_leb s t = false -> sig_leb t s = true.
Proof. apply pair_leb_total. Qed.

Lemma sig_leb_trans (s t u : Signature) :
  sig_leb s t = true -> sig_leb t u = true -> sig_leb s u = true.
Proof. apply pair_leb_trans. Qed.

Lemma sig_leb_strict (s t : Signature) :
  bucketed s -> bucketed t -> s <> t -> sig_leb s t = true -> more_prominent s t.
Proof.
  intros Hs Ht Hne Hle. unfold sig_leb in Hle. apply pair_leb_iff in Hle.
  assert (Hq : ~ snd s == snd t \/ fst s <> fst t).
  { destruct (Bool.bool_dec (fst s) (fst t)) as [Hb | Hb]; [left | right; exact Hb].
    intros Heq. apply Hne. apply (sig_eqb_eq s t Hs Ht). unfold sig_eqb.
    rewrite Hb, eqb_reflx. apply Qeq_bool_iff. exact Heq. }
  unfold sig_key in Hle. unfold more_prominent.
  destruct s as [[|] q], t as [[|] r]; simpl in *.
  - right. split; [reflexivity|].
    destruct Hle as [Hle | [_ Hle]]; [lia|].
    destruct Hq as [Hq | Hq]; [|congruence].
    apply Qnot_le_lt. intros Hc. apply Hq. apply Qle_antisym; [exact Hc|].
    apply Qopp_le_compat in Hle. rewrite !Qopp_involutive in Hle. exact Hle.
  - left. split; reflexivity.
  - destruct Hle as [Hle | [Hle _]]; lia.
  - right. split; [reflexivity|].
    destruct Hle as [Hle | [_ Hle]]; [lia|].
    destruct Hq as [Hq | Hq]; [|congruence].
    apply Qnot_le_lt. intros Hc. apply Hq. apply Qle_antisym; [exact Hc|].
    apply Qopp_le_compat in Hle. rewrite !Qopp_involutive in Hle. exact Hle.
Qed.

Lemma strictly_sorted (l : list Signature) :
  Forall bucketed l -> NoDup l ->
  StronglySorted (fun s t => sig_leb s t = true) l ->
  StronglySorted more_prominent l.
Proof.
  intros Hb Hn Hs. induction Hs as [|a l Hs IH Ha]; constructor.
  - apply IH; [exact (Forall_inv_tail Hb)|].
    apply NoDup_cons_iff in Hn. exact (proj2 Hn).
  - rewrite Forall_forall in *. intros t Hin.
    apply sig_leb_strict.
    + apply Hb. left. reflexivity.
    + apply Hb. right. exact Hin.
    + intros ->. apply NoDup_cons_iff in Hn. destruct Hn as [Hn _]. contradiction.
    + apply Ha. exact Hin.
Qed.

Lemma signatures_bucketed (hs : list HeadingCandidate) :
  Forall bucketed (map get_visual_signature hs).
Proof.
  apply Forall_forall. intros s Hin. apply in_map_iff in Hin.
  destruct Hin as [h [<- _]]. apply get_visual_signature_bucketed.
Qed.

Lemma unique_signatures_perm (hs : list HeadingCandidate) :
  Permutation (unique_signatures hs) (distinct_signatures hs).
Proof. apply sorted_perm. Qed.

Lemma unique_signatures_In (hs : list HeadingCandidate) (s : Signature) :
  In s (unique_signatures hs) <-> In s (map get_visual_signature hs).
Proof.
  rewrite <- (set_of_In sig_eqb bucketed sig_eqb_eq s _ (signatures_bucketed hs)).
  split; apply Permutation_in;
    [|apply Permutation_sym]; apply unique_signatures_perm.
Qed.

Lemma unique_signatures_bucketed (hs : list HeadingCandidate) :
  Forall bucketed (unique_signatures hs).
Proof.
  apply Forall_forall. intros s Hin. apply unique_signatures_In in Hin.
  pose proof (signatures_bucketed hs) as Hb. rewrite Forall_forall in Hb.
  apply Hb. exact Hin.
Qed.

Lemma unique_signatures_NoDup (hs : list HeadingCandidate) :
  NoDup (unique_signatures hs).
Proof.
  eapply Permutation_NoDup.
  - apply Permutation_sym. apply unique_signatures_perm.
  - apply (set_of_NoDup sig_eqb bucketed sig_eqb_eq). apply signatures_bucketed.
Qed.

Lemma unique_signatures_sorted (hs : list HeadingCandidate) :
  StronglySorted more_prominent (unique_signatures hs).
Proof.
  apply strictly_sorted.
  - apply unique_signatures_bucketed.
  - apply unique_signatures_NoDup.
  - apply sorted_sorted; [exact sig_leb_total | exact sig_leb_trans].
Qed.

(** Two lists in strict order of prominence with the same elements are
    the same list: the order in which Python enumerates the set of
    signatures does not show in [unique_signatures]. *)
Lemma strictly_sorted_unique (l1 l2 : list Signature) :
  StronglySorted more_prominent l1 -> StronglySorted more_prominent l2 ->
  Permutation l1 l2 -> l1 = l2.
Proof.
  intros H1. revert l2. induction H1 as [|a l1 Hs1 IH Ha]; intros l2 H2 Hp.
  - apply Permutation_nil in Hp. congruence.
  - destruct H2 as [|b l2 Hs2 Hb].
    + apply Permutation_sym, Permutation_nil in Hp. discriminate Hp.
    + assert (Hab : a = b).
      { assert (Hina : In a (b :: l2))
          by (eapply Permutation_in; [exact Hp | left; reflexivity]).
        assert (Hinb : In b (a :: l1))
          by (eapply Permutation_in;
              [apply Permutation_sym; exact Hp | left; reflexivity]).
        destruct Hina as [<- | Hina]; [reflexivity|].
        destruct Hinb as [-> | Hinb]; [reflexivity|].
        rewrite Forall_forall in Ha, Hb. exfalso.
        exact (more_prominent_asym a b (Ha b Hinb) (Hb a Hina)). }
      subst b. f_equal. apply IH; [exact Hs2|].
      eapply Permutation_cons_inv. exact Hp.
Qed.

Lemma unique_signatures_any_order (hs : list HeadingCandidate)
    (l : list Signature) :
  Permutation l (distinct_signatures hs) ->
  PyNum.sorted sig_leb l = unique_signatures hs.
Proof.
  intros Hp.
  assert (Hpl : Permutation (PyNum.sorted sig_leb l) (unique_signatures hs)).
  { eapply perm_trans; [apply sorted_perm|].
    eapply perm_trans; [exact Hp|].
    apply Permutation_sym. apply unique_signatures_perm. }
  apply strictly_sorted_unique; [|apply unique_signatures_sorted | exact Hpl].
  apply strictly_sorted.
  - eapply Permutation_Forall; [apply Permutation_sym; exact Hpl|].
    apply unique_signatures_bucketed.
  - eapply Permutation_NoDup; [apply Permutation_sym; exact Hpl|].
    apply unique_signatures_NoDup.
  - apply sorted_sorted; [exact sig_leb_total | exact sig_leb_trans].
Qed.

Lemma filter_length_perm {A : Type} (f : A -> bool) (l l' : list A) :
  Permutation l l' -> List.length (filter f l) = List.length (filter f l').
Proof.
  induction 1 as [|x l l' Hp IH|x y l|l l' l'' H1 IH1 H2 IH2]; simpl.
  - reflexivity.
  - destruct (f x); simpl; congruence.
  - destruct (f x), (f y); reflexivity.
  - congruence.
Qed.

Lemma filter_none {A : Type} (f : A -> bool) (l : list A) :
  (forall x, In x l -> f x = false) -> filter f l = [].
Proof.
  induction l as [|a l IH]; intros H; simpl; [reflexivity|].
  rewrite (H a) by (left; reflexivity). apply IH.
  intros x Hx. apply H. right. exact Hx.
Qed.

(** In a list sorted by prominence, the signatures more prominent than
    the one at position [i] are the [i] signatures before it. *)
Lemma more_prominent_prefix (l : list Signature) :
  StronglySorted more_prominent l ->
  forall i s, nth_error l i = Some s ->
              filter (fun t => more_prominentb t s) l = firstn i l.
Proof.
  induction 1 as [|a l Hs IH Ha]; intros i s Hi.
  - destruct i; discriminate Hi.
  - rewrite Forall_forall in Ha. destruct i as [|i]; simpl in Hi.
    + injection Hi as ->. simpl.
      destruct (more_prominentb s s) eqn:E.
      * apply more_prominentb_iff in E. exfalso.
        exact (more_prominent_irrefl s E).
      * apply filter_none.
        intros t Hin. destruct (more_prominentb t s) eqn:Et; [|reflexivity].
        apply more_prominentb_iff in Et. exfalso.
        exact (more_prominent_asym s t (Ha t Hin) Et).
    + simpl.
      assert (Has : more_prominentb a s = true).
      { apply more_prominentb_iff. apply Ha. eapply nth_error_In. exact Hi. }
      rewrite Has. f_equal. apply IH. exact Hi.
Qed.

Lemma rank_is_position (hs : list HeadingCandidate) (i : nat) (s : Signature) :
  nth_error (unique_signatures hs) i = Some s -> rank hs s = i.
Proof.
  intros Hi. unfold rank.
  rewrite <- (filter_length_perm _ _ _ (unique_signatures_perm hs)).
  rewrite (more_prominent_prefix _ (unique_signatures_sorted hs) i s Hi).
  apply firstn_length_le. apply Nat.lt_le_incl.
  apply nth_error_Some. congruence.
Qed.

Lemma sig_eqb_neq (s t : Signature) :
  bucketed s -> bucketed t -> s <> t -> sig_eqb s t = false.
Proof.
  intros Hs Ht Hne. destruct (sig_eqb s t) eqn:E; [|reflexivity].
  apply (sig_eqb_eq s t Hs Ht) in E. contradiction.
Qed.

Lemma heading_levels :
  heading_level 1 = "H1" /\ heading_level 2 = "H2" /\ heading_level 3 = "H3".
Proof. repeat split. Qed.

(** The dict built from the sorted distinct signatures sends the
    signature at position 0, 1, 2 to H1, H2, H3 and has no other key. *)
Lemma level_map_lookup (l : list Signature) (i : nat) (s : Signature) :
  NoDup l -> Forall bucketed l -> nth_error l i = Some s ->
  dict_get (level_map l) s = level_of_rank i.
Proof.
  intros Hn Hb Hi.
  destruct heading_levels as [H1 [H2 H3]].
  assert (Hneq : forall j t, j <> i -> nth_error l j = Some t -> sig_eqb t s = false).
  { intros j t Hj Ht. apply sig_eqb_neq.
    - rewrite Forall_forall in Hb. apply Hb. eapply nth_error_In. exact Ht.
    - rewrite Forall_forall in Hb. apply Hb. eapply nth_error_In. exact Hi.
    - intros ->. apply Hj.
      apply (proj1 (NoDup_nth_error l) Hn);
        [apply nth_error_Some; congruence | congruence]. }
  assert (Hdist : forall j k t u, j <> k -> nth_error l j = Some t ->
                                  nth_error l k = Some u -> sig_eqb t u = false).
  { intros j k t u Hjk Ht Hu. apply sig_eqb_neq.
    - rewrite Forall_forall in Hb. apply Hb. eapply nth_error_In. exact Ht.
    - rewrite Forall_forall in Hb. apply Hb. eapply nth_error_In. exact Hu.
    - intros ->. apply Hjk.
      apply (proj1 (NoDup_nth_error l) Hn);
        [apply nth_error_Some; congruence | congruence]. }
  unfold level_map, enumerate.
  destruct l as [|a [|b [|c rest]]].
  - destruct i; discriminate Hi.
  - destruct i as [|[|i]]; try discriminate Hi.
    injection Hi as ->. simpl. rewrite H1, sig_eqb_refl. reflexivity.
  - simpl. rewrite H1, H2.
    rewrite (Hdist 0%nat 1%nat a b) by (reflexivity || discriminate).
    simpl. destruct i as [|[|[|i]]]; try discriminate Hi; injection Hi as ->.
    + rewrite sig_eqb_refl. reflexivity.
    + rewrite (Hneq 0%nat a) by (reflexivity || discriminate).
      rewrite sig_eqb_refl. reflexivity.
  - simpl. rewrite H1, H2, H3.
    rewrite (Hdist 0%nat 1%nat a b) by (reflexivity || discriminate). simpl.
    rewrite (Hdist 0%nat 2%nat a c) by (reflexivity || discriminate).
    rewrite (Hdist 1%nat 2%nat b c) by (reflexivity || discriminate). simpl.
    destruct i as [|[|[|i]]].
    + injection Hi as ->. rewrite sig_eqb_refl. reflexivity.
    + injection Hi as ->.
      rewrite (Hneq 0%nat a) by (reflexivity || discriminate).
      rewrite sig_eqb_refl. reflexivity.
    + injection Hi as ->.
      rewrite (Hneq 0%nat a) by (reflexivity || discriminate).
      rewrite (Hneq 1%nat b) by (reflexivity || discriminate).
      rewrite sig_eqb_refl. reflexivity.
    + rewrite (Hneq 0%nat a) by (reflexivity || discriminate).
      rewrite (Hneq 1%nat b) by (reflexivity || discriminate).
      rewrite (Hneq 2%nat c) by (reflexivity || discriminate).
      reflexivity.
Qed.

Lemma level_of_rank_values (r : nat) (lvl : string) :
  level_of_rank r = Some lvl ->
  (r = 0%nat /\ lvl = "H1") \/ (r = 1%nat /\ lvl = "H2") \/ (r = 2%nat /\ lvl = "H3").
Proof.
  destruct r as [|[|[|r]]]; simpl; intros H; try discriminate H;
    injection H as <-; auto.
Qed.

Lemma assign_level_appends (levels : LevelMap) (acc : list LeveledEntry)
    (h : HeadingCandidate) :
  assign_level levels acc h = acc ++ assign_level levels [] h.
Proof.
  unfold assign_level. destruct (dict_get levels _) as [lvl|].
  - destruct (PyStr.is_empty lvl); [rewrite app_nil_r|]; reflexivity.
  - rewrite app_nil_r. reflexivity.
Qed.

Lemma flat_map_ext_in {A B : Type} (f g : A -> list B) (l : list A) :
  (forall x, In x l -> f x = g x) -> flat_map f l = flat_map g l.
Proof.
  induction l as [|a l IH]; intros H; simpl; [reflexivity|].
  rewrite (H a) by (left; reflexivity). f_equal. apply IH.
  intros x Hx. apply H. right. exact Hx.
Qed.

(** Every candidate gets the level of its rank, or is left out. *)
Lemma assign_levels_by_rank (hs : list HeadingCandidate) :
  assign_levels hs = flat_map (leveled hs) hs.
Proof.
  unfold assign_levels.
  rewrite (fold_left_appending _ (assign_level_appends _)). simpl app.
  apply flat_map_ext_in. intros h Hh.
  assert (Hin : In (get_visual_signature h) (unique_signatures hs)).
  { apply unique_signatures_In. apply in_map. exact Hh. }
  apply In_nth_error in Hin. destruct Hin as [i Hi].
  unfold assign_level, leveled.
  rewrite (level_map_lookup _ i _ (unique_signatures_NoDup hs)
                            (unique_signatures_bucketed hs) Hi).
  rewrite (rank_is_position hs i _ Hi).
  destruct (level_of_rank i) as [lvl|] eqn:E; [|reflexivity].
  apply level_of_rank_values in E.
  destruct E as [[_ ->] | [[_ ->] | [_ ->]]]; reflexivity.
Qed.

Lemma rank_below_count (hs : list HeadingCandidate) (h : HeadingCandidate) :
  In h hs ->
  (rank hs (get_visual_signature h) < List.length (distinct_signatures hs))%nat.
Proof.
  intros Hh.
  assert (Hin : In (get_visual_signature h) (unique_signatures hs)).
  { apply unique_signatures_In. apply in_map. exact Hh. }
  apply In_nth_error in Hin. destruct Hin as [i Hi].
  rewrite (rank_is_position hs i _ Hi).
  rewrite <- (Permutation_length (unique_signatures_perm hs)).
  apply nth_error_Some. congruence.
Qed.

(** [round(x)] is an integer at most one half away from [x]. *)
Lemma round_half_even_near (x : Q) :
  inject_Z (PyNum.round_half_even x) - (1 # 2) <= x
  /\ x <= inject_Z (PyNum.round_half_even x) + (1 # 2).
Proof.
  unfold PyNum.round_half_even.
  pose proof (Qfloor_le x) as Hlo. pose proof (Qlt_floor x) as Hhi.
  rewrite inject_Z_plus in Hhi. change (inject_Z 1) with 1 in Hhi.
  destruct ((x - inject_Z (Qfloor x)) ?= (1 # 2)) eqn:E.
  - apply Qeq_alt in E.
    destruct (Z.even (Qfloor x));
      rewrite ?inject_Z_plus; change (inject_Z 1) with 1; split; lra.
  - apply Qlt_alt in E. split; lra.
  - apply Qgt_alt in E. rewrite inject_Z_plus. change (inject_Z 1) with 1.
    split; lra.
Qed.

(** The signature of a candidate: its boldness, and the multiple of 0.5
    nearest to its size. *)
Lemma signature_is_style (h : HeadingCandidate) :
  fst (get_visual_signature h) = h_is_bold h
  /\ exists n : Z,
       snd (get_visual_signature h) = inject_Z n / 2
       /\ h_size h - (1 # 4) <= snd (get_visual_signature h)
       /\ snd (get_visual_signature h) <= h_size h + (1 # 4).
Proof.
  split; [reflexivity|].
  exists (PyNum.round_half_even (h_size h * 2)). split; [reflexivity|].
  unfold get_visual_signature. cbn [snd].
  destruct (round_half_even_near (h_size h * 2)) as [Hlo Hhi].
  const_div. split; lra.
Qed.

(** C4.  The signature of a candidate is its boldness with its size
    rounded to the nearest multiple of 0.5.  The leveler gives every
    candidate the level of the rank of its signature among the distinct
    signatures, bold before non-bold and then larger before smaller:
    rank 0, 1, 2 is H1, H2, H3 and a candidate of a lower rank is left
    out.  The code's sorted list of distinct signatures is in that order
    and the rank is the position in it.  With exactly two distinct
    signatures no entry is an H3. *)
Theorem visual_signature_levels (hs : list HeadingCandidate) :
  (forall h,
      fst (get_visual_signature h) = h_is_bold h
      /\ exists n : Z,
           snd (get_visual_signature h) = inject_Z n / 2
           /\ h_size h - (1 # 4) <= snd (get_visual_signature h)
           /\ snd (get_visual_signature h) <= h_size h + (1 # 4))
  /\ assign_levels hs = flat_map (leveled hs) hs
  /\ StronglySorted more_prominent (unique_signatures hs)
  /\ (forall s, In s (unique_signatures hs)
                <-> In s (map get_visual_signature hs))
  /\ (forall i s, nth_error (unique_signatures hs) i = Some s -> rank hs s = i)
  /\ (List.length (distinct_signatures hs) = 2%nat ->
      Forall (fun e => l_level e <> "H3") (assign_levels hs)).
Proof.
  split; [apply signature_is_style|].
  split; [apply assign_levels_by_rank|].
  split; [apply unique_signatures_sorted|].
  split; [apply unique_signatures_In|].
  split; [apply rank_is_position|].
  intros Htwo. rewrite assign_levels_by_rank. apply Forall_forall.
  intros e He. apply in_flat_map in He. destruct He as [h [Hh He]].
  pose proof (rank_below_count hs h Hh) as Hr. rewrite Htwo in Hr.
  unfold leveled in He.
  destruct (rank hs (get_visual_signature h)) as [|[|r]]; simpl in He.
  - destruct He as [<- | []]. discriminate.
  - destruct He as [<- | []]. discriminate.
  - lia.
Qed.

Example four_styles_levels :
  assign_levels four_styles
  = [mkLeveled "H3" "Scope" 1 120; mkLeveled "H2" "Methods" 2 80;
     mkLeveled "H1" "Quarterly Figures" 1 60; mkLeveled "H2" "Results" 3 80].
Proof. vm_compute. reflexivity. Qed.

Lemma visual_signature_levels_witness :
  Forall (fun e => l_level e <> "H3") (assign_levels two_styles)
  /\ assign_levels two_styles
     = [mkLeveled "H2" "Scope" 1 120; mkLeveled "H1" "Methods" 2 80;
        mkLeveled "H1" "Results" 3 80]
  /\ map get_visual_signature two_styles
     = [(false, inject_Z 28 / 2); (true, inject_Z 24 / 2);
        (true, inject_Z 24 / 2)].
Proof.
  split; [|split; vm_compute; reflexivity].
  apply (proj2 (proj2 (proj2 (proj2 (proj2
           (visual_signature_levels two_styles)))))).
  vm_compute. reflexivity.
Defined.

(* ================================================================= *)
(** ** Levels and page numbers of the produced entries *)

Lemma for_each_invariant {A S : Type} (P : S -> Prop) (body : S -> A -> exc S)
    (l : list A) :
  (forall acc x acc', In x l -> P acc -> body acc x = Ok acc' -> P acc') ->
  forall acc r, P acc -> for_each body l acc = Ok r -> P r.
Proof.
  induction l as [|x l IH]; intros Hbody acc r Hacc Hr; simpl in Hr.
  - injection Hr as <-. exact Hacc.
  - destruct (body acc x) as [acc'|e] eqn:E; [|discriminate Hr]. simpl in Hr.
    apply (IH (fun a y a' Hy => Hbody a y a' (or_intror Hy)) acc' r); [|exact Hr].
    apply (Hbody acc x acc'); [left; reflexivity | exact Hacc | exact E].
Qed.

Lemma enumerate_from_lower {A : Type} (l : list A) (start n : Z) (x : A) :
  In (n, x) (enumerate_from start l) -> (start <= n)%Z.
Proof.
  revert start. induction l as [|a l IH]; intros start; simpl; [contradiction|].
  intros [H | H].
  - injection H as <- _. lia.
  - apply IH in H. lia.
Qed.

Lemma scan_line_pages (is_standalone : bool) (body_stats : BodyStats)
    (page_num : Z) (acc acc' : list HeadingCandidate) (line : Line) :
  (0 <= page_num)%Z -> one_based acc ->
  scan_line is_standalone body_stats page_num acc line = Ok acc' ->
  one_based acc'.
Proof.
  intros Hp Hacc. unfold scan_line.
  destruct (line_spans line) as [|s spans]; [intros [= <-]; exact Hacc|].
  destruct (PyNum.mean _) as [m|]; [|discriminate]. cbn [bind].
  match goal with
  | |- bind ?c _ = _ -> _ => destruct c as [is_line_bold|]; [|discriminate]
  end.
  cbn [bind].
  destruct (is_line_a_heading _ _ _ _ _) as [[|] confidence]; intros [= <-].
  - apply Forall_app. split; [exact Hacc|].
    constructor; [simpl; lia | constructor].
  - exact Hacc.
Qed.

Lemma scan_document_pages (doc : Document) (body_stats : BodyStats)
    (hs : list HeadingCandidate) :
  scan_document doc body_stats = Ok hs -> one_based hs.
Proof.
  unfold scan_document.
  apply (for_each_invariant one_based); [|constructor].
  intros acc [page_num page] acc' Hin Hacc. unfold scan_page.
  apply enumerate_from_lower in Hin.
  apply (for_each_invariant one_based); [|exact Hacc].
  intros acc1 block acc1' _ Hacc1. unfold scan_block.
  destruct (block_type block =? 0)%Z; [|intros [= <-]; exact Hacc1].
  apply (for_each_invariant one_based); [|exact Hacc1].
  intros acc2 line acc2' _ Hacc2. apply scan_line_pages; assumption.
Qed.

Lemma assign_levels_entries (hs : list HeadingCandidate) :
  one_based hs ->
  Forall (fun e => level_ok (l_level e) /\ (1 <= l_page e)%Z) (assign_levels hs).
Proof.
  intros Hpages. rewrite assign_levels_by_rank. apply Forall_forall.
  intros e He. apply in_flat_map in He. destruct He as [h [Hh He]].
  unfold one_based in Hpages. rewrite Forall_forall in Hpages.
  unfold leveled in He.
  destruct (level_of_rank _) as [lvl|] eqn:E; [|contradiction].
  destruct He as [<- | []]. simpl. split; [|apply Hpages; exact Hh].
  apply level_of_rank_values in E. unfold level_ok.
  destruct E as [[_ ->] | [[_ ->] | [_ ->]]]; simpl; auto.
Qed.

Lemma suppress_title_incl (title : string) (l : list OutlineEntry) :
  incl (suppress_title title l) l.
Proof.
  unfold suppress_title. destruct l as [|first rest]; [apply incl_refl|].
  destruct (PyStr.contains _ _); [apply incl_tl|]; apply incl_refl.
Qed.

Lemma assemble_entries (title : string) (outline : list LeveledEntry)
    (e : OutlineEntry) :
  Forall (fun x => (1 <= l_page x)%Z) outline ->
  In e (assemble title outline) ->
  exists x, In x outline /\ e = strip_y_pos x.
Proof.
  intros Hpages He. unfold assemble in He.
  apply suppress_title_incl in He.
  destruct (outline_assembly_parts outline Hpages) as [Hperm Hclean].
  rewrite Hclean in He. unfold without_repeats, with_previous in He.
  apply in_map_iff in He. destruct He as [[prev x] [<- Hx]].
  apply filter_In in Hx. destruct Hx as [Hx _].
  apply in_combine_r in Hx. exists x. split; [|reflexivity].
  eapply Permutation_in; [exact Hperm | exact Hx].
Qed.

Lemma toc_mirror_entries (toc : list (Z * string * Z)) (e : OutlineEntry) :
  In e (toc_mirror toc) ->
  level_ok (level e) /\ exists item, In item toc /\ page e = toc_page item.
Proof.
  unfold toc_mirror. intros He. apply in_map_iff in He.
  destruct He as [item [<- Hin]]. apply filter_In in Hin.
  destruct Hin as [Hin Hlvl]. simpl. split; [|exists item; split; auto].
  unfold level_1_to_3 in Hlvl. apply andb_true_iff in Hlvl.
  destruct Hlvl as [Hlo Hhi]. apply Z.leb_le in Hlo. apply Z.leb_le in Hhi.
  assert (Hcases : toc_level item = 1%Z \/ toc_level item = 2%Z
                   \/ toc_level item = 3%Z) by lia.
  unfold level_ok.
  destruct Hcases as [-> | [-> | ->]]; vm_compute; auto.
Qed.

Lemma heuristic_outline_entries (doc : Document) (title title' : string)
    (outline : list OutlineEntry) :
  heuristic_outline doc title = Ok (Outline title' outline) ->
  Forall (fun e => level_ok (level e) /\ (1 <= page e)%Z) outline.
Proof.
  unfold heuristic_outline.
  destruct (analyze_document_style doc) as [body_stats|]; [|discriminate].
  cbn [bind].
  destruct (scan_document doc body_stats) as [hs|] eqn:Hscan; [|discriminate].
  cbn [bind]. apply scan_document_pages in Hscan.
  destruct hs as [|h hs]; intros [= _ <-]; [constructor|].
  pose proof (assign_levels_entries (h :: hs) Hscan) as Hentries.
  apply Forall_forall. intros e He.
  apply assemble_entries in He.
  - destruct He as [x [Hx ->]]. rewrite Forall_forall in Hentries.
    exact (Hentries x Hx).
  - eapply Forall_impl; [|exact Hentries]. intros x [_ Hx]. exact Hx.
Qed.

(** C10 (amended).  Every entry of a produced outline has one of the
    levels H1, H2, H3.  An entry found by the heuristic analysis has a page
    number of at least 1.  An entry taken from the TOC has the page number
    the TOC gives it, so the pages of the outline are all at least 1
    whenever those of the TOC are. *)
Theorem outline_entries (pdf_path : string) (doc : Document) (title : string)
    (outline : list OutlineEntry) :
  extract_outline pdf_path (Opened doc) = Ok (Outline title outline) ->
  Forall (fun e => level_ok (level e)) outline
  /\ (toc_mirror (get_toc doc) = [] ->
      Forall (fun e => (1 <= page e)%Z) outline)
  /\ (toc_mirror (get_toc doc) <> [] ->
      Forall (fun e => exists item, In item (get_toc doc)
                                    /\ page e = toc_page item) outline)
  /\ (Forall (fun item => (1 <= toc_page item)%Z) (get_toc doc) ->
      Forall (fun e => (1 <= page e)%Z) outline).
Proof.
  unfold extract_outline, extract_outline_with.
  destruct (pages doc) as [|page0 rest].
  { intros [= _ <-]. repeat split; intros; constructor. }
  rewrite toc_outline_mirror.
  destruct (toc_mirror (get_toc doc)) as [|e0 es] eqn:Hmirror.
  - intros Hh. apply heuristic_outline_entries in Hh.
    repeat split; try congruence; intros;
      (eapply Forall_impl; [|exact Hh]); intros e [Hl Hp]; assumption.
  - intros [= _ <-].
    assert (Hall : Forall (fun e => level_ok (level e)
                                    /\ exists item, In item (get_toc doc)
                                                    /\ page e = toc_page item)
                          (e0 :: es)).
    { rewrite <- Hmirror. apply Forall_forall. intros e He.
      apply toc_mirror_entries. exact He. }
    repeat split; try discriminate; intros;
      (eapply Forall_impl; [|exact Hall]); intros e [Hl [item [Hin Hp]]];
      try assumption.
    + exists item. split; assumption.
    + rewrite Hp. rewrite Forall_forall in H. apply H. exact Hin.
Qed.

Lemma outline_entries_witness :
  Forall (fun e => level_ok (level e)) [mkEntry "H1" "Results" 1]
  /\ Forall (fun e => (1 <= page e)%Z) [mkEntry "H1" "Results" 1]
  /\ Forall (fun e => (1 <= page e)%Z)
            [mkEntry "H1" "Summary" 1; mkEntry "H2" "Outlook" 2].
Proof.
  pose proof (outline_entries "input/figures.pdf" results_doc
                "Quarterly Figures" [mkEntry "H1" "Results" 1]
                ltac:(vm_compute; reflexivity)) as [Hl [Hp _]].
  pose proof (outline_entries "input/figures.pdf" bookmarked_doc
                "Quarterly Figures"
                [mkEntry "H1" "Summary" 1; mkEntry "H2" "Outlook" 2]
                ltac:(vm_compute; reflexivity)) as [_ [_ [_ Ht]]].
  split; [exact Hl|]. split; [apply Hp; reflexivity|].
  apply Ht. repeat constructor; unfold toc_page; simpl; lia.
Defined.

(** C10 as stated fails on the golden path: the page of a TOC entry is
    copied as it is. *)
Lemma outline_entries_counterexample :
  extract_outline "input/figures.pdf" (Opened dangling_doc)
  = Ok (Outline "Quarterly Figures"
                [mkEntry "H1" "Summary" 1; mkEntry "H2" "Annex" (-1)])
  /\ ~ (1 <= page (mkEntry "H2" "Annex" (-1)))%Z.
Proof.
  split; [vm_compute; reflexivity | simpl; lia].
Qed.

(* ================================================================= *)
(** * Further properties of the code *)

(** ** [get_text_characteristics] *)

Lemma upper_not_space (c : ascii) : PyStr.isupper c = true -> PyStr.isspace c = false.
Proof.
  destruct c as [[|] [|] [|] [|] [|] [|] [|] [|]]; vm_compute; congruence.
Qed.

Lemma split_from_pending (cur l : list ascii) :
  cur <> [] -> PyStr.split_from cur l <> [].
Proof.
  revert cur. induction l as [|c l IH]; intros cur Hcur; simpl.
  - destruct cur; [congruence | discriminate].
  - destruct (PyStr.isspace c).
    + destruct cur; [congruence | discriminate].
    + apply IH. discriminate.
Qed.

Lemma split_from_nonspace (cur l : list ascii) :
  existsb (fun c => negb (PyStr.isspace c)) l = true ->
  PyStr.split_from cur l <> [].
Proof.
  revert cur. induction l as [|c l IH]; intros cur H; simpl in *.
  - discriminate H.
  - destruct (PyStr.isspace c); simpl in H.
    + destruct cur; [apply IH; exact H | discriminate].
    + apply split_from_pending. discriminate.
Qed.

Lemma isupper_has_word (s : string) :
  PyStr.isupper_str s = true -> (0 < List.length (PyStr.split s))%nat.
Proof.
  unfold PyStr.isupper_str, PyStr.split. intros H.
  apply andb_true_iff in H. destruct H as [_ H].
  rewrite length_map.
  assert (Hne : PyStr.split_from [] (PyStr.chars s) <> []).
  { apply split_from_nonspace. apply existsb_exists in H.
    destruct H as [c [Hin Hc]]. apply existsb_exists. exists c.
    split; [exact Hin|]. rewrite (upper_not_space c Hc). reflexivity. }
  destruct (PyStr.split_from [] (PyStr.chars s)); [congruence | simpl; lia].
Qed.

(** X1.  [is_all_caps] is [text.isupper()]: the test on the number of
    words never changes it, since a text with an uppercase letter has a
    word; and [is_all_caps] and [is_title_case] are never both true. *)
Theorem text_characteristics_case_flags (line_text : string) :
  let tc := get_text_characteristics line_text in
  is_all_caps tc = PyStr.isupper_str line_text
  /\ (is_all_caps tc = true -> (1 <= word_count tc)%nat)
  /\ is_all_caps tc && is_title_case tc = false.
Proof.
  unfold get_text_characteristics.
  destruct (PyStr.is_empty line_text) eqn:E.
  - destruct line_text; [|discriminate E]. repeat split. discriminate.
  - simpl. destruct (PyStr.isupper_str line_text) eqn:U; simpl.
    + pose proof (isupper_has_word line_text U) as Hw.
      apply Nat.ltb_lt in Hw. rewrite Hw. repeat split.
      * intros _. apply Nat.ltb_lt in Hw. lia.
      * rewrite andb_false_r. reflexivity.
    + repeat split. discriminate.
Qed.

Lemma text_characteristics_case_flags_witness :
  (1 <= word_count (get_text_characteristics "ANNEX B"))%nat.
Proof.
  apply (proj1 (proj2 (text_characteristics_case_flags "ANNEX B"))).
  reflexivity.
Defined.

(** ** [is_line_a_heading] *)

Lemma passes_filters_iff (line_text : string) (line_size : Q)
    (is_bold is_standalone : bool) (body_stats : BodyStats) :
  passes_filters line_text line_size is_bold body_stats
  <-> is_line_a_heading line_text line_size is_bold is_standalone body_stats
      = (Qle_bool (35 # 100)
           (normalize (heading_score line_text line_size is_bold is_standalone
                                     body_stats)),
         normalize (heading_score line_text line_size is_bold is_standalone
                                  body_stats))
      /\ PyStr.is_empty line_text = false
      /\ PyStr.isdigit_str line_text = false
      /\ (25 <? word_count (get_text_characteristics line_text))%nat = false
      /\ ends_with_period (get_text_characteristics line_text)
         && (5 <? word_count (get_text_characteristics line_text))%nat = false
      /\ negb is_bold && negb (is_large line_size body_stats)
         && negb (is_all_caps (get_text_characteristics line_text)) = false.
Proof.
  unfold passes_filters, is_line_a_heading.
  set (tc := get_text_characteristics line_text).
  split.
  - intros [Hne [Hd [Hw [Hp Hs]]]].
    assert (He : PyStr.is_empty line_text = false)
      by (destruct line_text; [congruence | reflexivity]).
    assert (Hw' : (25 <? word_count tc)%nat = false) by (apply Nat.ltb_ge; lia).
    assert (Hp' : ends_with_period tc && (5 <? word_count tc)%nat = false).
    { destruct (ends_with_period tc); [|reflexivity]. simpl.
      apply Nat.ltb_ge. destruct (Nat.le_gt_cases (word_count tc) 5); [lia|].
      exfalso. apply Hp. split; [reflexivity | lia]. }
    assert (Hs' : negb is_bold && negb (is_large line_size body_stats)
                  && negb (is_all_caps tc) = false).
    { destruct Hs as [-> | [-> | ->]]; simpl;
        rewrite ?andb_false_r; reflexivity. }
    rewrite He, Hd, Hw', Hp', Hs'. simpl. repeat split; reflexivity.
  - intros [_ [He [Hd [Hw [Hp Hs]]]]]. repeat split.
    + intros ->. discriminate He.
    + exact Hd.
    + apply Nat.ltb_ge in Hw. exact Hw.
    + intros [H1 H2]. rewrite H1 in Hp. apply Nat.ltb_lt in H2.
      rewrite H2 in Hp. discriminate Hp.
    + destruct is_bold; [left; reflexivity|].
      destruct (is_large line_size body_stats); [right; left; reflexivity|].
      destruct (is_all_caps tc); [right; right; reflexivity | discriminate Hs].
Qed.

Lemma accepted_lines (line_text : string) (line_size : Q)
    (is_bold is_standalone : bool) (body_stats : BodyStats) :
  fst (is_line_a_heading line_text line_size is_bold is_standalone body_stats)
  = true
  <-> passes_filters line_text line_size is_bold body_stats
      /\ 7 <= heading_score line_text line_size is_bold is_standalone body_stats.
Proof.
  split.
  - intros Hacc. split; [|apply accept_implies_score; exact Hacc].
    apply (passes_filters_iff _ _ _ is_standalone).
    revert Hacc. unfold is_line_a_heading.
    destruct (PyStr.is_empty line_text); [discriminate|].
    destruct (PyStr.isdigit_str line_text); [discriminate|]. simpl.
    destruct (25 <? _)%nat; [discriminate|].
    destruct (ends_with_period _ && _); [discriminate|].
    destruct (negb is_bold && _ && _); [discriminate|].
    intros _. repeat split; reflexivity.
  - intros [Hf Hs]. apply (passes_filters_iff _ _ _ is_standalone) in Hf.
    destruct Hf as [-> _]. simpl. apply normalize_threshold. exact Hs.
Qed.

(** X2.  The classifier accepts exactly the lines that pass its four
    filters (non-empty and not all digits, at most 25 words, not a
    period-terminated text of more than 5 words, and bold or large or in
    capitals) with a raw score of at least 7. *)
Theorem accept_iff (line_text : string) (line_size : Q)
    (is_bold is_standalone : bool) (body_stats : BodyStats) :
  fst (is_line_a_heading line_text line_size is_bold is_standalone body_stats)
  = true
  <-> passes_filters line_text line_size is_bold body_stats
      /\ 7 <= heading_score line_text line_size is_bold is_standalone body_stats.
Proof. apply accepted_lines. Qed.

(** X3.  The confidence tells the decision apart: it lies between 0.35
    and 1.1 for an accepted line and between 0 and 0.35, 0.35 excluded,
    for a rejected one. *)
Theorem confidence_by_decision (line_text : string) (line_size : Q)
    (is_bold is_standalone : bool) (body_stats : BodyStats) :
  let r := is_line_a_heading line_text line_size is_bold is_standalone body_stats in
  (fst r = true /\ 35 # 100 <= snd r <= 11 # 10)
  \/ (fst r = false /\ 0 <= snd r < 35 # 100).
Proof.
  intros r.
  pose proof (confidence_range line_text line_size is_bold is_standalone
                               body_stats) as [Hlo Hhi].
  pose proof (accept_iff_confidence line_text line_size is_bold is_standalone
                                    body_stats) as Hiff.
  fold r in Hlo, Hhi, Hiff. simpl in Hlo, Hhi, Hiff.
  destruct (fst r) eqn:E.
  - left. split; [reflexivity|]. split; [apply Hiff; reflexivity | exact Hhi].
  - right. split; [reflexivity|]. split; [exact Hlo|].
    apply Qnot_le_lt. intros H. apply Hiff in H. discriminate H.
Qed.

(** What the two flags add to the score. *)
Lemma heading_score_bold (line_text : string) (line_size : Q)
    (is_standalone : bool) (body_stats : BodyStats) :
  heading_score line_text line_size true is_standalone body_stats
  == heading_score line_text line_size false is_standalone body_stats + 6.
Proof.
  unfold heading_score.
  repeat match goal with
         | |- context [if ?b then _ else _] => destruct b
         end; ring.
Qed.

Lemma heading_score_standalone (line_text : string) (line_size : Q)
    (is_bold : bool) (body_stats : BodyStats) :
  heading_score line_text line_size is_bold true body_stats
  == heading_score line_text line_size is_bold false body_stats + 2.
Proof.
  unfold heading_score.
  repeat match goal with
         | |- context [if ?b then _ else _] => destruct b
         end; ring.
Qed.

Lemma passes_filters_bold (line_text : string) (line_size : Q)
    (is_bold : bool) (body_stats : BodyStats) :
  passes_filters line_text line_size is_bold body_stats ->
  passes_filters line_text line_size true body_stats.
Proof.
  unfold passes_filters. intros [H1 [H2 [H3 [H4 _]]]].
  repeat split; try assumption. left. reflexivity.
Qed.

(** X4.  Boldness and a block of its own only help: a line accepted
    without one of these two flags is accepted with it. *)
Theorem flags_only_help (line_text : string) (line_size : Q)
    (is_bold is_standalone : bool) (body_stats : BodyStats) :
  fst (is_line_a_heading line_text line_size is_bold is_standalone body_stats)
  = true ->
  fst (is_line_a_heading line_text line_size true is_standalone body_stats) = true
  /\ fst (is_line_a_heading line_text line_size is_bold true body_stats) = true.
Proof.
  intros H. apply accepted_lines in H. destruct H as [Hf Hs]. split.
  - apply accepted_lines. split; [eapply passes_filters_bold; exact Hf|].
    destruct is_bold; [exact Hs|].
    rewrite heading_score_bold. lra.
  - apply accepted_lines. split; [exact Hf|].
    destruct is_standalone; [exact Hs|].
    rewrite heading_score_standalone. lra.
Qed.

Lemma flags_only_help_witness :
  fst (is_line_a_heading "1. RESULTS" 14 true false (mkBodyStats 11 (Literal 1)))
  = true
  /\ fst (is_line_a_heading "1. RESULTS" 14 false true
                            (mkBodyStats 11 (Literal 1)))
     = true.
Proof.
  split.
  - apply (proj1 (flags_only_help "1. RESULTS" 14 false false
                    (mkBodyStats 11 (Literal 1)) ltac:(vm_compute; reflexivity))).
  - apply (proj2 (flags_only_help "1. RESULTS" 14 false false
                    (mkBodyStats 11 (Literal 1)) ltac:(vm_compute; reflexivity))).
Defined.

(** X5.  One visual signal is not enough: a line that is neither in
    capitals nor in title case, shares its block with other lines and
    carries no numbering is rejected unless it is both bold and large. *)
Theorem single_signal_rejected (line_text : string) (line_size : Q)
    (is_bold : bool) (body_stats : BodyStats) :
  let tc := get_text_characteristics line_text in
  is_all_caps tc = false ->
  is_title_case tc = false ->
  Regex.re_match HeadingPattern.pattern line_text = false ->
  is_bold = false \/ ~ median_size body_stats + (1 # 2) < line_size ->
  fst (is_line_a_heading line_text line_size is_bold false body_stats) = false.
Proof.
  intros tc Hc Ht Hr Hone.
  destruct (fst (is_line_a_heading line_text line_size is_bold false body_stats))
    eqn:E; [|reflexivity].
  exfalso. apply accept_implies_score in E. revert E.
  unfold heading_score. fold tc. rewrite Hc, Ht, Hr. simpl.
  assert (Hl : is_bold = false \/ is_large line_size body_stats = false).
  { destruct Hone as [H | H]; [left; exact H | right].
    destruct (is_large line_size body_stats) eqn:L; [|reflexivity].
    apply is_large_iff in L. contradiction. }
  assert (Hv : is_large line_size body_stats = false ->
               Qle_bool line_size (median_size body_stats + (5 # 2)) = true).
  { intros L. apply Qle_bool_iff.
    assert (Hle : line_size <= median_size body_stats + (1 # 2)).
    { apply Qnot_lt_le. intros Hlt. apply is_large_iff in Hlt. congruence. }
    lra. }
  destruct Hl as [-> | L].
  - destruct (is_large line_size body_stats);
      destruct (Qle_bool line_size _);
      destruct (ends_with_period tc); destruct (word_count tc =? 1)%nat;
      destruct (15 <? word_count tc)%nat; cbn -[Qplus Qminus Qle]; lra.
  - rewrite L, (Hv L).
    destruct is_bold;
      destruct (ends_with_period tc); destruct (word_count tc =? 1)%nat;
      destruct (15 <? word_count tc)%nat; cbn -[Qplus Qminus Qle]; lra.
Qed.

Lemma single_signal_rejected_witness :
  fst (is_line_a_heading "see the table below" 11 true false
                         (mkBodyStats 11 (Literal 1))) = false
  /\ fst (is_line_a_heading "see the table below" 30 false false
                            (mkBodyStats 11 (Literal 1))) = false.
Proof.
  split.
  - apply single_signal_rejected; try reflexivity.
    right. vm_compute. discriminate.
  - apply single_signal_rejected; try reflexivity.
    left. reflexivity.
Defined.

(* ================================================================= *)
(** ** [analyze_document_style] *)

Lemma fold_left_invariant {A B : Type} (P : B -> Prop) (step : B -> A -> B)
    (l : list A) :
  (forall acc x, In x l -> P acc -> P (step acc x)) ->
  forall acc, P acc -> P (fold_left step l acc).
Proof.
  induction l as [|x l IH]; intros Hstep acc Hacc; simpl; [exact Hacc|].
  apply IH.
  - intros a y Hy. apply Hstep. right. exact Hy.
  - apply Hstep; [left; reflexivity | exact Hacc].
Qed.

Lemma collected_sizes_plausible (doc : Document) (font_sizes : list Q) :
  collect_font_sizes doc = Ok font_sizes -> Forall plausible_body_size font_sizes.
Proof.
  unfold collect_font_sizes.
  apply (for_each_invariant (Forall plausible_body_size)); [|constructor].
  intros acc page acc' _ Hacc. unfold page_font_sizes.
  apply (for_each_invariant (Forall plausible_body_size)); [|exact Hacc].
  intros acc1 b acc1' _ Hacc1. unfold block_font_sizes.
  destruct (block_type b =? 0)%Z; [|intros [= <-]; exact Hacc1].
  destruct (looks_like_paragraph b) as [[|]|]; cbn [bind];
    try discriminate; intros [= <-]; [|exact Hacc1].
  apply fold_left_invariant; [|exact Hacc1].
  intros acc2 line _ Hacc2. unfold line_font_sizes.
  apply fold_left_invariant; [|exact Hacc2].
  intros acc3 span _ Hacc3. unfold span_font_size.
  destruct (Qle_bool 7 _) eqn:Hlo; [|exact Hacc3].
  destruct (Qle_bool _ 24) eqn:Hhi; [|exact Hacc3]. simpl.
  apply Forall_app. split; [exact Hacc3|].
  constructor; [|constructor].
  split; apply Qle_bool_iff; assumption.
Qed.

Lemma nth_Forall {A : Type} (P : A -> Prop) (l : list A) (i : nat) (d : A) :
  Forall P l -> (i < List.length l)%nat -> P (nth i l d).
Proof.
  intros Hl Hi. rewrite Forall_forall in Hl. apply Hl. apply nth_In. exact Hi.
Qed.

Lemma median_plausible (l : list Q) (m : Q) :
  Forall plausible_body_size l -> PyNum.median l = Ok m -> plausible_body_size m.
Proof.
  intros Hl. unfold PyNum.median.
  assert (Hs : Forall plausible_body_size (PyNum.sorted Qle_bool l)).
  { eapply Permutation_Forall; [|exact Hl].
    apply Permutation_sym. apply sorted_perm. }
  set (data := PyNum.sorted Qle_bool l) in *.
  destruct (List.length data) as [|n] eqn:En; [discriminate|].
  assert (Hhalf : (S n / 2 < S n)%nat) by (apply Nat.div_lt; lia).
  simpl in Hhalf.
  destruct (Nat.odd (S n)); intros [= <-].
  - apply nth_Forall; [exact Hs | rewrite En; exact Hhalf].
  - match goal with
    | |- plausible_body_size ((nth ?i data 0 + nth ?j data 0) / 2) =>
        assert (Ha : plausible_body_size (nth i data 0))
          by (apply nth_Forall; [exact Hs | rewrite En; lia]);
        assert (Hb : plausible_body_size (nth j data 0))
          by (apply nth_Forall; [exact Hs | rewrite En; exact Hhalf]);
        revert Ha Hb; generalize (nth i data 0), (nth j data 0)
    end.
    intros x y Ha Hb.
    unfold plausible_body_size in *. const_div. lra.
Qed.

(** X6.  The median size that the body-style estimate returns always
    lies between 7 and 24 points, the range of the sizes it samples; the
    fallback 11.0 lies in it too. *)
Theorem median_size_plausible (doc : Document) (body_stats : BodyStats) :
  analyze_document_style doc = Ok body_stats ->
  plausible_body_size (median_size body_stats).
Proof.
  unfold analyze_document_style.
  destruct (collect_font_sizes doc) as [fs|] eqn:Hc; [|discriminate].
  cbn [bind]. apply collected_sizes_plausible in Hc.
  destruct fs as [|a fs].
  - intros [= <-]. split; apply Qle_bool_iff; reflexivity.
  - destruct (PyNum.median (a :: fs)) as [m|] eqn:Hm; [|discriminate].
    cbn [bind]. intros [= <-]. simpl. exact (median_plausible _ _ Hc Hm).
Qed.

Lemma median_size_plausible_witness :
  plausible_body_size (2200 # 200).
Proof.
  apply (median_size_plausible results_doc
           (mkBodyStats (2200 # 200) (Literal 1))).
  vm_compute. reflexivity.
Defined.

(* ================================================================= *)
(** ** The scanner and the heuristic path of [extract_outline] *)

Lemma enumerate_from_upper {A : Type} (l : list A) (start n : Z) (x : A) :
  In (n, x) (enumerate_from start l) -> (n < start + Z.of_nat (List.length l))%Z.
Proof.
  revert start. induction l as [|a l IH]; intros start; simpl; [contradiction|].
  intros [H | H].
  - injection H as <- _. lia.
  - apply IH in H. lia.
Qed.

Lemma accepted_text (line_text : string) (line_size : Q)
    (is_bold is_standalone : bool) (body_stats : BodyStats) :
  fst (is_line_a_heading line_text line_size is_bold is_standalone body_stats)
  = true ->
  line_text <> EmptyString
  /\ PyStr.isdigit_str line_text = false
  /\ (List.length (PyStr.split line_text) <= 25)%nat.
Proof.
  intros H. apply accepted_lines in H. destruct H as [[Hne [Hd [Hw _]]] _].
  split; [exact Hne|]. split; [exact Hd|].
  unfold get_text_characteristics in Hw.
  destruct (PyStr.is_empty line_text) eqn:E; [|exact Hw].
  destruct line_text; [congruence | discriminate E].
Qed.

Lemma scan_line_candidates (n : Z) (is_standalone : bool)
    (body_stats : BodyStats) (page_num : Z)
    (acc acc' : list HeadingCandidate) (line : Line) :
  (0 <= page_num < n)%Z -> Forall (candidate_ok n) acc ->
  scan_line is_standalone body_stats page_num acc line = Ok acc' ->
  Forall (candidate_ok n) acc'.
Proof.
  intros Hp Hacc. unfold scan_line.
  destruct (line_spans line) as [|s spans]; [intros [= <-]; exact Hacc|].
  destruct (PyNum.mean _) as [m|]; [|discriminate]. cbn [bind].
  match goal with
  | |- bind ?c _ = _ -> _ => destruct c as [is_line_bold|]; [|discriminate]
  end.
  cbn [bind].
  destruct (is_line_a_heading _ _ _ _ _) as [[|] confidence] eqn:E;
    intros [= <-]; [|exact Hacc].
  apply Forall_app. split; [exact Hacc|]. constructor; [|constructor].
  assert (Ha : fst (is_line_a_heading
                      (PyStr.strip (PyStr.join_space
                                      (map span_text (s :: spans))))
                      (PyNum.round1 m) is_line_bold is_standalone body_stats)
               = true) by (rewrite E; reflexivity).
  apply accepted_text in Ha. unfold candidate_ok. simpl.
  split; [lia | exact Ha].
Qed.

Lemma scan_document_candidates (doc : Document) (body_stats : BodyStats)
    (hs : list HeadingCandidate) :
  scan_document doc body_stats = Ok hs ->
  Forall (candidate_ok (page_count doc)) hs.
Proof.
  unfold scan_document.
  apply (for_each_invariant (Forall (candidate_ok (page_count doc))));
    [|constructor].
  intros acc [page_num page] acc' Hin Hacc. unfold scan_page.
  pose proof (enumerate_from_lower _ _ _ _ Hin) as Hlo.
  pose proof (enumerate_from_upper _ _ _ _ Hin) as Hhi.
  apply (for_each_invariant (Forall (candidate_ok (page_count doc))));
    [|exact Hacc].
  intros acc1 block acc1' _ Hacc1. unfold scan_block.
  destruct (block_type block =? 0)%Z; [|intros [= <-]; exact Hacc1].
  apply (for_each_invariant (Forall (candidate_ok (page_count doc))));
    [|exact Hacc1].
  intros acc2 line acc2' _ Hacc2. apply scan_line_candidates; [|exact Hacc2].
  unfold page_count. lia.
Qed.

(** X7.  The scanner never raises (its mean and its division are
    guarded), and every candidate it records lies on a page of the
    document (its page number is between 1 and the number of pages) and
    has a text that is not empty, not made of digits only and of at most
    25 words. *)
Theorem scanner_candidates (doc : Document) (body_stats : BodyStats) :
  exists hs,
    scan_document doc body_stats = Ok hs
    /\ Forall (fun h => (1 <= h_page h <= page_count doc)%Z
                        /\ h_text h <> EmptyString
                        /\ PyStr.isdigit_str (h_text h) = false
                        /\ (List.length (PyStr.split (h_text h)) <= 25)%nat) hs.
Proof.
  destruct (scan_document_total doc body_stats) as [hs Hs].
  exists hs. split; [exact Hs|].
  exact (scan_document_candidates doc body_stats hs Hs).
Qed.

Lemma assign_levels_origin (hs : list HeadingCandidate) (e : LeveledEntry) :
  In e (assign_levels hs) ->
  exists h, In h hs /\ l_text e = h_text h /\ l_page e = h_page h
            /\ level_ok (l_level e).
Proof.
  rewrite assign_levels_by_rank. intros He. apply in_flat_map in He.
  destruct He as [h [Hh He]]. exists h. split; [exact Hh|].
  unfold leveled in He.
  destruct (level_of_rank _) as [lvl|] eqn:E; [|contradiction].
  destruct He as [<- | []]. simpl. repeat split.
  apply level_of_rank_values in E. unfold level_ok.
  destruct E as [[_ ->] | [[_ ->] | [_ ->]]]; simpl; auto.
Qed.

(** X8.  When [extract_outline] returns an outline for a document
    without usable TOC, every entry of it has a level H1, H2 or H3, a page
    number between 1 and the number of pages, and a text that is not
    empty. *)
Theorem heuristic_path_entries (pdf_path : string) (doc : Document)
    (title : string) (outline : list OutlineEntry) :
  toc_mirror (get_toc doc) = [] ->
  extract_outline pdf_path (Opened doc) = Ok (Outline title outline) ->
  Forall (fun e => level_ok (level e)
                   /\ (1 <= page e <= page_count doc)%Z
                   /\ text e <> EmptyString) outline.
Proof.
  intros Htoc. unfold extract_outline, extract_outline_with.
  destruct (pages doc) as [|page0 rest] eqn:Hpages.
  { intros [= _ <-]. constructor. }
  rewrite toc_outline_mirror, Htoc. unfold heuristic_outline.
  destruct (analyze_document_style doc) as [body_stats|]; [|discriminate].
  cbn [bind].
  destruct (scan_document doc body_stats) as [hs|] eqn:Hscan; [|discriminate].
  cbn [bind].
  pose proof (scan_document_candidates _ _ _ Hscan) as Hc.
  pose proof (scan_document_pages _ _ _ Hscan) as Hone.
  destruct hs as [|h hs]; intros [= _ <-]; [constructor|].
  apply Forall_forall. intros e He.
  apply assemble_entries in He.
  - destruct He as [x [Hx ->]]. apply assign_levels_origin in Hx.
    destruct Hx as [h' [Hh' [Ht [Hpg Hl]]]].
    rewrite Forall_forall in Hc. destruct (Hc h' Hh') as [Hpage [Hne _]].
    unfold strip_y_pos. simpl. rewrite Ht, Hpg. repeat split; try assumption; lia.
  - eapply Forall_impl; [|exact (assign_levels_entries _ Hone)].
    intros x [_ Hx]. exact Hx.
Qed.

Lemma heuristic_path_entries_witness :
  Forall (fun e => level_ok (level e)
                   /\ (1 <= page e <= page_count results_doc)%Z
                   /\ text e <> EmptyString)
         [mkEntry "H1" "Results" 1].
Proof.
  apply (heuristic_path_entries "input/figures.pdf" results_doc
                                "Quarterly Figures").
  - reflexivity.
  - vm_compute. reflexivity.
Defined.

(* ================================================================= *)
(** ** The leveler *)

Lemma position_in_unique (hs : list HeadingCandidate) (h : HeadingCandidate) :
  In h hs ->
  exists i, nth_error (unique_signatures hs) i = Some (get_visual_signature h)
            /\ assigned_level hs h = level_of_rank i
            /\ rank hs (get_visual_signature h) = i.
Proof.
  intros Hh.
  assert (Hin : In (get_visual_signature h) (unique_signatures hs)).
  { apply unique_signatures_In. apply in_map. exact Hh. }
  apply In_nth_error in Hin. destruct Hin as [i Hi]. exists i.
  split; [exact Hi|]. split; [|apply rank_is_position; exact Hi].
  apply level_map_lookup;
    [apply unique_signatures_NoDup | apply unique_signatures_bucketed | exact Hi].
Qed.

Lemma sorted_positions {A : Type} (R : A -> A -> Prop) (l : list A) :
  StronglySorted R l ->
  forall i j a b, (i < j)%nat -> nth_error l i = Some a ->
                  nth_error l j = Some b -> R a b.
Proof.
  induction 1 as [|x l Hs IH Hx]; intros i j a b Hij Hi Hj.
  - destruct i; discriminate Hi.
  - destruct j as [|j]; [lia|]. simpl in Hj. destruct i as [|i].
    + injection Hi as <-. rewrite Forall_forall in Hx. apply Hx.
      eapply nth_error_In. exact Hj.
    + simpl in Hi. apply (IH i j); [lia | exact Hi | exact Hj].
Qed.

(** X9.  Levels follow prominence: when a candidate has a level, every
    candidate of a more prominent signature (bold before non-bold, then
    the larger bucket) has a level too, and a strictly higher one
    ("H1" before "H2" before "H3"). *)
Theorem levels_follow_prominence (hs : list HeadingCandidate)
    (h1 h2 : HeadingCandidate) (lvl2 : string) :
  In h1 hs -> In h2 hs ->
  more_prominent (get_visual_signature h1) (get_visual_signature h2) ->
  assigned_level hs h2 = Some lvl2 ->
  exists lvl1, assigned_level hs h1 = Some lvl1 /\ String.ltb lvl1 lvl2 = true.
Proof.
  intros Hh1 Hh2 Hmp Hl2.
  destruct (position_in_unique hs h1 Hh1) as [i1 [Hi1 [Ha1 _]]].
  destruct (position_in_unique hs h2 Hh2) as [i2 [Hi2 [Ha2 _]]].
  assert (Hlt : (i1 < i2)%nat).
  { destruct (Nat.lt_trichotomy i1 i2) as [H | [H | H]]; [exact H | |].
    - subst i2.
      assert (Heq : get_visual_signature h1 = get_visual_signature h2)
        by congruence.
      rewrite Heq in Hmp. exfalso. exact (more_prominent_irrefl _ Hmp).
    - exfalso.
      pose proof (sorted_positions _ _ (unique_signatures_sorted hs)
                                   i2 i1 _ _ H Hi2 Hi1) as Hrev.
      exact (more_prominent_asym _ _ Hmp Hrev). }
  rewrite Ha1. rewrite Ha2 in Hl2.
  destruct i2 as [|[|[|i2]]]; simpl in Hl2; try discriminate Hl2;
    injection Hl2 as <-.
  - lia.
  - destruct i1 as [|i1]; [|lia]. exists "H1". split; reflexivity.
  - destruct i1 as [|[|i1]]; [exists "H1" | exists "H2" | lia];
      split; reflexivity.
Qed.

Lemma levels_follow_prominence_witness :
  exists lvl1,
    assigned_level four_styles (mkCandidate "Methods" 12 2 80 true) = Some lvl1
    /\ String.ltb lvl1 "H3" = true.
Proof.
  apply (levels_follow_prominence four_styles
           (mkCandidate "Methods" 12 2 80 true)
           (mkCandidate "Scope" (141 # 10) 1 120 false) "H3").
  - right. left. reflexivity.
  - left. reflexivity.
  - left. split; reflexivity.
  - vm_compute. reflexivity.
Defined.

(** X10.  The levels of the leveled outline have no gap: with [n]
    distinct signatures among the candidates, each of the first
    [min n 3] levels H1, H2, H3 is the level of some entry.  A
    non-empty set of candidates thus always yields an H1. *)
Theorem levels_without_gap (hs : list HeadingCandidate) (r : nat) (lvl : string) :
  (r < List.length (distinct_signatures hs))%nat ->
  level_of_rank r = Some lvl ->
  exists e, In e (assign_levels hs) /\ l_level e = lvl.
Proof.
  intros Hr Hlvl.
  rewrite <- (Permutation_length (unique_signatures_perm hs)) in Hr.
  apply nth_error_Some in Hr.
  destruct (nth_error (unique_signatures hs) r) as [s|] eqn:Hs; [|congruence].
  assert (Hin : In s (map get_visual_signature hs)).
  { apply unique_signatures_In. eapply nth_error_In. exact Hs. }
  apply in_map_iff in Hin. destruct Hin as [h [Hsig Hh]].
  exists (mkLeveled lvl (h_text h) (h_page h) (h_y_pos h)).
  split; [|reflexivity].
  rewrite assign_levels_by_rank. apply in_flat_map. exists h.
  split; [exact Hh|]. unfold leveled.
  rewrite Hsig, (rank_is_position hs r s Hs), Hlvl. left. reflexivity.
Qed.

Lemma levels_without_gap_witness :
  exists e, In e (assign_levels two_styles) /\ l_level e = "H2".
Proof.
  apply (levels_without_gap two_styles 1).
  - vm_compute. lia.
  - reflexivity.
Defined.

Lemma flat_map_singletons {A B C : Type} (f : A -> list B) (g : B -> C)
    (k : A -> C) (l : list A) :
  (forall x, In x l -> exists y, f x = [y] /\ g y = k x) ->
  map g (flat_map f l) = map k l.
Proof.
  induction l as [|a l IH]; intros H; simpl; [reflexivity|].
  destruct (H a (or_introl eq_refl)) as [y [-> Hy]]. simpl.
  rewrite Hy. f_equal. apply IH. intros x Hx. apply H. right. exact Hx.
Qed.

(** X11.  With at most three distinct signatures no candidate is left
    out: the leveled outline has, in the same order, the text, the page
    and the vertical position of every candidate. *)
Theorem three_styles_keep_all (hs : list HeadingCandidate) :
  (List.length (distinct_signatures hs) <= 3)%nat ->
  map entry_place (assign_levels hs) = map candidate_place hs.
Proof.
  intros Hthree. rewrite assign_levels_by_rank.
  apply flat_map_singletons. intros h Hh.
  pose proof (rank_below_count hs h Hh) as Hr. unfold leveled.
  destruct (rank hs (get_visual_signature h)) as [|[|[|r]]];
    try lia; eexists; split; reflexivity.
Qed.

Lemma three_styles_keep_all_witness :
  map entry_place (assign_levels two_styles) = map candidate_place two_styles.
Proof.
  apply three_styles_keep_all. vm_compute. lia.
Defined.

(** X12.  The levels do not depend on the order in which Python
    enumerates the set of signatures: sorting any arrangement of the
    distinct signatures gives the same list, hence the same dict of
    levels. *)
Theorem levels_independent_of_set_order (hs : list HeadingCandidate)
    (l : list Signature) :
  Permutation l (distinct_signatures hs) ->
  PyNum.sorted sig_leb l = unique_signatures hs
  /\ level_map (PyNum.sorted sig_leb l) = level_map (unique_signatures hs).
Proof.
  intros Hp. pose proof (unique_signatures_any_order hs l Hp) as H.
  split; [exact H | rewrite H; reflexivity].
Qed.

Lemma levels_independent_of_set_order_witness :
  PyNum.sorted sig_leb shuffled_signatures = unique_signatures two_styles
  /\ level_map (PyNum.sorted sig_leb shuffled_signatures)
     = level_map (unique_signatures two_styles).
Proof.
  apply levels_independent_of_set_order.
  apply perm_swap.
Defined.

(* ================================================================= *)
(** ** The assembler *)

Lemma clean_fold_from (l : list LeveledEntry) :
  forall (acc : list OutlineEntry) (last_text : string) (last_page : Z),
    fst (fst (fold_left clean_step l (acc, last_text, last_page)))
    = acc ++ cleaned_from last_text last_page l.
Proof.
  induction l as [|e l IH]; intros acc last_text last_page; simpl.
  - rewrite app_nil_r. reflexivity.
  - rewrite IH.
    destruct (String.eqb (l_text e) last_text && (l_page e =? last_page)%Z);
      simpl; [reflexivity|].
    rewrite <- app_assoc. reflexivity.
Qed.

Lemma clean_outline_from (l : list LeveledEntry) :
  clean_outline l = cleaned_from EmptyString (-1)%Z l.
Proof.
  unfold clean_outline. destruct l as [|e l]; [reflexivity|].
  rewrite clean_fold_from. reflexivity.
Qed.

Lemma cleaned_from_In (l : list LeveledEntry) :
  forall last_text last_page o,
    In o (cleaned_from last_text last_page l) ->
    exists e, In e l /\ o = strip_y_pos e.
Proof.
  induction l as [|e l IH]; intros last_text last_page o Ho; simpl in Ho.
  - contradiction.
  - apply in_app_or in Ho. destruct Ho as [Ho | Ho].
    + destruct (_ && _); [contradiction|]. destruct Ho as [<- | []].
      exists e. split; [left; reflexivity | reflexivity].
    + apply IH in Ho. destruct Ho as [x [Hx ->]].
      exists x. split; [right; exact Hx | reflexivity].
Qed.

(** The first kept entry differs from the last entry seen, and no kept
    entry repeats the kept entry before it. *)
Lemma cleaned_from_no_repeats (l : list LeveledEntry) :
  forall last_text last_page,
    no_adjacent_repeats (cleaned_from last_text last_page l)
    /\ match cleaned_from last_text last_page l with
       | o :: _ => ~ (text o = last_text /\ page o = last_page)
       | [] => True
       end.
Proof.
  induction l as [|e l IH]; intros last_text last_page; simpl.
  - split; exact I.
  - destruct (IH (l_text e) (l_page e)) as [Hn Hh].
    destruct (String.eqb (l_text e) last_text && (l_page e =? last_page)%Z)
      eqn:E; simpl.
    + apply andb_true_iff in E. destruct E as [Et Ep].
      apply String.eqb_eq in Et. apply Z.eqb_eq in Ep. subst last_text last_page.
      split; assumption.
    + split.
      * split; [|exact Hn].
        destruct (cleaned_from (l_text e) (l_page e) l) as [|o rest];
          [exact I|].
        unfold same_text_and_page. simpl. intros [Ht Hp]. apply Hh.
        split; congruence.
      * simpl. intros [Ht Hp]. apply andb_false_iff in E.
        destruct E as [E | E].
        -- apply String.eqb_neq in E. contradiction.
        -- apply Z.eqb_neq in E. contradiction.
Qed.

Lemma no_adjacent_repeats_tail (o : OutlineEntry) (l : list OutlineEntry) :
  no_adjacent_repeats (o :: l) -> no_adjacent_repeats l.
Proof. simpl. intros [_ H]. exact H. Qed.

(** X13.  In the final outline of the heuristic path no entry has both
    the text and the page of the entry just before it, whatever the
    leveled candidates are. *)
Theorem assemble_no_adjacent_repeats (title : string)
    (outline : list LeveledEntry) :
  no_adjacent_repeats (assemble title outline).
Proof.
  unfold assemble. rewrite clean_outline_from.
  destruct (cleaned_from_no_repeats (sort_outline outline) EmptyString (-1)%Z)
    as [Hn _].
  unfold suppress_title.
  destruct (cleaned_from EmptyString (-1)%Z (sort_outline outline))
    as [|first rest]; [exact I|].
  destruct (PyStr.contains _ _); [|exact Hn].
  exact (no_adjacent_repeats_tail _ _ Hn).
Qed.

Lemma sort_outline_sorted (outline : list LeveledEntry) :
  StronglySorted reading_order (sort_outline outline).
Proof.
  pose proof (sorted_sorted reading_leb reading_leb_total reading_leb_trans
                            outline) as Hs.
  fold (sort_outline outline) in Hs.
  induction Hs as [|a l Hl IH Ha]; constructor.
  - exact IH.
  - eapply Forall_impl; [|exact Ha]. intros b Hb.
    apply pair_leb_iff in Hb. exact Hb.
Qed.

Lemma cleaned_from_pages (l : list LeveledEntry) :
  StronglySorted reading_order l ->
  forall last_text last_page,
    StronglySorted (fun a b => (page a <= page b)%Z)
                   (cleaned_from last_text last_page l).
Proof.
  induction 1 as [|e l Hs IH He]; intros last_text last_page; simpl.
  - constructor.
  - destruct (_ && _); simpl; [apply IH|].
    constructor; [apply IH|].
    apply Forall_forall. intros o Ho. apply cleaned_from_In in Ho.
    destruct Ho as [x [Hx ->]]. rewrite Forall_forall in He.
    destruct (He x Hx) as [Hlt | [Heq _]]; simpl; lia.
Qed.

(** X14.  The page numbers of the final outline never decrease from one
    entry to the next. *)
Theorem assemble_pages_ascending (title : string) (outline : list LeveledEntry) :
  StronglySorted (fun a b => (page a <= page b)%Z) (assemble title outline).
Proof.
  unfold assemble. rewrite clean_outline_from.
  pose proof (cleaned_from_pages _ (sort_outline_sorted outline)
                                 EmptyString (-1)%Z) as Hs.
  unfold suppress_title.
  destruct (cleaned_from EmptyString (-1)%Z (sort_outline outline))
    as [|first rest]; [constructor|].
  destruct (PyStr.contains _ _); [|exact Hs].
  apply StronglySorted_inv in Hs. exact (proj1 Hs).
Qed.

(* ================================================================= *)
(** ** Trimming, and the title resolver *)

Lemma lstrip_starts_clean (l : list ascii) : starts_clean (PyStr.lstrip_chars l).
Proof.
  induction l as [|c l IH]; simpl; [exact I|].
  destruct (PyStr.isspace c) eqn:E; [exact IH | exact E].
Qed.

Lemma lstrip_fixed (l : list ascii) : starts_clean l -> PyStr.lstrip_chars l = l.
Proof. destruct l as [|c l]; simpl; [reflexivity | intros ->; reflexivity]. Qed.

Lemma lstrip_snoc (l : list ascii) (c : ascii) :
  PyStr.isspace c = false ->
  PyStr.lstrip_chars (l ++ [c]) = PyStr.lstrip_chars l ++ [c].
Proof.
  intros Hc. induction l as [|a l IH]; simpl.
  - rewrite Hc. reflexivity.
  - destruct (PyStr.isspace a); [exact IH | reflexivity].
Qed.

Lemma rstrip_starts_clean (l : list ascii) :
  starts_clean l -> starts_clean (PyStr.rstrip_chars l).
Proof.
  destruct l as [|c l]; [intros _; exact I|]. simpl. intros Hc.
  unfold PyStr.rstrip_chars. simpl rev. rewrite (lstrip_snoc _ _ Hc).
  rewrite rev_app_distr. simpl. exact Hc.
Qed.

Lemma rstrip_idempotent (l : list ascii) :
  PyStr.rstrip_chars (PyStr.rstrip_chars l) = PyStr.rstrip_chars l.
Proof.
  unfold PyStr.rstrip_chars. rewrite rev_involutive.
  rewrite (lstrip_fixed _ (lstrip_starts_clean (rev l))). reflexivity.
Qed.

Lemma chars_str (l : list ascii) : PyStr.chars (PyStr.str l) = l.
Proof. apply list_ascii_of_string_of_list_ascii. Qed.

Lemma str_chars (s : string) : PyStr.str (PyStr.chars s) = s.
Proof. apply string_of_list_ascii_of_string. Qed.

(** [s.strip().strip() == s.strip()] *)
Lemma strip_trimmed (s : string) : trimmed (PyStr.strip s).
Proof.
  unfold trimmed, PyStr.strip. rewrite chars_str. f_equal.
  rewrite (lstrip_fixed _ (rstrip_starts_clean _ (lstrip_starts_clean _))).
  apply rstrip_idempotent.
Qed.

Lemma title_candidates_trimmed (page : Page) :
  Forall (fun c => trimmed (snd c)) (title_candidates page).
Proof.
  apply Forall_forall. intros [score txt] Hin.
  apply title_candidate_iff in Hin.
  destruct Hin as [block [line [span [spans [_ [_ [_ [_ [_ [-> _]]]]]]]]]].
  apply strip_trimmed.
Qed.

(** X15.  A metadata title of at least 5 characters once trimmed is the
    title, trimmed, whatever the first page shows; and the title has no
    leading or trailing whitespace unless it is the fallback to the base
    name of the file (no long enough metadata title and no candidate on
    the first page). *)
Theorem resolved_title_trimmed (pdf_path : string) (doc : Document)
    (page0 : Page) :
  let meta := PyStr.strip (match metadata_title doc with
                           | Some t => t
                           | None => EmptyString
                           end) in
  ((5 <= PyStr.len meta)%nat -> resolve_title pdf_path doc page0 = meta)
  /\ ((5 <= PyStr.len meta)%nat \/ title_candidates page0 <> [] ->
      trimmed (resolve_title pdf_path doc page0)).
Proof.
  intros meta.
  assert (Hlong : (5 <= PyStr.len meta)%nat ->
                  resolve_title pdf_path doc page0 = meta).
  { intros H. unfold resolve_title. fold meta.
    assert (He : PyStr.is_empty meta = false).
    { destruct meta; [cbv in H; lia | reflexivity]. }
    apply Nat.ltb_ge in H. rewrite He, H. reflexivity. }
  split; [exact Hlong|].
  intros [H | H].
  - rewrite (Hlong H). apply strip_trimmed.
  - unfold resolve_title. fold meta.
    destruct (PyStr.is_empty meta || (PyStr.len meta <? 5)%nat);
      [|apply strip_trimmed].
    pose proof (title_candidates_trimmed page0) as Ht.
    destruct (title_candidates page0) as [|c rest]; [congruence|].
    destruct (max_by_score_spec c rest) as [Hin _].
    rewrite Forall_forall in Ht. apply (Ht _ Hin).
Qed.

Lemma resolved_title_trimmed_witness :
  resolve_title "input/figures.pdf"
                (mkDocument (Some "  Quarterly Figures ") [] [cover_page])
                cover_page
  = "Quarterly Figures"
  /\ trimmed (resolve_title "input/cover.pdf" cover_doc cover_page).
Proof.
  split.
  - apply (proj1 (resolved_title_trimmed "input/figures.pdf"
                    (mkDocument (Some "  Quarterly Figures ") [] [cover_page])
                    cover_page)).
    vm_compute. lia.
  - apply (proj2 (resolved_title_trimmed "input/cover.pdf" cover_doc cover_page)).
    right. vm_compute. discriminate.
Defined.

(* ================================================================= *)
(** ** The batch loop *)

Lemma process_file_output (open_pdf : string -> OpenResult)
    (write_ok : string -> ExtractionResult -> bool)
    (st : BatchState) (filename : string) :
  process_file open_pdf write_ok st filename
  = (fst st ++ file_output open_pdf write_ok filename,
     (snd st + List.length (file_output open_pdf write_ok filename))%nat).
Proof.
  unfold process_file, file_output. destruct st as [written n]. simpl.
  destruct (is_pdf_name filename); [|rewrite app_nil_r, Nat.add_0_r; reflexivity].
  destruct (extract_outline _ _) as [data|];
    [|rewrite app_nil_r, Nat.add_0_r; reflexivity].
  destruct (write_ok _ _); simpl.
  - rewrite Nat.add_1_r. reflexivity.
  - rewrite app_nil_r, Nat.add_0_r. reflexivity.
Qed.

Lemma batch_fold (open_pdf : string -> OpenResult)
    (write_ok : string -> ExtractionResult -> bool) (l : list string) :
  forall st,
    fold_left (process_file open_pdf write_ok) l st
    = (fst st ++ flat_map (file_output open_pdf write_ok) l,
       (snd st + List.length (flat_map (file_output open_pdf write_ok) l))%nat).
Proof.
  induction l as [|f l IH]; intros st; simpl.
  - rewrite app_nil_r, Nat.add_0_r. destruct st; reflexivity.
  - rewrite IH, process_file_output. simpl.
    rewrite <- app_assoc, length_app, Nat.add_assoc. reflexivity.
Qed.

(** X16.  The batch loop counts exactly the files it writes, and it
    writes a file for a directory entry exactly when the entry's name ends
    in ".pdf" (in any case), [extract_outline] returns on it and the
    writing succeeds: an entry on which [extract_outline] raises is
    skipped and takes no output away from the others. *)
Theorem batch_outputs (open_pdf : string -> OpenResult)
    (write_ok : string -> ExtractionResult -> bool) (listdir : list string) :
  let written := fst (run_batch open_pdf write_ok listdir) in
  let processed_count := snd (run_batch open_pdf write_ok listdir) in
  processed_count = List.length written
  /\ forall path data,
       In (path, data) written
       <-> exists filename,
             In filename listdir
             /\ is_pdf_name filename = true
             /\ extract_outline (PyPath.join INPUT_DIR filename)
                                (open_pdf (PyPath.join INPUT_DIR filename))
                = Ok data
             /\ write_ok (output_path filename) data = true
             /\ path = output_path filename.
Proof.
  unfold run_batch. rewrite batch_fold. simpl. split; [reflexivity|].
  intros path data. rewrite in_flat_map. split.
  - intros [filename [Hin Hout]]. exists filename.
    split; [eapply Permutation_in; [apply sorted_perm | exact Hin]|].
    unfold file_output in Hout.
    destruct (is_pdf_name filename); [|contradiction].
    destruct (extract_outline _ _) as [d|]; [|contradiction].
    destruct (write_ok _ d) eqn:Hw; [|contradiction].
    destruct Hout as [Hout | []]. injection Hout as <- <-.
    repeat split; assumption.
  - intros [filename [Hin [Hpdf [Hex [Hw ->]]]]]. exists filename.
    split; [eapply Permutation_in;
            [apply Permutation_sym; apply sorted_perm | exact Hin]|].
    unfold file_output. rewrite Hpdf, Hex, Hw. left. reflexivity.
Qed.

Example sample_batch :
  run_batch sample_open (fun _ _ => true) sample_listing
  = ([("output/a.json", Outline "Quarterly Figures" [mkEntry "H1" "Results" 1]);
      ("output/c.json", Outline "Quarterly Figures" [mkEntry "H1" "Results" 1])],
     2%nat).
Proof. vm_compute. reflexivity. Qed.

(* ================================================================= *)
(** ** File names *)

Lemma chars_app (s t : string) :
  PyStr.chars (s ++ t)%string = PyStr.chars s ++ PyStr.chars t.
Proof.
  induction s as [|c s IH]; simpl; [reflexivity|]. f_equal. exact IH.
Qed.

Lemma rfind_from_none (p : ascii -> bool) (l : list ascii) :
  existsb p l = false -> forall i, PyPath.rfind_from p i l = None.
Proof.
  induction l as [|c l IH]; intros H i; simpl in *; [reflexivity|].
  apply orb_false_iff in H. destruct H as [Hc Hl].
  rewrite (IH Hl), Hc. reflexivity.
Qed.

Lemma rfind_from_app (p : ascii -> bool) (a b : list ascii) :
  forall i,
    PyPath.rfind_from p i (a ++ b)
    = match PyPath.rfind_from p (i + List.length a) b with
      | Some j => Some j
      | None => PyPath.rfind_from p i a
      end.
Proof.
  induction a as [|c a IH]; intros i; simpl.
  - rewrite Nat.add_0_r. destruct (PyPath.rfind_from p i b); reflexivity.
  - rewrite IH, <- Nat.add_succ_comm.
    destruct (PyPath.rfind_from p (S i + List.length a) b); reflexivity.
Qed.

Lemma lower_char_dot_slash (c : ascii) :
  PyPath.is_dot (PyStr.lower_char c) = PyPath.is_dot c
  /\ PyPath.is_slash (PyStr.lower_char c) = PyPath.is_slash c.
Proof.
  destruct c as [[|] [|] [|] [|] [|] [|] [|] [|]]; vm_compute; split; reflexivity.
Qed.

(** An extension that reads ".pdf" in lower case is a dot followed by
    three characters that are neither dots nor slashes. *)
Lemma pdf_extension (ext : string) :
  PyStr.lower ext = ".pdf" ->
  exists c0 c1 c2 c3,
    PyStr.chars ext = [c0; c1; c2; c3]
    /\ PyPath.is_dot c0 = true /\ PyPath.is_slash c0 = false
    /\ existsb PyPath.is_dot [c1; c2; c3] = false
    /\ existsb PyPath.is_slash [c1; c2; c3] = false.
Proof.
  intros H. apply (f_equal PyStr.chars) in H. unfold PyStr.lower in H.
  rewrite chars_str in H.
  destruct (PyStr.chars ext) as [|c0 [|c1 [|c2 [|c3 [|c4 l]]]]];
    try discriminate H.
  injection H as H0 H1 H2 H3.
  exists c0, c1, c2, c3. split; [reflexivity|].
  destruct (lower_char_dot_slash c0) as [D0 S0].
  destruct (lower_char_dot_slash c1) as [D1 S1].
  destruct (lower_char_dot_slash c2) as [D2 S2].
  destruct (lower_char_dot_slash c3) as [D3 S3].
  rewrite H0 in D0, S0. rewrite H1 in D1, S1.
  rewrite H2 in D2, S2. rewrite H3 in D3, S3.
  simpl. rewrite <- D0, <- S0, <- D1, <- S1, <- D2, <- S2, <- D3, <- S3.
  repeat split.
Qed.

Lemma basename_from_no_slash (l : list ascii) :
  existsb PyPath.is_slash l = false ->
  forall cur, PyStr.basename_from cur l = rev cur ++ l.
Proof.
  induction l as [|c l IH]; intros H cur; simpl in *.
  - rewrite app_nil_r. reflexivity.
  - apply orb_false_iff in H. destruct H as [Hc Hl].
    unfold PyPath.is_slash in Hc. rewrite Hc, (IH Hl). simpl.
    rewrite <- app_assoc. reflexivity.
Qed.

Lemma basename_from_after_slash (a b : list ascii) (c : ascii) :
  PyPath.is_slash c = true ->
  forall cur, PyStr.basename_from cur (a ++ c :: b) = PyStr.basename_from [] b.
Proof.
  intros Hc. induction a as [|x a IH]; intros cur; simpl.
  - unfold PyPath.is_slash in Hc. rewrite Hc. reflexivity.
  - destruct (PyStr.code x =? 47)%N; apply IH.
Qed.

Lemma join_relative (dir name : string) (c : ascii) (rest : string) :
  name = String c rest -> PyPath.is_slash c = false ->
  PyStr.is_empty dir = false -> PyPath.endswith "/" dir = false ->
  PyPath.join dir name = (dir ++ "/" ++ name)%string.
Proof.
  intros -> Hc Hd He. unfold PyPath.join.
  unfold PyPath.is_slash in Hc. rewrite Hc, Hd, He. reflexivity.
Qed.

(** X17.  For a directory entry made of a stem without slash that has a
    character other than a dot, followed by an extension that reads
    ".pdf" in lower case: the entry is taken as a PDF, its output is
    "output/<stem>.json", and the base name of its input path, the
    fallback title, is the entry itself. *)
Theorem pdf_file_names (stem ext : string) :
  PyStr.lower ext = ".pdf" ->
  existsb (fun c => negb (PyPath.is_dot c)) (PyStr.chars stem) = true ->
  existsb PyPath.is_slash (PyStr.chars stem) = false ->
  let filename := (stem ++ ext)%string in
  is_pdf_name filename = true
  /\ output_path filename = ("output/" ++ stem ++ ".json")%string
  /\ PyStr.basename (PyPath.join INPUT_DIR filename) = filename.
Proof.
  intros Hext Hstem Hslash filename.
  destruct (pdf_extension ext Hext) as [c0 [c1 [c2 [c3 [He [D0 [S0 [D S]]]]]]]].
  assert (Hs : exists c rest, stem = String c rest /\ PyPath.is_slash c = false).
  { destruct stem as [|c rest]; [discriminate Hstem|].
    exists c, rest. split; [reflexivity|]. simpl in Hslash.
    apply orb_false_iff in Hslash. exact (proj1 Hslash). }
  destruct Hs as [c [rest [Hs Hc]]].
  assert (Hname_slash : existsb PyPath.is_slash (PyStr.chars filename) = false).
  { unfold filename. rewrite chars_app, existsb_app, Hslash, He. simpl.
    simpl in S. rewrite S0, S. reflexivity. }
  split; [|split].
  - unfold is_pdf_name, PyPath.endswith, PyStr.lower. rewrite chars_str.
    apply prefixb_spec. unfold filename.
    rewrite chars_app, map_app, rev_app_distr.
    assert (Hl : map PyStr.lower_char (PyStr.chars ext) = PyStr.chars ".pdf").
    { unfold PyStr.lower in Hext. rewrite <- Hext, chars_str. reflexivity. }
    rewrite Hl. eexists. reflexivity.
  - unfold output_path.
    assert (Hsplit : PyPath.splitext filename = (stem, ext)).
    { unfold PyPath.splitext.
      rewrite (rfind_from_none _ _ Hname_slash).
      unfold filename. rewrite chars_app, He.
      rewrite rfind_from_app. simpl PyPath.rfind_from. simpl in D.
      apply orb_false_iff in D. destruct D as [D1 D].
      apply orb_false_iff in D. destruct D as [D2 D].
      apply orb_false_iff in D. destruct D as [D3 _].
      rewrite D3, D2, D1, D0. simpl Nat.leb.
      rewrite Nat.sub_0_r. simpl skipn.
      rewrite firstn_app, firstn_all, Nat.sub_diag. simpl firstn at 2.
      rewrite app_nil_r, Hstem. simpl andb. cbv iota.
      rewrite skipn_app, skipn_all, Nat.sub_diag. simpl.
      rewrite app_nil_r, str_chars. f_equal.
      rewrite <- (str_chars ext), He. reflexivity. }
    rewrite Hsplit. simpl fst.
    rewrite (join_relative OUTPUT_DIR (stem ++ ".json") c (rest ++ ".json"));
      [reflexivity | rewrite Hs; reflexivity | exact Hc | reflexivity
       | reflexivity].
  - rewrite (join_relative INPUT_DIR filename c (rest ++ ext));
      [| unfold filename; rewrite Hs; reflexivity | exact Hc | reflexivity
       | reflexivity].
    unfold PyStr.basename. rewrite !chars_app.
    change (PyStr.chars "/" ++ PyStr.chars filename)
      with ("/"%char :: PyStr.chars filename).
    rewrite (basename_from_after_slash _ _ "/"%char eq_refl).
    rewrite (basename_from_no_slash _ Hname_slash). simpl.
    apply str_chars.
Qed.

Lemma pdf_file_names_witness :
  is_pdf_name "annual.report.PDF" = true
  /\ output_path "annual.report.PDF" = "output/annual.report.json"
  /\ PyStr.basename (PyPath.join INPUT_DIR "annual.report.PDF")
     = "annual.report.PDF".
Proof.
  apply (pdf_file_names "annual.report" ".PDF"); reflexivity.
Defined.

(* ================================================================= *)
(** ** The extractor of [src/main.py] *)

Section SimpleFacts.
Variable get_text : Page -> list Block.

Lemma simple_level_set_values (d : Simple.SizeLevels) (k : Z) (v : string) :
  Forall (fun kv => level_ok (snd kv)) d -> level_ok v ->
  Forall (fun kv => level_ok (snd kv)) (Simple.level_set d k v).
Proof.
  intros Hd Hv. induction Hd as [|[k' v'] d Hkv Hd IH]; simpl.
  - constructor; [exact Hv | constructor].
  - destruct (k' =? k)%Z; constructor; assumption.
Qed.

Lemma simple_level_get_value (d : Simple.SizeLevels) (k : Z) (v : string) :
  Forall (fun kv => level_ok (snd kv)) d -> Simple.level_get d k = Some v ->
  level_ok v.
Proof.
  intros Hd. induction Hd as [|[k' v'] d Hkv Hd IH]; simpl; [discriminate|].
  destruct (k' =? k)%Z; [intros [= <-]; exact Hkv | exact IH].
Qed.

Lemma simple_level_map_values (sizes : list Z) :
  Forall (fun kv => level_ok (snd kv)) (Simple.level_map sizes).
Proof.
  unfold Simple.level_map.
  assert (H1 : level_ok "H1") by (left; reflexivity).
  assert (H2 : level_ok "H2") by (right; left; reflexivity).
  assert (H3 : level_ok "H3") by (right; right; left; reflexivity).
  destruct (nth_error sizes 0) as [s0|];
    destruct (nth_error sizes 1) as [s1|];
    destruct (nth_error sizes 2) as [s2|];
    repeat apply simple_level_set_values; try assumption; constructor.
Qed.

Lemma already_listed_false (outline : list OutlineEntry) (txt lvl : string) :
  Simple.already_listed outline txt lvl = false ->
  ~ In (txt, lvl) (map text_and_level outline).
Proof.
  intros H Hin. apply in_map_iff in Hin. destruct Hin as [o [Ho Hin]].
  unfold text_and_level in Ho. injection Ho as Ht Hl.
  assert (Ht' : Simple.already_listed outline txt lvl = true).
  { unfold Simple.already_listed. apply existsb_exists. exists o.
    split; [exact Hin|]. rewrite Ht, Hl, !String.eqb_refl. reflexivity. }
  congruence.
Qed.

Lemma NoDup_snoc {A : Type} (l : list A) (x : A) :
  NoDup l -> ~ In x l -> NoDup (l ++ [x]).
Proof.
  intros Hl Hx. apply NoDup_app; [exact Hl | repeat constructor; intros [] |].
  intros a Ha [<- | []]. contradiction.
Qed.

Lemma heading_line_ok (levels : Simple.SizeLevels) (n page_num : Z)
    (outline : list OutlineEntry) (l : Line) :
  Forall (fun kv => level_ok (snd kv)) levels ->
  (0 <= page_num < n)%Z -> simple_outline_ok n outline ->
  simple_outline_ok n (Simple.heading_line levels page_num outline l).
Proof.
  intros Hlev Hp [Hok Hnd]. unfold Simple.heading_line.
  destruct (line_spans l) as [|span [|span' spans]]; try (split; assumption).
  destruct (Simple.level_get levels _) as [lvl|] eqn:Hget;
    [|split; assumption].
  destruct (PyStr.is_empty (PyStr.strip (span_text span))) eqn:He;
    [split; assumption|].
  destruct (Simple.already_listed outline _ lvl) eqn:Hl; simpl;
    [split; assumption|].
  split.
  - apply Forall_app. split; [exact Hok|]. constructor; [|constructor].
    unfold simple_entry_ok. simpl. repeat split.
    + exact (simple_level_get_value _ _ _ Hlev Hget).
    + lia.
    + lia.
    + intros H. rewrite H in He. discriminate He.
    + apply strip_trimmed.
  - rewrite map_app. simpl. apply NoDup_snoc; [exact Hnd|].
    apply already_listed_false. exact Hl.
Qed.

Lemma headings_ok (doc : Document) (levels : Simple.SizeLevels) :
  Forall (fun kv => level_ok (snd kv)) levels ->
  simple_outline_ok (page_count doc) (Simple.headings get_text doc levels).
Proof.
  intros Hlev. unfold Simple.headings.
  apply fold_left_invariant; [|split; constructor].
  intros acc [page_num p] Hin Hacc. unfold Simple.heading_page.
  pose proof (enumerate_from_lower _ _ _ _ Hin) as Hlo.
  pose proof (enumerate_from_upper _ _ _ _ Hin) as Hhi.
  apply fold_left_invariant; [|exact Hacc].
  intros acc1 b _ Hacc1. unfold Simple.heading_block.
  destruct (block_type b =? 0)%Z; [|exact Hacc1].
  apply fold_left_invariant; [|exact Hacc1].
  intros acc2 l _ Hacc2. apply heading_line_ok; [exact Hlev | | exact Hacc2].
  unfold page_count. lia.
Qed.

Lemma simple_heuristic_outline (doc : Document) (title title' : string)
    (outline : list OutlineEntry) :
  Simple.heuristic_outline get_text doc title = Outline title' outline ->
  simple_outline_ok (page_count doc) outline
  /\ title' = Simple.title_from_outline title outline.
Proof.
  unfold Simple.heuristic_outline.
  destruct (Simple.fonts_summary get_text doc) as [|first rest].
  - intros [= <- <-]. split; [split; constructor | reflexivity].
  - intros [= <- <-]. split; [|reflexivity].
    apply headings_ok. apply simple_level_map_values.
Qed.

(** X18.  A heading that [src/main.py] finds by its heuristic has a
    level H1, H2 or H3, a page number between 1 and the number of pages,
    and a text that is trimmed and not empty; and no two headings of the
    outline have the same text at the same level. *)
Theorem simple_headings (pdf_path : string) (doc : Document) (title : string)
    (outline : list OutlineEntry) :
  Simple.toc_outline (get_toc doc) = [] ->
  Simple.extract_outline get_text pdf_path (Opened doc) = Outline title outline ->
  Forall (simple_entry_ok (page_count doc)) outline
  /\ NoDup (map text_and_level outline).
Proof.
  intros Htoc. unfold Simple.extract_outline. rewrite Htoc.
  intros H. apply simple_heuristic_outline in H. exact (proj1 H).
Qed.

Lemma metadata_or_untitled_not_blank (doc : Document) :
  PyStr.strip (Simple.metadata_or_untitled doc) <> EmptyString.
Proof.
  unfold Simple.metadata_or_untitled.
  destruct (PyStr.is_empty (PyStr.strip _)) eqn:E.
  - vm_compute. discriminate.
  - intros H. rewrite H in E. discriminate E.
Qed.

Lemma is_empty_true (t : string) : PyStr.is_empty t = true -> t = EmptyString.
Proof. destruct t; [reflexivity | discriminate]. Qed.

Lemma metadata_or_untitled_base (doc : Document) :
  base_title doc (Simple.metadata_or_untitled doc).
Proof.
  unfold base_title, Simple.metadata_or_untitled.
  destruct (metadata_title doc) as [t|].
  - destruct (PyStr.is_empty (PyStr.strip t)) eqn:E.
    + right. split; [|reflexivity]. right. exists t.
      split; [reflexivity | apply is_empty_true; exact E].
    + left. exists t. split; [reflexivity|]. split; [|reflexivity].
      intros H. rewrite H in E. discriminate E.
  - right. split; [left; reflexivity | reflexivity].
Qed.

(** X19.  The title that [src/main.py] returns is never blank.  Its base
    is the metadata title when that has a character other than
    whitespace, and "Untitled" otherwise.  The title is that base, except
    on the heuristic path when the base is exactly "Untitled" and the
    outline starts with an H1: it is then the text of that heading. *)
Theorem simple_title (pdf_path : string) (doc : Document)
    (title : string) (outline : list OutlineEntry) :
  Simple.extract_outline get_text pdf_path (Opened doc) = Outline title outline ->
  PyStr.strip title <> EmptyString
  /\ exists base,
       base_title doc base
       /\ (base <> "Untitled" -> title = base)
       /\ (Simple.toc_outline (get_toc doc) <> [] -> title = base)
       /\ (outline = [] -> title = base)
       /\ (forall first rest,
              outline = first :: rest -> level first <> "H1" -> title = base)
       /\ (forall first rest,
              base = "Untitled" -> Simple.toc_outline (get_toc doc) = [] ->
              outline = first :: rest -> level first = "H1" ->
              title = text first).
Proof.
  intros Hres.
  assert (Hblank : PyStr.strip title <> EmptyString).
  { revert Hres. unfold Simple.extract_outline.
    destruct (Simple.toc_outline (get_toc doc)) as [|e es].
    - intros H. apply simple_heuristic_outline in H.
      destruct H as [[Hok _] ->]. unfold Simple.title_from_outline.
      destruct outline as [|first rest];
        [apply metadata_or_untitled_not_blank|].
      destruct (_ && _); [|apply metadata_or_untitled_not_blank].
      destruct (Forall_inv Hok) as [_ [_ [Hne Htrim]]].
      unfold trimmed in Htrim. rewrite Htrim. exact Hne.
    - intros [= <- _]. apply metadata_or_untitled_not_blank. }
  split; [exact Hblank|].
  exists (Simple.metadata_or_untitled doc).
  split; [apply metadata_or_untitled_base|].
  revert Hres. unfold Simple.extract_outline.
  destruct (Simple.toc_outline (get_toc doc)) as [|e es].
  - intros H. apply simple_heuristic_outline in H. destruct H as [_ ->].
    unfold Simple.title_from_outline. repeat split.
    + intros Hb. destruct outline as [|first rest]; [reflexivity|].
      apply String.eqb_neq in Hb. rewrite Hb. reflexivity.
    + congruence.
    + intros ->. reflexivity.
    + intros first rest -> Hl. apply String.eqb_neq in Hl.
      rewrite Hl, andb_false_r. reflexivity.
    + intros first rest Hb _ -> Hl.
      rewrite Hb, Hl, !String.eqb_refl. reflexivity.
  - intros [= <- <-]. repeat split; intros; try reflexivity; discriminate.
Qed.

End SimpleFacts.

Lemma simple_headings_witness :
  Forall (simple_entry_ok (page_count results_doc)) [mkEntry "H1" "Results" 1]
  /\ NoDup (map text_and_level [mkEntry "H1" "Results" 1]).
Proof.
  apply (simple_headings get_text_sorted "input/figures.pdf" results_doc
                         "Quarterly Figures");
    vm_compute; reflexivity.
Defined.

Lemma simple_title_witness :
  PyStr.strip "Results" <> EmptyString
  /\ exists base,
       base_title (mkDocument (Some "Untitled") [] [results_page]) base
       /\ (base <> "Untitled" -> "Results" = base)
       /\ (Simple.toc_outline [] <> [] -> "Results" = base)
       /\ ([mkEntry "H1" "Results" 1] = [] -> "Results" = base)
       /\ (forall first rest,
              [mkEntry "H1" "Results" 1] = first :: rest ->
              level first <> "H1" -> "Results" = base)
       /\ (forall first rest,
              base = "Untitled" -> Simple.toc_outline [] = [] ->
              [mkEntry "H1" "Results" 1] = first :: rest ->
              level first = "H1" -> "Results" = text first).
Proof.
  apply (simple_title get_text_sorted "input/figures.pdf"
           (mkDocument (Some "Untitled") [] [results_page]) "Results"
           [mkEntry "H1" "Results" 1]).
  vm_compute. reflexivity.
Defined.

Lemma simple_toc_entry_appends (acc : list OutlineEntry) (item : Z * string * Z) :
  Simple.toc_entry acc item = acc ++ Simple.toc_entry [] item.
Proof.
  destruct item as [[lvl txt] pg]. unfold Simple.toc_entry.
  destruct (lvl <=? 3)%Z; [reflexivity | rewrite app_nil_r; reflexivity].
Qed.

Lemma simple_toc_entries_verbatim (toc : list (Z * string * Z)) :
  flat_map (Simple.toc_entry []) toc = toc_verbatim toc.
Proof.
  unfold toc_verbatim. induction toc as [|[[lvl txt] pg] toc IH]; [reflexivity|].
  simpl flat_map. rewrite IH. simpl filter.
  change (toc_level (lvl, txt, pg)) with lvl. unfold Simple.toc_entry.
  destruct (lvl <=? 3)%Z; reflexivity.
Qed.

Lemma simple_toc_verbatim (toc : list (Z * string * Z)) :
  Simple.toc_outline toc = toc_verbatim toc.
Proof.
  unfold Simple.toc_outline. destruct toc as [|item0 toc0]; [reflexivity|].
  rewrite (fold_left_appending _ simple_toc_entry_appends).
  apply simple_toc_entries_verbatim.
Qed.

(** X20.  On its golden path [src/main.py] copies the TOC entries of
    level at most 3 as they are, text untrimmed and with no lower bound on
    the level; it returns the outline of [extract_outline.py] when every
    TOC entry has a level of at least 1 and a trimmed text. *)
Theorem simple_toc_outline (toc : list (Z * string * Z)) :
  Simple.toc_outline toc = toc_verbatim toc
  /\ (Forall (fun item => (1 <= toc_level item)%Z /\ trimmed (toc_text item)) toc ->
      Simple.toc_outline toc = toc_outline toc).
Proof.
  split; [apply simple_toc_verbatim|].
  intros Hall. rewrite simple_toc_verbatim, toc_outline_mirror.
  unfold toc_verbatim, toc_mirror.
  induction Hall as [|item toc [Hlvl Htrim] Hall IH]; [reflexivity|].
  simpl. unfold level_1_to_3 at 1.
  assert (Hlo : (1 <=? toc_level item)%Z = true) by (apply Z.leb_le; exact Hlvl).
  rewrite Hlo. simpl andb.
  destruct (toc_level item <=? 3)%Z; [|exact IH].
  simpl. rewrite IH. unfold trimmed in Htrim. rewrite Htrim. reflexivity.
Qed.

Lemma simple_toc_outline_witness :
  Simple.toc_outline [(1, "Summary", 1); (5, "Notes", 2); (2, "Outlook", 2)]%Z
  = toc_outline [(1, "Summary", 1); (5, "Notes", 2); (2, "Outlook", 2)]%Z.
Proof.
  apply (proj2 (simple_toc_outline
                  [(1, "Summary", 1); (5, "Notes", 2); (2, "Outlook", 2)]%Z)).
  repeat constructor; unfold toc_level; simpl; lia.
Defined.

Example simple_toc_level_zero :
  Simple.toc_outline [(0, " Cover ", 1)]%Z = [mkEntry "H0" " Cover " 1]
  /\ toc_outline [(0, " Cover ", 1)]%Z = [].
Proof. split; reflexivity. Qed.

Section SimpleOneSize.
Variable get_text : Page -> list Block.

Lemma add_chars_keys (P : Z -> Prop) (d : Simple.FontsSummary) (size : Z)
    (n : nat) :
  Forall (fun kv => P (fst kv)) d -> P size ->
  Forall (fun kv => P (fst kv)) (Simple.add_chars d size n).
Proof.
  intros Hd Hs. induction Hd as [|[k v] d Hk Hd IH]; simpl.
  - constructor; [exact Hs | constructor].
  - destruct (k =? size)%Z; constructor; assumption.
Qed.

Lemma fonts_summary_keys (doc : Document) (s : Z) :
  one_size get_text doc s ->
  Forall (fun kv => fst kv = s) (Simple.fonts_summary get_text doc).
Proof.
  intros Hone. unfold Simple.fonts_summary.
  apply fold_left_invariant; [|constructor].
  intros acc p Hp Hacc. unfold Simple.count_page.
  apply fold_left_invariant; [|exact Hacc].
  intros acc1 b Hb Hacc1. unfold Simple.count_block.
  destruct (block_type b =? 0)%Z eqn:Ht; [|exact Hacc1].
  apply Z.eqb_eq in Ht.
  apply fold_left_invariant; [|exact Hacc1].
  intros acc2 l Hl Hacc2. unfold Simple.count_line.
  apply fold_left_invariant; [|exact Hacc2].
  intros acc3 span Hspan Hacc3. unfold Simple.count_span.
  apply (add_chars_keys (fun k => k = s)); [exact Hacc3|].
  exact (Hone p b l span Hp Hb Ht Hl Hspan).
Qed.

Lemma max_key_is_key (best : Z * nat) (d : Simple.FontsSummary) :
  In (Simple.max_key best d) (map fst (best :: d)).
Proof.
  revert best. induction d as [|[k v] d IH]; intros best; simpl.
  - left. reflexivity.
  - destruct (snd best <? v)%nat.
    + right. exact (IH (k, v)).
    + destruct (IH best) as [H | H]; [left; exact H | right; right; exact H].
Qed.

Lemma headings_without_levels (doc : Document) :
  Simple.headings get_text doc [] = [].
Proof.
  unfold Simple.headings.
  apply (fold_left_invariant (fun o => o = [])); [|reflexivity].
  intros acc [page_num p] _ ->. unfold Simple.heading_page.
  apply (fold_left_invariant (fun o => o = [])); [|reflexivity].
  intros acc1 b _ ->. unfold Simple.heading_block.
  destruct (block_type b =? 0)%Z; [|reflexivity].
  apply (fold_left_invariant (fun o => o = [])); [|reflexivity].
  intros acc2 l _ ->. unfold Simple.heading_line.
  destruct (line_spans l) as [|span [|span' spans]]; reflexivity.
Qed.

(** X21.  [src/main.py] finds no heading in a document without usable
    TOC whose text is all of one rounded size, whatever is bold or stands
    alone: only a size larger than the most frequent one makes a
    heading. *)
Theorem simple_one_size_no_heading (pdf_path : string) (doc : Document) (s : Z) :
  one_size get_text doc s ->
  Simple.toc_outline (get_toc doc) = [] ->
  exists title,
    Simple.extract_outline get_text pdf_path (Opened doc) = Outline title [].
Proof.
  intros Hone Htoc. unfold Simple.extract_outline. rewrite Htoc.
  unfold Simple.heuristic_outline.
  pose proof (fonts_summary_keys doc s Hone) as Hkeys.
  destruct (Simple.fonts_summary get_text doc) as [|first rest];
    [eexists; reflexivity|].
  assert (Hbody : Simple.max_key first rest = s).
  { pose proof (max_key_is_key first rest) as Hin.
    apply in_map_iff in Hin. destruct Hin as [kv [<- Hkv]].
    rewrite Forall_forall in Hkeys. exact (Hkeys kv Hkv). }
  assert (Hsizes : Simple.heading_sizes (first :: rest)
                                        (Simple.max_key first rest) = []).
  { unfold Simple.heading_sizes. rewrite Hbody.
    rewrite (filter_none _ (map fst (first :: rest))); [reflexivity|].
    intros k Hk. apply in_map_iff in Hk. destruct Hk as [kv [<- Hkv]].
    rewrite Forall_forall in Hkeys. rewrite (Hkeys kv Hkv).
    apply Z.ltb_irrefl. }
  rewrite Hsizes. change (Simple.level_map []) with (@nil (Z * string)).
  rewrite headings_without_levels. eexists. reflexivity.
Qed.

End SimpleOneSize.

Lemma simple_one_size_no_heading_witness :
  exists title,
    Simple.extract_outline get_text_sorted "input/flat.pdf"
                           (Opened (mkDocument None [] [flat_page]))
    = Outline title [].
Proof.
  apply (simple_one_size_no_heading get_text_sorted "input/flat.pdf"
           (mkDocument None [] [flat_page]) 11%Z); [|reflexivity].
  intros p b l span Hp Hb _ Hl Hspan.
  destruct Hp as [<- | []].
  destruct Hb as [<- | [<- | []]];
    repeat (destruct Hl as [<- | Hl]; [destruct Hspan as [<- | []]; reflexivity|]);
    destruct Hl.
Defined.

(* ================================================================= *)
(** ** The matcher and the numbering pattern *)

Lemma nullable_lang (r : Regex.re) : Regex.nullable r = true <-> lang r [].
Proof.
  induction r as [| |p|r1 IH1 r2 IH2|r1 IH1 r2 IH2|r IH]; simpl.
  - split; [discriminate | intros H; inversion H].
  - split; [intros _; constructor | reflexivity].
  - split; [discriminate | intros H; inversion H].
  - rewrite andb_true_iff, IH1, IH2. split.
    + intros [H1 H2]. exact (lang_cat r1 r2 [] [] H1 H2).
    + intros H. inversion H as [| |? ? u v Hu Hv Hr Huv| | | |]. subst.
      apply app_eq_nil in Huv. destruct Huv as [-> ->]. split; assumption.
  - rewrite orb_true_iff, IH1, IH2. split.
    + intros [H | H]; [apply lang_alt_l | apply lang_alt_r]; exact H.
    + intros H. inversion H; subst; [left | right]; assumption.
  - split; [intros _; constructor | reflexivity].
Qed.

Lemma star_cons (r : Regex.re) (c : ascii) (w : list ascii) :
  lang (Regex.Star r) (c :: w) ->
  exists u v, w = u ++ v /\ lang r (c :: u) /\ lang (Regex.Star r) v.
Proof.
  intros H. remember (Regex.Star r) as s eqn:Hs. remember (c :: w) as l eqn:Hl.
  revert w Hl.
  induction H as [| | | | | |r' u v Hu _ Hv IHv]; intros w Hl;
    try discriminate Hs; try discriminate Hl.
  injection Hs as ->. destruct u as [|a u].
  - simpl in Hl. apply IHv; [reflexivity | exact Hl].
  - simpl in Hl. injection Hl as -> <-. exists u, v.
    split; [reflexivity|]. split; assumption.
Qed.

Lemma deriv_lang (r : Regex.re) (c : ascii) :
  forall w, lang (Regex.deriv c r) w <-> lang r (c :: w).
Proof.
  induction r as [| |p|r1 IH1 r2 IH2|r1 IH1 r2 IH2|r IH]; intros w; simpl.
  - split; intros H; inversion H.
  - split; intros H; inversion H.
  - destruct (p c) eqn:Hp; split; intros H; inversion H; subst.
    + constructor. exact Hp.
    + constructor.
    + congruence.
  - split.
    + intros H.
      assert (Hcat : lang (Regex.Cat (Regex.deriv c r1) r2) w ->
                     lang (Regex.Cat r1 r2) (c :: w)).
      { intros Hc. inversion Hc as [| |? ? u v Hu Hv Hr Huv| | | |]. subst.
        apply IH1 in Hu. exact (lang_cat r1 r2 (c :: u) v Hu Hv). }
      destruct (Regex.nullable r1) eqn:Hn; [|exact (Hcat H)].
      inversion H as [| | |? ? u Hl|? ? u Hr| |]; subst; [exact (Hcat Hl)|].
      apply IH2 in Hr. apply nullable_lang in Hn.
      exact (lang_cat r1 r2 [] (c :: w) Hn Hr).
    + intros H. inversion H as [| |? ? u v Hu Hv Hr Huv| | | |]. subst.
      destruct u as [|a u]; simpl in Huv.
      * subst v. apply nullable_lang in Hu. rewrite Hu.
        apply lang_alt_r. apply IH2. exact Hv.
      * injection Huv as -> <-. apply IH1 in Hu.
        pose proof (lang_cat _ _ _ _ Hu Hv) as Hc.
        destruct (Regex.nullable r1); [apply lang_alt_l|]; exact Hc.
  - split; intros H; inversion H; subst.
    + apply lang_alt_l. apply IH1. assumption.
    + apply lang_alt_r. apply IH2. assumption.
    + apply lang_alt_l. apply IH1. assumption.
    + apply lang_alt_r. apply IH2. assumption.
  - split.
    + intros H. inversion H as [| |? ? u v Hu Hv Hr Huv| | | |]. subst.
      apply IH in Hu. exact (lang_star_app r (c :: u) v Hu Hv).
    + intros H. apply star_cons in H. destruct H as [u [v [-> [Hu Hv]]]].
      apply lang_cat; [apply IH; exact Hu | exact Hv].
Qed.

(** [re.match] succeeds exactly when a prefix of the text is a word of
    the pattern. *)
Lemma match_prefix_lang (l : list ascii) :
  forall r, Regex.match_prefix r l = true
            <-> exists pre post, l = pre ++ post /\ lang r pre.
Proof.
  induction l as [|c l IH]; intros r; simpl.
  - rewrite orb_false_r, nullable_lang. split.
    + intros H. exists [], []. split; [reflexivity | exact H].
    + intros [pre [post [Hl H]]]. symmetry in Hl.
      apply app_eq_nil in Hl. destruct Hl as [-> _]. exact H.
  - rewrite orb_true_iff, nullable_lang, IH. split.
    + intros [H | [pre [post [-> H]]]].
      * exists [], (c :: l). split; [reflexivity | exact H].
      * exists (c :: pre), post. split; [reflexivity|].
        apply deriv_lang. exact H.
    + intros [pre [post [Hl H]]]. destruct pre as [|a pre].
      * left. exact H.
      * injection Hl as <- ->. right. exists pre, post.
        split; [reflexivity | apply deriv_lang; exact H].
Qed.

Lemma pattern_needs_space (pre : list ascii) :
  lang HeadingPattern.pattern pre -> existsb PyStr.isspace pre = true.
Proof.
  unfold HeadingPattern.pattern, Regex.Plus. intros H.
  inversion H as [| |? ? u v Hu Hv Hr Huv| | | |]. subst.
  inversion Hv as [| |? ? u' v' Hu' Hv' Hr' Huv'| | | |]. subst.
  inversion Hu' as [|? c Hc| | | | |]. subst.
  rewrite existsb_app. simpl. unfold PyStr.re_space in Hc. rewrite Hc.
  apply orb_true_r.
Qed.

(** X22.  The numbering pattern only matches a text that has a
    whitespace character after the label: a line without any whitespace
    never earns the 5 points of a numbered heading. *)
Theorem numbering_needs_space (line_text : string) :
  existsb PyStr.isspace (PyStr.chars line_text) = false ->
  Regex.re_match HeadingPattern.pattern line_text = false.
Proof.
  intros Hns. destruct (Regex.re_match HeadingPattern.pattern line_text) eqn:E;
    [|reflexivity].
  unfold Regex.re_match in E. apply match_prefix_lang in E.
  destruct E as [pre [post [Hl Hpre]]]. apply pattern_needs_space in Hpre.
  unfold PyStr.chars in Hns. rewrite Hl, existsb_app, Hpre in Hns.
  discriminate Hns.
Qed.

Lemma numbering_needs_space_witness :
  Regex.re_match HeadingPattern.pattern "1.2.3" = false.
Proof. apply numbering_needs_space. reflexivity. Defined.
